(** * Real-time RGB-D detection pipeline: depth estimator, detection pipeline,
      frame queue, streaming worker and recorder.

    Shallow embedding of [object_detection_processor.py] and
    [camera_controller.py].

    Conventions of the embedding.
    - Python integers are [Z]; a numpy [uint16] depth sample is a [Z].
    - Python and numpy floats are idealised as exact rationals [Q] wherever
      the property at hand does not depend on rounding (bounds, the early
      returns, the geometry of the centre region); such results are compared
      with [==] ([Qeq]).
    - The outlier filter of the depth estimator compares rounded values, and
      a sample can sit exactly on its threshold: its decisions are stated on
      IEEE-754 binary64 ([PrimFloat]), following numpy operation by
      operation (section "The outlier filter on IEEE-754 doubles").
    - The worker thread and the methods called from the GUI thread share the
      controller without a lock.  [_stream_worker] lets a command take
      effect between two passes of the loop; [_stream_worker_interleaved]
      lets it take effect inside a pass as well.
    - The outside world (camera SDK, detector, tracker, clock, file system,
      user callbacks) is an explicit input of every operation that talks to it.
    - Exceptions are explicit outcomes: an operation that may raise returns a
      sum, and the [try]/[except] blocks of the source become case analyses. *)

From Stdlib Require Import Floats.
From Stdlib Require Uint63.
From Stdlib Require Import String Ascii ZArith QArith Qabs List Bool Lia Lqa.
From Stdlib Require Import Reals Qreals Lra Qround.
Import ListNotations.

Local Open Scope Z_scope.

(* ------------------------------------------------------------------ *)
(** ** Numeric helpers (numpy / Python builtins) *)

(** Python [int(x)] on a finite float: truncation toward zero. *)
Definition py_int (x : Q) : Z := Z.quot (Qnum x) (Z.pos (Qden x)).

Definition Zsum (l : list Z) : Z := fold_right Z.add 0 l.
Definition Qsum (l : list Q) : Q := fold_right Qplus 0%Q l.

Definition Zlen {A} (l : list A) : Z := Z.of_nat (length l).

(** [np.mean] of an integer array (only called on non-empty arrays). *)
Definition np_mean (l : list Z) : Q := (inject_Z (Zsum l) / inject_Z (Zlen l))%Q.

(** The square of [np.std] (population variance, [ddof = 0]):
    [np.std(a) = sqrt(mean(abs(a - mean(a))**2))]. *)
Definition np_var (l : list Z) : Q :=
  let m := np_mean l in
  (Qsum (map (fun v => (inject_Z v - m) * (inject_Z v - m)) l) / inject_Z (Zlen l))%Q.

(** Decides [a <= t * sqrt s] for [0 <= a] and [0 <= s] without leaving the
    rationals (see [le_mul_sqrt_sound] for the link with [sqrt] on reals). *)
Definition le_mul_sqrt (a t s : Q) : bool :=
  if Qle_bool 0 t then Qle_bool (a * a) (t * t * s)
  else Qle_bool a 0 && Qeq_bool s 0.

(** numpy basic slicing [l[lo:hi]] for [0 <= lo <= hi <= len(l)]. *)
Definition slice {A} (lo hi : Z) (l : list A) : list A :=
  firstn (Z.to_nat (hi - lo)) (skipn (Z.to_nat lo) l).

(* ------------------------------------------------------------------ *)
(** ** Depth estimator: [ObjectDetectionProcessor.calculate_depth_robust_center] *)

(** A depth frame: rows of [uint16] millimetre samples. *)
Definition depth_array := list (list Z).

(** [depth_array.shape[0]] and [depth_array.shape[1]]. *)
Definition shape0 (d : depth_array) : Z := Zlen d.
Definition shape1 (d : depth_array) : Z :=
  match d with [] => 0 | r :: _ => Zlen r end.

(** Bounding box [x1, y1, x2, y2] as floats. *)
Definition bbox := (Q * Q * Q * Q)%type.

(** The configuration attributes set in [__init__]. *)
Record config := {
  YOLO_INPUT_SIZE : Z;
  CENTER_REGION_RATIO : Q;
  DEPTH_OUTLIER_THRESHOLD : Q
}.

Definition default_config : config :=
  {| YOLO_INPUT_SIZE := 640;
     CENTER_REGION_RATIO := 0.6;
     DEPTH_OUTLIER_THRESHOLD := 2.0 |}.

(** Lines 111-123: the corner indices of the shrunk centre region.  The
    margins are computed on exact rationals; on doubles the product
    [width * (1 - 0.6) / 2] truncates to the same integer for every width a
    frame can have. *)
Definition center_bounds (cfg : config) (d : depth_array) (b : bbox)
  : Z * Z * Z * Z :=
  let '(b0, b1, b2, b3) := b in
  let x1 := py_int b0 in
  let y1 := py_int b1 in
  let x2 := py_int b2 in
  let y2 := py_int b3 in
  let width := x2 - x1 in
  let height := y2 - y1 in
  let margin_x := py_int (inject_Z width * (1 - CENTER_REGION_RATIO cfg) / 2) in
  let margin_y := py_int (inject_Z height * (1 - CENTER_REGION_RATIO cfg) / 2) in
  let center_x1 := Z.max 0 (x1 + margin_x) in
  let center_y1 := Z.max 0 (y1 + margin_y) in
  let center_x2 := Z.min (shape1 d) (x2 - margin_x) in
  let center_y2 := Z.min (shape0 d) (y2 - margin_y) in
  (center_x1, center_y1, center_x2, center_y2).

(** Line 125: the guard that returns [0.0] on an empty region. *)
Definition region_empty (bd : Z * Z * Z * Z) : bool :=
  let '(cx1, cy1, cx2, cy2) := bd in
  (cx2 <=? cx1) || (cy2 <=? cy1).

(** Line 128: [depth_array[center_y1:center_y2, center_x1:center_x2]],
    flattened in row-major order (the order boolean-mask indexing uses). *)
Definition bbox_depth (d : depth_array) (bd : Z * Z * Z * Z) : list Z :=
  let '(cx1, cy1, cx2, cy2) := bd in
  concat (map (slice cx1 cx2) (slice cy1 cy2 d)).

(** The samples of the shrunk centre region ([[]] when line 125 returns). *)
Definition center_region (cfg : config) (d : depth_array) (b : bbox) : list Z :=
  let bd := center_bounds cfg d b in
  if region_empty bd then [] else bbox_depth d bd.

(** Line 129: the mask [(bbox_depth > 0) & (bbox_depth < 10000)]. *)
Definition is_valid_depth (v : Z) : bool := (0 <? v) && (v <? 10000).

Definition valid_depth (region : list Z) : list Z := filter is_valid_depth region.

(** Lines 139-141: the mask of the outlier filter, in exact arithmetic
    ([within_threshold_f64] below is the comparison the code makes on
    doubles; the two differ for a sample that sits on the threshold). *)
Definition within_threshold (cfg : config) (mean_depth var_depth : Q) (v : Z) : bool :=
  le_mul_sqrt (Qabs (inject_Z v - mean_depth)) (DEPTH_OUTLIER_THRESHOLD cfg) var_depth.

Definition filtered_depth (cfg : config) (valid : list Z) : list Z :=
  filter (within_threshold cfg (np_mean valid) (np_var valid)) valid.

(** Lines 131-143, on the valid samples, in exact arithmetic. *)
Definition robust_mean (cfg : config) (valid : list Z) : Q :=
  if (length valid <? 5)%nat then 0%Q
  else
    let mean_depth := np_mean valid in
    if (0 <? length (filtered_depth cfg valid))%nat
    then np_mean (filtered_depth cfg valid)
    else mean_depth.

Definition calculate_depth_robust_center (cfg : config) (d : depth_array) (b : bbox) : Q :=
  let bd := center_bounds cfg d b in
  if region_empty bd then 0%Q
  else robust_mean cfg (valid_depth (bbox_depth d bd)).

(** The scenario of the specification: a 320x240 depth frame that is 1500 mm
    on the square [120, 180) x [120, 180) and has no reading elsewhere, and
    the bounding box (100, 100, 200, 200). *)
Definition scenario_depth : depth_array :=
  map (fun y => map (fun x =>
         if (120 <=? x) && (x <? 180) && (120 <=? y) && (y <? 180) then 1500 else 0)
         (map Z.of_nat (seq 0 320)))
      (map Z.of_nat (seq 0 240)).


(** Adding [c] to every valid sample of a depth frame. *)
Definition shift_sample (c v : Z) : Z := if is_valid_depth v then v + c else v.
Definition shift_valid (c : Z) (d : depth_array) : depth_array :=
  map (map (shift_sample c)) d.

(** The sample set as the specification words it: "(0, 10000] mm". *)
Definition is_valid_depth_spec (v : Z) : bool := (0 <? v) && (v <=? 10000).
Definition valid_depth_spec (region : list Z) : list Z := filter is_valid_depth_spec region.

(* ------------------------------------------------------------------ *)
(** ** The outlier filter on IEEE-754 doubles *)

(** Lines 135-143 run on [float64]: [np.mean] and [np.std] round, and the
    mask of line 140 compares rounded values.  This section follows numpy
    operation by operation on the binary64 floats of the kernel
    ([PrimFloat]), so that the samples the filter keeps are the ones the
    code keeps, also for a sample that sits exactly on the threshold in
    exact arithmetic. *)

(** An integer as a [float64] ([uint16] sample, sum of samples, [len]);
    the conversion is exact below 2^53. *)
Definition f64_of_Z (z : Z) : float :=
  if z <? 0 then PrimFloat.opp (PrimFloat.of_uint63 (Uint63.of_Z (- z)))
  else PrimFloat.of_uint63 (Uint63.of_Z z).

(** A float attribute of the configuration: the double nearest to the
    decimal literal. *)
Definition f64_of_Q (q : Q) : float :=
  (f64_of_Z (Qnum q) / f64_of_Z (Z.pos (Qden q)))%float.

(** The loop of numpy's [pairwise_sum] for 8 <= n <= 128: eight running
    sums [r[0..7]], each fed every eighth element, [chunks] times. *)
Fixpoint unrolled_sums (chunks : nat) (r rest : list float) : list float * list float :=
  match chunks with
  | O => (r, rest)
  | S k =>
      unrolled_sums k (map (fun p => (fst p + snd p)%float) (combine r (firstn 8 rest)))
                    (skipn 8 rest)
  end.

Definition combine_sums (r : list float) : float :=
  match r with
  | [r0; r1; r2; r3; r4; r5; r6; r7] =>
      (((r0 + r1) + (r2 + r3)) + ((r4 + r5) + (r6 + r7)))%float
  | _ => 0%float
  end.

(** [pairwise_sum(a, n)], the [float64] reduction behind [np.add.reduce]
    on a contiguous array: a plain loop below 8 elements, the unrolled loop
    with a plain loop over the remainder up to 128, and two halves (the
    first a multiple of 8 long) above.  The plain loop starts from 0.0
    (from -0.0 in recent versions of numpy, which gives the same sum
    unless every summand is -0.0; squares never are).  [fuel] bounds the
    depth of the recursion. *)
Fixpoint pairwise_sum (fuel : nat) (a : list float) : float :=
  let n := length a in
  if (n <? 8)%nat then fold_left PrimFloat.add a 0%float
  else if (n <=? 128)%nat then
    let '(r, rest) := unrolled_sums (n / 8 - 1) (firstn 8 a) (skipn 8 a) in
    fold_left PrimFloat.add rest (combine_sums r)
  else
    match fuel with
    | O => 0%float
    | S k =>
        let n2 := (n / 2 - (n / 2) mod 8)%nat in
        (pairwise_sum k (firstn n2 a) + pairwise_sum k (skipn n2 a))%float
    end.

Definition np_sum_f64 (a : list float) : float := pairwise_sum (length a) a.

(** [np.mean] of an integer array: the samples are accumulated in
    [float64], which is exact as long as the sum stays below 2^53, and the
    sum is divided by the count. *)
Definition np_mean_f64 (l : list Z) : float :=
  (f64_of_Z (Zsum l) / f64_of_Z (Zlen l))%float.

(** [np.std] of an integer array ([_var] of numpy):
    [x = arr - arrmean; x = x * x; sqrt(sum(x) / n)]. *)
Definition np_std_f64 (l : list Z) : float :=
  let arrmean := np_mean_f64 l in
  let x := map (fun v => (f64_of_Z v - arrmean)%float) l in
  let x := map (fun u => (u * u)%float) x in
  PrimFloat.sqrt (np_sum_f64 x / f64_of_Z (Zlen l)).

(** Line 140: [np.abs(valid_depth - mean_depth) <= threshold * std_depth]. *)
Definition within_threshold_f64 (cfg : config) (mean_depth std_depth : float) (v : Z)
  : bool :=
  (PrimFloat.abs (f64_of_Z v - mean_depth)
   <=? f64_of_Q (DEPTH_OUTLIER_THRESHOLD cfg) * std_depth)%float.

Definition filtered_depth_f64 (cfg : config) (valid : list Z) : list Z :=
  filter (within_threshold_f64 cfg (np_mean_f64 valid) (np_std_f64 valid)) valid.

(** Lines 131-143 on doubles. *)
Definition robust_mean_f64 (cfg : config) (valid : list Z) : float :=
  if (length valid <? 5)%nat then 0%float
  else
    let mean_depth := np_mean_f64 valid in
    if (0 <? length (filtered_depth_f64 cfg valid))%nat
    then np_mean_f64 (filtered_depth_f64 cfg valid)
    else mean_depth.

(** [calculate_depth_robust_center] with the arithmetic of lines 135-143
    on doubles. *)
Definition calculate_depth_robust_center_f64 (cfg : config) (d : depth_array) (b : bbox)
  : float :=
  let bd := center_bounds cfg d b in
  if region_empty bd then 0%float
  else robust_mean_f64 cfg (valid_depth (bbox_depth d bd)).



(* ------------------------------------------------------------------ *)
(** ** Python values that reach [json.dump] *)

(** A Python [dict] keeps insertion order: an association list. *)
#[warnings="-register-all"]
Inductive json : Type :=
| JNull
| JBool (b : bool)
| JInt (z : Z)
| JFloat (q : Q)
| JStr (s : string)
| JList (l : list json)
| JObj (fields : list (string * json)).

Fixpoint assoc (k : string) (fields : list (string * json)) : option json :=
  match fields with
  | [] => None
  | (k', v) :: rest => if String.eqb k k' then Some v else assoc k rest
  end.

(** [d[k]] / [k in d] on a value that is a dict. *)
Definition jget (k : string) (j : json) : option json :=
  match j with JObj fields => assoc k fields | _ => None end.

Definition jkeys (j : json) : list string :=
  match j with JObj fields => map fst fields | _ => [] end.

(** Truth value of an [Optional[dict]] in a condition. *)
Definition py_truthy (m : option json) : bool :=
  match m with
  | None => false
  | Some (JObj []) => false
  | Some _ => true
  end.

Definition opt_json {A} (f : A -> json) (o : option A) : json :=
  match o with Some a => f a | None => JNull end.

(* ------------------------------------------------------------------ *)
(** ** Images *)

(** A colour image: rows of three-channel pixels. *)
Definition pixel := (Z * Z * Z)%type.
Definition image := list (list pixel).

(** [cv2.cvtColor] with [COLOR_BGR2RGB] or [COLOR_RGB2BGR]: both exchange
    channels 0 and 2. *)
Definition cvtColor_swap (img : image) : image :=
  map (map (fun p : pixel => let '(c0, c1, c2) := p in (c2, c1, c0))) img.

(* ------------------------------------------------------------------ *)
(** ** Detection pipeline: [ObjectDetectionProcessor] *)

(** What [tracker.update_with_detections] hands back ([sv.Detections]). *)
Record detections := {
  xyxy : list bbox;
  class_id : list Z;
  tracker_id : list Z;
  confidence : list Q
}.

(** Outcome of the [try] block of [process_frame] up to the annotators
    (model call, [from_ultralytics], tracker update, the loops over the
    detections): either a statement raises, or tracked detections come back
    together with the class-name table [results.names].  Without a tracker
    ([load_model] stopped before line 91) the detections carry no tracker
    ids and the loops raise on them: that, too, is [DetectorRaises]. *)
Inductive detector_outcome :=
| DetectorRaises (msg : string)
| Detected (dets : detections) (names : Z -> string).

(** Everything [process_frame] reads from the outside world. *)
Record detect_env := {
  de_outcome : detector_outcome;
  de_annotated : image;       (* result of the box and label annotators *)
  de_start_time : Q;          (* [time.time()] at line 153 *)
  de_end_time : Q;            (* [time.time()] at line 212 *)
  de_timestamp : Q            (* [time.time()] at line 226 *)
}.

Record stats := {
  objects_detected : Z;
  avg_processing_time : Q;
  model_loaded : bool;
  last_detection_count : Z
}.

Record ObjectDetectionProcessor := {
  model_path : string;
  model : bool;                       (* [self.model] is set (and the imports succeeded) *)
  frame_count : Z;
  processing_times : list Q;
  detection_stats : stats;
  cfg : config;
  detection_metadata : list json
}.

(** [__init__]. *)
Definition new_processor (path : string) : ObjectDetectionProcessor :=
  {| model_path := path;
     model := false;
     frame_count := 0;
     processing_times := [];
     detection_stats := {| objects_detected := 0; avg_processing_time := 0;
                           model_loaded := false; last_detection_count := 0 |};
     cfg := default_config;
     detection_metadata := [] |}.

(** Lines 173-188: the dict stored for detection number [i].  An
    [sv.Detections] always has the attributes probed with [hasattr]. *)
Definition detection_record (self : ObjectDetectionProcessor) (depth_frame : depth_array)
    (dets : detections) (names : Z -> string) (i : nat) (b : bbox) : json :=
  let avg_depth := calculate_depth_robust_center (cfg self) depth_frame b in
  let cid := nth_error (class_id dets) i in
  let tid := nth_error (tracker_id dets) i in
  let conf := nth_error (confidence dets) i in
  let class_name := match cid with Some c => names c | None => "unknown"%string end in
  let '(b0, b1, b2, b3) := b in
  JObj [ ("tracker_id"%string, opt_json JInt tid);
         ("class_id"%string, opt_json JInt cid);
         ("class_name"%string, JStr class_name);
         ("confidence"%string, opt_json JFloat conf);
         ("bbox"%string, JList [JFloat b0; JFloat b1; JFloat b2; JFloat b3]);
         ("depth_mm"%string, JFloat avg_depth);
         ("depth_m"%string,
            JFloat (if Qlt_le_dec 0 avg_depth then avg_depth / 1000 else 0)%Q) ].

(** [enumerate]. *)
Fixpoint enumerate_from {A} (i : nat) (l : list A) : list (nat * A) :=
  match l with
  | [] => []
  | a :: rest => (i, a) :: enumerate_from (S i) rest
  end.

Definition detection_info (self : ObjectDetectionProcessor) (depth_frame : depth_array)
    (dets : detections) (names : Z -> string) : list json :=
  map (fun ib => detection_record self depth_frame dets names (fst ib) (snd ib))
      (enumerate_from 0 (xyxy dets)).

(** Lines 213-215: keep the last 30 measurements. *)
Definition push_processing_time (times : list Q) (t : Q) : list Q :=
  let times' := times ++ [t] in
  if (30 <? length times')%nat then tl times' else times'.

Definition np_mean_Q (l : list Q) : Q := (Qsum l / inject_Z (Zlen l))%Q.

(** [process_frame]: returns the new processor state, the frame to show and
    the metadata dict.  The labels of lines 190-202 only feed the external
    annotator, whose result is [de_annotated]. *)
Definition process_frame (env : detect_env) (self : ObjectDetectionProcessor)
    (rgb_frame : image) (depth_frame : depth_array)
  : ObjectDetectionProcessor * (image * json) :=
  if negb (model self) then
    (self, (rgb_frame, JObj [("error"%string, JStr "Model not loaded")]))
  else
    match de_outcome env with
    | DetectorRaises msg =>
        (self, (rgb_frame,
                JObj [("error"%string, JStr (String.append "Processing failed: " msg))]))
    | Detected dets names =>
        let info := detection_info self depth_frame dets names in
        let processing_time := ((de_end_time env - de_start_time env) * 1000)%Q in
        let times := push_processing_time (processing_times self) processing_time in
        let n := Zlen (xyxy dets) in
        let st := {| objects_detected := n;
                     avg_processing_time := np_mean_Q times;
                     model_loaded := model_loaded (detection_stats self);
                     last_detection_count := n |} in
        let frame_metadata :=
          JObj [ ("frame_number"%string, JInt (frame_count self));
                 ("timestamp"%string, JFloat (de_timestamp env));
                 ("processing_time_ms"%string, JFloat processing_time);
                 ("detections"%string, JList info) ] in
        ({| model_path := model_path self;
            model := model self;
            frame_count := frame_count self + 1;
            processing_times := times;
            detection_stats := st;
            cfg := cfg self;
            detection_metadata := detection_metadata self |},
         (de_annotated env, frame_metadata))
    end.

(** [add_detection_metadata]. *)
Definition add_detection_metadata (self : ObjectDetectionProcessor) (metadata : json)
  : ObjectDetectionProcessor :=
  {| model_path := model_path self;
     model := model self;
     frame_count := frame_count self;
     processing_times := processing_times self;
     detection_stats := detection_stats self;
     cfg := cfg self;
     detection_metadata := detection_metadata self ++ [metadata] |}.

(** [clear_metadata]. *)
Definition clear_metadata (self : ObjectDetectionProcessor) : ObjectDetectionProcessor :=
  {| model_path := model_path self;
     model := model self;
     frame_count := 0;
     processing_times := processing_times self;
     detection_stats := detection_stats self;
     cfg := cfg self;
     detection_metadata := [] |}.

(** [str.replace(old, new)] for a non-empty [old]: every non-overlapping
    occurrence, scanning from the left.  [skip] counts the characters of the
    occurrence just replaced that are still to be dropped. *)
Fixpoint replace_from (old new : string) (skip : nat) (s : string) : string :=
  match s with
  | EmptyString => EmptyString
  | String c s' =>
      match skip with
      | S k => replace_from old new k s'
      | O =>
          if String.prefix old s
          then String.append new (replace_from old new (String.length old - 1) s')
          else String c (replace_from old new 0 s')
      end
  end.

Definition str_replace (old new s : string) : string := replace_from old new 0 s.

(** Line 249. *)
Definition metadata_file (output_path : string) : string :=
  str_replace ".mp4" "_detections.json"
    (str_replace ".avi" "_detections.json" output_path).

(** Lines 251-260: the object handed to [json.dump]. *)
Definition metadata_document (self : ObjectDetectionProcessor) : json :=
  JObj [ ("total_frames"%string, JInt (Zlen (detection_metadata self)));
         ("model_path"%string, JStr (model_path self));
         ("config"%string,
            JObj [ ("center_region_ratio"%string, JFloat (CENTER_REGION_RATIO (cfg self)));
                   ("depth_outlier_threshold"%string,
                      JFloat (DEPTH_OUTLIER_THRESHOLD (cfg self)));
                   ("yolo_input_size"%string, JInt (YOLO_INPUT_SIZE (cfg self))) ]);
         ("frames"%string, JList (detection_metadata self)) ].

(** [save_detection_metadata]: [fs_ok] tells whether [open] and [json.dump]
    succeed.  Returns the success flag and the file written, if any. *)
Definition save_detection_metadata (fs_ok : bool) (self : ObjectDetectionProcessor)
    (output_path : string) : bool * option (string * json) :=
  if fs_ok then (true, Some (metadata_file output_path, metadata_document self))
  else (false, None).

(* ------------------------------------------------------------------ *)
(** ** Frame queue: [queue.Queue(maxsize=5)] *)

Record FrameData := {
  fd_rgb : image;
  fd_depth : depth_array;
  fd_depth_colorized : image;
  fd_annotated : image;
  fd_detection_metadata : option json;
  fd_timestamp : Q
}.

Module Queue.

Record t (A : Type) := mk { maxsize : Z; items : list A }.
Arguments mk {A}.
Arguments maxsize {A}.
Arguments items {A}.

Definition qsize {A} (q : t A) : Z := Zlen (items q).

Definition full {A} (q : t A) : bool :=
  (0 <? maxsize q) && (maxsize q <=? qsize q).

(** [put_nowait]: [None] stands for [raise Full]. *)
Definition put_nowait {A} (q : t A) (x : A) : option (t A) :=
  if full q then None else Some (mk (maxsize q) (items q ++ [x])).

(** [get_nowait]: [None] stands for [raise Empty]. *)
Definition get_nowait {A} (q : t A) : option (A * t A) :=
  match items q with
  | [] => None
  | x :: rest => Some (x, mk (maxsize q) rest)
  end.

End Queue.

(** Lines 223-235 of [_stream_worker]: the producer's push.  The bare
    [except] swallows [Full]: "Queue is full, skip this frame". *)
Definition push {A} (q : Queue.t A) (x : A) : Queue.t A :=
  match Queue.put_nowait q x with
  | Some q' => q'
  | None => q
  end.

(** The push as the specification words it: "if full, discard the oldest
    resident bundle, then insert". *)
Definition push_spec {A} (q : Queue.t A) (x : A) : Queue.t A :=
  if Queue.full q
  then Queue.mk (Queue.maxsize q) (tl (Queue.items q) ++ [x])
  else Queue.mk (Queue.maxsize q) (Queue.items q ++ [x]).

(* ------------------------------------------------------------------ *)
(** ** Camera controller: [CameraController] *)

(** A [cv2.VideoWriter]: its file and the frames written so far. *)
Record VideoWriter := { vw_path : string; vw_frames : list image }.

Definition vw_write (w : VideoWriter) (f : image) : VideoWriter :=
  {| vw_path := vw_path w; vw_frames := vw_frames w ++ [f] |}.

Record CameraController := {
  pipeline : bool;                          (* [self.pipeline] is set *)
  is_streaming : bool;
  frame_queue : Queue.t FrameData;
  rgb_callback : bool;                      (* a callback is registered *)
  depth_callback : bool;
  recording : bool;
  rgb_writer : option VideoWriter;
  depth_writer : option VideoWriter;
  record_start_time : option Q;
  detection_processor : ObjectDetectionProcessor;
  detection_enabled : bool;
  recording_output_path : option string     (* [None]: attribute not yet created *)
}.

(** [__init__]. *)
Definition new_controller : CameraController :=
  {| pipeline := false;
     is_streaming := false;
     frame_queue := Queue.mk 5 [];
     rgb_callback := false;
     depth_callback := false;
     recording := false;
     rgb_writer := None;
     depth_writer := None;
     record_start_time := None;
     detection_processor := new_processor "PredictModel/best PT 3500.pt";
     detection_enabled := false;
     recording_output_path := None |}.

Definition set_is_streaming (b : bool) (s : CameraController) : CameraController :=
  {| pipeline := pipeline s; is_streaming := b; frame_queue := frame_queue s;
     rgb_callback := rgb_callback s; depth_callback := depth_callback s;
     recording := recording s; rgb_writer := rgb_writer s;
     depth_writer := depth_writer s; record_start_time := record_start_time s;
     detection_processor := detection_processor s;
     detection_enabled := detection_enabled s;
     recording_output_path := recording_output_path s |}.

Definition set_frame_queue (q : Queue.t FrameData) (s : CameraController) : CameraController :=
  {| pipeline := pipeline s; is_streaming := is_streaming s; frame_queue := q;
     rgb_callback := rgb_callback s; depth_callback := depth_callback s;
     recording := recording s; rgb_writer := rgb_writer s;
     depth_writer := depth_writer s; record_start_time := record_start_time s;
     detection_processor := detection_processor s;
     detection_enabled := detection_enabled s;
     recording_output_path := recording_output_path s |}.

Definition set_detection_processor (p : ObjectDetectionProcessor) (s : CameraController)
  : CameraController :=
  {| pipeline := pipeline s; is_streaming := is_streaming s; frame_queue := frame_queue s;
     rgb_callback := rgb_callback s; depth_callback := depth_callback s;
     recording := recording s; rgb_writer := rgb_writer s;
     depth_writer := depth_writer s; record_start_time := record_start_time s;
     detection_processor := p;
     detection_enabled := detection_enabled s;
     recording_output_path := recording_output_path s |}.

Definition set_detection_enabled (b : bool) (s : CameraController) : CameraController :=
  {| pipeline := pipeline s; is_streaming := is_streaming s; frame_queue := frame_queue s;
     rgb_callback := rgb_callback s; depth_callback := depth_callback s;
     recording := recording s; rgb_writer := rgb_writer s;
     depth_writer := depth_writer s; record_start_time := record_start_time s;
     detection_processor := detection_processor s;
     detection_enabled := b;
     recording_output_path := recording_output_path s |}.

Definition set_writers (rw dw : option VideoWriter) (s : CameraController) : CameraController :=
  {| pipeline := pipeline s; is_streaming := is_streaming s; frame_queue := frame_queue s;
     rgb_callback := rgb_callback s; depth_callback := depth_callback s;
     recording := recording s; rgb_writer := rw;
     depth_writer := dw; record_start_time := record_start_time s;
     detection_processor := detection_processor s;
     detection_enabled := detection_enabled s;
     recording_output_path := recording_output_path s |}.

(** [enable_detection]. *)
Definition enable_detection (enabled : bool) (s : CameraController) : CameraController :=
  set_detection_enabled
    (enabled && model_loaded (detection_stats (detection_processor s))) s.

(** [get_latest_frames]. *)
Definition get_latest_frames (s : CameraController) : option FrameData * CameraController :=
  match Queue.get_nowait (frame_queue s) with
  | Some (x, q) => (Some x, set_frame_queue q s)
  | None => (None, s)
  end.

(** Where the body of [start_recording]'s [try] block may raise. *)
Inductive start_outcome :=
| StartOk
| RgbWriterRaises       (* before [self.rgb_writer] is assigned *)
| DepthWriterRaises.    (* after [self.rgb_writer], before [self.depth_writer] *)

Record start_env := { se_outcome : start_outcome; se_time : Q }.

(** [start_recording]. *)
Definition start_recording (env : start_env) (output_path : string) (s : CameraController)
  : bool * CameraController :=
  if recording s then (false, s)
  else
    let video_suffix :=
      if detection_enabled s then "_detection.avi"%string else "_rgb.avi"%string in
    let rw := {| vw_path := String.append output_path video_suffix; vw_frames := [] |} in
    let dw := {| vw_path := String.append output_path "_depth.avi"; vw_frames := [] |} in
    match se_outcome env with
    | RgbWriterRaises => (false, s)
    | DepthWriterRaises => (false, set_writers (Some rw) (depth_writer s) s)
    | StartOk =>
        let p := if detection_enabled s
                 then clear_metadata (detection_processor s)
                 else detection_processor s in
        (true,
         {| pipeline := pipeline s; is_streaming := is_streaming s;
            frame_queue := frame_queue s;
            rgb_callback := rgb_callback s; depth_callback := depth_callback s;
            recording := true;
            rgb_writer := Some rw;
            depth_writer := Some dw;
            record_start_time := Some (se_time env);
            detection_processor := p;
            detection_enabled := detection_enabled s;
            recording_output_path := Some output_path |})
    end.

(** What [stop_recording] leaves outside the controller: the closed video
    files and the metadata sidecar. *)
Record stop_output := {
  released : list VideoWriter;
  sidecar : option (string * json)
}.

Definition opt_list {A} (o : option A) : list A :=
  match o with Some a => [a] | None => [] end.

(** [stop_recording]; [fs_ok] as in [save_detection_metadata]. *)
Definition stop_recording (fs_ok : bool) (s : CameraController)
  : stop_output * CameraController :=
  if negb (recording s) then ({| released := []; sidecar := None |}, s)
  else
    let written :=
      match detection_enabled s, recording_output_path s with
      | true, Some path =>
          let output_file := String.append path "_detection.avi" in
          snd (save_detection_metadata fs_ok (detection_processor s) output_file)
      | _, _ => None
      end in
    let start' :=
      match record_start_time s with
      | Some t => if Qeq_bool t 0 then Some t else None
      | None => None
      end in
    ({| released := opt_list (rgb_writer s) ++ opt_list (depth_writer s);
        sidecar := written |},
     {| pipeline := pipeline s; is_streaming := is_streaming s;
        frame_queue := frame_queue s;
        rgb_callback := rgb_callback s; depth_callback := depth_callback s;
        recording := false;
        rgb_writer := None;
        depth_writer := None;
        record_start_time := start';
        detection_processor := detection_processor s;
        detection_enabled := detection_enabled s;
        recording_output_path := recording_output_path s |}).

(** Result of a [write] on a video sink inside [_record_frame]. *)
Inductive write_outcome := WriteOk | RgbWriteRaises | DepthWriteRaises.

(** [_record_frame]: a failing write is printed and swallowed.  A write can
    only fail on a sink that exists. *)
Definition _record_frame (w : write_outcome) (rgb_frame depth_frame : image)
    (s : CameraController) : CameraController :=
  match rgb_writer s, w with
  | Some _, RgbWriteRaises => s
  | _, _ =>
      let rw := option_map (fun x => vw_write x rgb_frame) (rgb_writer s) in
      match depth_writer s, w with
      | Some _, DepthWriteRaises => set_writers rw (depth_writer s) s
      | _, _ =>
          set_writers rw (option_map (fun x => vw_write x depth_frame) (depth_writer s)) s
      end
  end.

(** Outcome of lines 185-199: waiting for a frame pair, aligning it and
    reading the two frames. *)
Inductive acquire_outcome :=
| WaitTimeout                     (* [wait_for_frames] raises after 1000 ms *)
| CameraError (msg : string)      (* any other exception of the camera calls *)
| Frames (color_frame : option image) (depth_frame : option depth_array).

(** Everything one iteration of [_stream_worker] reads from the outside. *)
Record frame_env := {
  fe_acquire : acquire_outcome;
  fe_depth_colormap : image;              (* [cv2.applyColorMap(...)] *)
  fe_cvt_raises : bool;                   (* the first [cvtColor] of line 214 raises *)
  fe_detect : detect_env;
  fe_timestamp : Q;                       (* [time.time()] at line 230 *)
  fe_write : write_outcome;
  fe_rgb_callback_raises : bool;
  fe_depth_callback_raises : bool
}.

(** Whether the [while] loop goes on to test its condition again
    ([continue], or the end of the body) or is left through [break]. *)
Inductive loop_status := Looping | Exited.

(** Lines 207-220. *)
Definition detect_step (e : frame_env) (s : CameraController) (color_image : image)
    (depth_image : depth_array) : CameraController * image * option json :=
  if detection_enabled s then
    if fe_cvt_raises e then (s, color_image, None)
    else
      let rgb_frame := cvtColor_swap color_image in
      let '(p, (annotated_frame, detection_metadata)) :=
        process_frame (fe_detect e) (detection_processor s) rgb_frame depth_image in
      (set_detection_processor p s, cvtColor_swap annotated_frame, Some detection_metadata)
  else (s, color_image, None).

(** Lines 237-245. *)
Definition record_step (e : frame_env) (s : CameraController) (color_image : image)
    (depth_colormap annotated_frame : image) (detection_metadata : option json)
  : CameraController :=
  if recording s then
    let frame_to_record := if detection_enabled s then annotated_frame else color_image in
    let s1 := _record_frame (fe_write e) frame_to_record depth_colormap s in
    if detection_enabled s1 && py_truthy detection_metadata then
      match detection_metadata with
      | Some m =>
          set_detection_processor (add_detection_metadata (detection_processor s1) m) s1
      | None => s1
      end
    else s1
  else s.

(** Lines 247-251: [Exited] when a registered callback raises. *)
Definition callback_step (e : frame_env) (s : CameraController) : loop_status :=
  if rgb_callback s && fe_rgb_callback_raises e then Exited
  else if depth_callback s && fe_depth_callback_raises e then Exited
  else Looping.

(** One pass through the body of the [while] loop of [_stream_worker]. *)
Definition stream_iteration (e : frame_env) (s : CameraController)
  : CameraController * loop_status :=
  match fe_acquire e with
  | WaitTimeout => (s, Exited)
  | CameraError _ => (s, Exited)
  | Frames None _ => (s, Looping)
  | Frames _ None => (s, Looping)
  | Frames (Some color_image) (Some depth_image) =>
      let depth_colormap := fe_depth_colormap e in
      let '(s1, annotated_frame, detection_metadata) :=
        detect_step e s color_image depth_image in
      let frame_data :=
        {| fd_rgb := color_image;
           fd_depth := depth_image;
           fd_depth_colorized := depth_colormap;
           fd_annotated := annotated_frame;
           fd_detection_metadata := detection_metadata;
           fd_timestamp := fe_timestamp e |} in
      let s2 := set_frame_queue (push (frame_queue s1) frame_data) s1 in
      let s3 := record_step e s2 color_image depth_colormap annotated_frame
                            detection_metadata in
      (s3, callback_step e s3)
  end.

(** What the consumer role does between two iterations of the worker. *)
Inductive command :=
| CmdStop                                     (* [self.is_streaming = False] *)
| CmdGetLatest                                (* [get_latest_frames()] *)
| CmdEnableDetection (enabled : bool)
| CmdStartRecording (env : start_env) (output_path : string)
| CmdStopRecording (fs_ok : bool).

Definition run_command (c : command) (s : CameraController) : CameraController :=
  match c with
  | CmdStop => set_is_streaming false s
  | CmdGetLatest => snd (get_latest_frames s)
  | CmdEnableDetection b => enable_detection b s
  | CmdStartRecording env path => snd (start_recording env path s)
  | CmdStopRecording fs_ok => snd (stop_recording fs_ok s)
  end.

Inductive event :=
| Frame (e : frame_env)
| Control (c : command).

(** [_stream_worker] along a trace: each [Frame] is one test of the loop
    condition followed, when it holds, by one pass through the body; each
    [Control] is a command of the consumer role taking effect between two
    passes ([_stream_worker_interleaved] below lets commands take effect
    inside a pass as well).  [Looping] means the trace ended with the
    worker still in its loop. *)
Fixpoint _stream_worker (trace : list event) (s : CameraController)
  : CameraController * loop_status :=
  match trace with
  | [] => (s, Looping)
  | Control c :: rest => _stream_worker rest (run_command c s)
  | Frame e :: rest =>
      if is_streaming s && pipeline s then
        match stream_iteration e s with
        | (s', Exited) => (s', Exited)
        | (s', Looping) => _stream_worker rest s'
        end
      else (s, Exited)
  end.

(** The errors that reach the outer [except] of [_stream_worker]: those of
    the camera calls and those of a registered callback. *)
Definition breaks_loop (e : frame_env) (s : CameraController) : bool :=
  match fe_acquire e with
  | WaitTimeout => true
  | CameraError _ => true
  | Frames (Some _) (Some _) =>
      (rgb_callback s && fe_rgb_callback_raises e)
      || (depth_callback s && fe_depth_callback_raises e)
  | Frames _ _ => false
  end.

(** The control fields of the controller, which no iteration of the worker
    writes. *)
Definition same_control (s s' : CameraController) : Prop :=
  pipeline s' = pipeline s /\
  is_streaming s' = is_streaming s /\
  rgb_callback s' = rgb_callback s /\
  depth_callback s' = depth_callback s /\
  recording s' = recording s /\
  detection_enabled s' = detection_enabled s /\
  record_start_time s' = record_start_time s /\
  recording_output_path s' = recording_output_path s.

(** A pass that reaches the push of lines 222-235 and is not interrupted
    by a callback afterwards. *)
Definition feeds (e : frame_env) : bool :=
  match fe_acquire e with
  | Frames (Some _) (Some _) =>
      negb (fe_rgb_callback_raises e) && negb (fe_depth_callback_raises e)
  | _ => false
  end.

(** A stop request occurs in the trace. *)
Definition is_stop (ev : event) : bool :=
  match ev with Control CmdStop => true | _ => false end.

(** The [frame_number] entries of the recorded metadata, in order. *)
Definition frame_numbers (recorded : list json) : list Z :=
  flat_map (fun m => match jget "frame_number" m with
                     | Some (JInt n) => [n]
                     | _ => []
                     end) recorded.

(** The events of one recording session: passes of the worker, reads of the
    consumer and a stop request, but no change of the detection switch and
    no second start or stop of the recorder. *)
Definition session_event (ev : event) : bool :=
  match ev with
  | Frame _ => true
  | Control CmdGetLatest => true
  | Control CmdStop => true
  | Control _ => false
  end.

Definition is_frame (ev : event) : bool :=
  match ev with Frame _ => true | Control _ => false end.

Definition count_frames (trace : list event) : nat := length (filter is_frame trace).

(** A pass that feeds the recorder a frame on which detection succeeded and
    that no callback interrupts, or a read of the consumer. *)
Definition fed_and_detected (ev : event) : bool :=
  match ev with
  | Frame e =>
      match fe_acquire e, de_outcome (fe_detect e) with
      | Frames (Some _) (Some _), Detected _ _ =>
          negb (fe_cvt_raises e) && negb (fe_rgb_callback_raises e)
          && negb (fe_depth_callback_raises e)
      | _, _ => false
      end
  | Control CmdGetLatest => true
  | Control _ => false
  end.

(** The numbered records of the accumulator are 0, 1, ... up to the frame
    counter. *)
Definition numbered_from_zero (p : ObjectDetectionProcessor) : Prop :=
  exists k : nat,
    frame_count p = Z.of_nat k /\
    frame_numbers (detection_metadata p) = map Z.of_nat (seq 0 k).

(* ------------------------------------------------------------------ *)
(** ** The worker and the consumer interleaved *)

(** [_stream_worker] runs on its own thread; the methods of the consumer
    role are called from the GUI thread and take no lock.  A command can
    therefore take effect inside a pass of the worker as well as between
    two passes.  A pass is cut between its blocks: test of the loop
    condition and acquisition, detection, push, frame write, metadata
    append, callbacks. *)
Definition run_commands (cs : list command) (s : CameraController) : CameraController :=
  fold_left (fun st c => run_command c st) cs s.

(** Lines 238-241.  The flag tells whether the branch of line 238 was
    entered. *)
Definition write_step (e : frame_env) (s : CameraController)
    (color_image depth_colormap annotated_frame : image) : CameraController * bool :=
  if recording s then
    let frame_to_record := if detection_enabled s then annotated_frame else color_image in
    (_record_frame (fe_write e) frame_to_record depth_colormap s, true)
  else (s, false).

(** Lines 244-245, which are inside the branch of line 238. *)
Definition append_step (s : CameraController) (entered : bool)
    (detection_metadata : option json) : CameraController :=
  if entered then
    if detection_enabled s && py_truthy detection_metadata then
      match detection_metadata with
      | Some m =>
          set_detection_processor (add_detection_metadata (detection_processor s) m) s
      | None => s
      end
    else s
  else s.

(** One pass of the worker together with the commands of the consumer
    that take effect while it runs. *)
Record pass := {
  ps_env : frame_env;
  ps_before : list command;          (* before the loop condition of line 182 *)
  ps_after_acquire : list command;   (* between lines 205 and 211 *)
  ps_after_detect : list command;    (* between lines 220 and 232 *)
  ps_after_push : list command;      (* between lines 235 and 238 *)
  ps_after_write : list command;     (* between lines 241 and 244 *)
  ps_after_append : list command     (* between lines 245 and 248 *)
}.

Definition interleaved_pass (p : pass) (s : CameraController)
  : CameraController * loop_status :=
  let e := ps_env p in
  let s0 := run_commands (ps_before p) s in
  if is_streaming s0 && pipeline s0 then
    match fe_acquire e with
    | WaitTimeout => (s0, Exited)
    | CameraError _ => (s0, Exited)
    | Frames None _ => (s0, Looping)
    | Frames _ None => (s0, Looping)
    | Frames (Some color_image) (Some depth_image) =>
        let depth_colormap := fe_depth_colormap e in
        let s1 := run_commands (ps_after_acquire p) s0 in
        let '(s2, annotated_frame, detection_metadata) :=
          detect_step e s1 color_image depth_image in
        let s3 := run_commands (ps_after_detect p) s2 in
        let frame_data :=
          {| fd_rgb := color_image;
             fd_depth := depth_image;
             fd_depth_colorized := depth_colormap;
             fd_annotated := annotated_frame;
             fd_detection_metadata := detection_metadata;
             fd_timestamp := fe_timestamp e |} in
        let s4 := set_frame_queue (push (frame_queue s3) frame_data) s3 in
        let s5 := run_commands (ps_after_push p) s4 in
        let '(s6, entered) :=
          write_step e s5 color_image depth_colormap annotated_frame in
        let s7 := run_commands (ps_after_write p) s6 in
        let s8 := append_step s7 entered detection_metadata in
        let s9 := run_commands (ps_after_append p) s8 in
        (s9, callback_step e s9)
    end
  else (s0, Exited).

(** [_stream_worker] with the commands of the consumer landing anywhere:
    the passes in order, until the loop is left. *)
Fixpoint _stream_worker_interleaved (passes : list pass) (s : CameraController)
  : CameraController * loop_status :=
  match passes with
  | [] => (s, Looping)
  | p :: rest =>
      match interleaved_pass p s with
      | (s', Exited) => (s', Exited)
      | (s', Looping) => _stream_worker_interleaved rest s'
      end
  end.

Definition pass_commands (p : pass) : list command :=
  ps_before p ++ ps_after_acquire p ++ ps_after_detect p ++ ps_after_push p
  ++ ps_after_write p ++ ps_after_append p.

(** No command lands inside the pass. *)
Definition atomic_pass (p : pass) : bool :=
  match ps_after_acquire p ++ ps_after_detect p ++ ps_after_push p
        ++ ps_after_write p ++ ps_after_append p with
  | [] => true
  | _ => false
  end.

(** The trace of [_stream_worker] a pass without inner commands stands
    for. *)
Definition events_of_pass (p : pass) : list event :=
  map Control (ps_before p) ++ [Frame (ps_env p)].

(** A pass of one recording session: wherever they land, the commands are
    reads of the consumer and stop requests. *)
Definition session_pass (p : pass) : bool :=
  forallb (fun c => session_event (Control c)) (pass_commands p).

(** A pass that feeds the recorder a frame on which detection succeeded,
    with reads of the consumer only. *)
Definition detected_pass (p : pass) : bool :=
  fed_and_detected (Frame (ps_env p))
  && forallb (fun c => fed_and_detected (Control c)) (pass_commands p).

(** The attributes the recorder reads in a session. *)
Definition same_session (s t : CameraController) : Prop :=
  recording t = recording s /\
  detection_enabled t = detection_enabled s /\
  detection_processor t = detection_processor s.

(* ------------------------------------------------------------------ *)
(** ** Shape of the records that reach the sidecar *)

(** [pat] occurs somewhere in [s]. *)
Fixpoint occurs (pat s : string) : bool :=
  match s with
  | EmptyString => String.prefix pat EmptyString
  | String _ s' => String.prefix pat s || occurs pat s'
  end.

Fixpoint mem_char (u : ascii) (s : string) : bool :=
  match s with
  | EmptyString => false
  | String a s' => Ascii.eqb a u || mem_char u s'
  end.

(** A serialised detection: the seven entries of lines 180-188, in order. *)
Definition detection_wf (j : json) : Prop :=
  exists (tid cid : option Z) (name : string) (conf : option Q)
         (b0 b1 b2 b3 mm m : Q),
    j = JObj [ ("tracker_id"%string, opt_json JInt tid);
               ("class_id"%string, opt_json JInt cid);
               ("class_name"%string, JStr name);
               ("confidence"%string, opt_json JFloat conf);
               ("bbox"%string, JList [JFloat b0; JFloat b1; JFloat b2; JFloat b3]);
               ("depth_mm"%string, JFloat mm);
               ("depth_m"%string, JFloat m) ].

(** A frame record of lines 224-229. *)
Definition frame_metadata_wf (j : json) : Prop :=
  exists (n : Z) (ts pt : Q) (dets : list json),
    j = JObj [ ("frame_number"%string, JInt n);
               ("timestamp"%string, JFloat ts);
               ("processing_time_ms"%string, JFloat pt);
               ("detections"%string, JList dets) ] /\
    Forall detection_wf dets.

(** An error record of lines 151 and 236. *)
Definition error_record (j : json) : Prop :=
  exists msg : string, j = JObj [("error"%string, JStr msg)].

Definition recorded_wf (j : json) : Prop := frame_metadata_wf j \/ error_record j.

(* ------------------------------------------------------------------ *)
(** ** Sample data for the scenarios *)

(** A bundle recognisable by its timestamp. *)
Definition bundle (n : Z) : FrameData :=
  {| fd_rgb := []; fd_depth := []; fd_depth_colorized := []; fd_annotated := [];
     fd_detection_metadata := None; fd_timestamp := inject_Z n |}.

(** A processor after a successful [load_model]. *)
Definition loaded_processor : ObjectDetectionProcessor :=
  {| model_path := "PredictModel/best PT 3500.pt";
     model := true;
     frame_count := 0;
     processing_times := [];
     detection_stats := {| objects_detected := 0; avg_processing_time := 0;
                           model_loaded := true; last_detection_count := 0 |};
     cfg := default_config;
     detection_metadata := [] |}.

(** A connected controller whose worker has been started; with
    [detection] set, the model is loaded and detection is enabled. *)
Definition streaming_controller (detection : bool) : CameraController :=
  {| pipeline := true;
     is_streaming := true;
     frame_queue := Queue.mk 5 [];
     rgb_callback := false;
     depth_callback := false;
     recording := false;
     rgb_writer := None;
     depth_writer := None;
     record_start_time := None;
     detection_processor :=
       if detection then loaded_processor else new_processor "PredictModel/best PT 3500.pt";
     detection_enabled := detection;
     recording_output_path := None |}.

(** Readings for the outlier filter: six near 1 m and one far off, and
    five of which the last sits exactly two standard deviations from the
    mean. *)
Definition far_reading : list Z := [1000; 1010; 1020; 1030; 1040; 1050; 4000].
Definition threshold_tie : list Z := [1000; 1000; 1000; 1000; 1002].

(** 0.1, 0.2, ..., [n]/10 as doubles, and seventeen readings around 1 m. *)
Definition tenths (n : nat) : list float :=
  map (fun k => (f64_of_Z (Z.of_nat k) / 10)%float) (seq 1 n).

Definition seventeen_readings : list Z :=
  [984; 1041; 971; 1029; 960; 909; 979; 901; 919; 927; 1053; 1037; 908; 950;
   1004; 974; 1056].

(** A one-row depth frame and a detection whose centre region is the five
    middle samples of it. *)
Definition row_depth : depth_array := [[1500; 1500; 1500; 1500; 1500; 1500; 1500]].

Definition one_detection : detector_outcome :=
  Detected {| xyxy := [(0, 0, 7, 1)%Q]; class_id := [2]; tracker_id := [7];
              confidence := [0.9%Q] |}
           (fun _ => "object"%string).

Definition detect_with (o : detector_outcome) : detect_env :=
  {| de_outcome := o; de_annotated := [[(1, 2, 3)]];
     de_start_time := 10; de_end_time := 10.02; de_timestamp := 10.02 |}.

Definition frame_with (a : acquire_outcome) (o : detector_outcome) : frame_env :=
  {| fe_acquire := a;
     fe_depth_colormap := [[(0, 0, 128)]];
     fe_cvt_raises := false;
     fe_detect := detect_with o;
     fe_timestamp := 10.03;
     fe_write := WriteOk;
     fe_rgb_callback_raises := false;
     fe_depth_callback_raises := false |}.

Definition good_frame (o : detector_outcome) : frame_env :=
  frame_with (Frames (Some [[(30, 20, 10)]]) (Some row_depth)) o.

Definition timeout_frame : frame_env := frame_with WaitTimeout one_detection.

(** A pass with no command of the consumer, and a pass during which
    [start_recording] is called right after the detection block. *)
Definition quiet_pass (e : frame_env) : pass :=
  {| ps_env := e; ps_before := []; ps_after_acquire := []; ps_after_detect := [];
     ps_after_push := []; ps_after_write := []; ps_after_append := [] |}.

Definition pass_with_start (e : frame_env) (env : start_env) (path : string) : pass :=
  {| ps_env := e; ps_before := []; ps_after_acquire := [];
     ps_after_detect := [CmdStartRecording env path];
     ps_after_push := []; ps_after_write := []; ps_after_append := [] |}.

Definition start_ok : start_env := {| se_outcome := StartOk; se_time := 9 |}.

(* ------------------------------------------------------------------ *)
(** ** Model loading: [load_model], [setup_object_detection] *)

(** Where [load_model] stops.  [LoadOk] carries the result of
    [os.path.basename], which only enters the message. *)
Inductive load_outcome :=
| DepsMissing                   (* [DETECTION_AVAILABLE] is [False] *)
| FileMissing                   (* [os.path.exists(self.model_path)] is [False] *)
| YoloRaises (msg : string)     (* [YOLO(...)] raises: [self.model] is not assigned *)
| SetupRaises (msg : string)    (* a later statement of the [try] block raises *)
| LoadOk (basename : string).

Definition set_model_path (path : string) (self : ObjectDetectionProcessor)
  : ObjectDetectionProcessor :=
  {| model_path := path;
     model := model self;
     frame_count := frame_count self;
     processing_times := processing_times self;
     detection_stats := detection_stats self;
     cfg := cfg self;
     detection_metadata := detection_metadata self |}.

Definition set_model (self : ObjectDetectionProcessor) : ObjectDetectionProcessor :=
  {| model_path := model_path self;
     model := true;
     frame_count := frame_count self;
     processing_times := processing_times self;
     detection_stats := detection_stats self;
     cfg := cfg self;
     detection_metadata := detection_metadata self |}.

Definition set_model_loaded (self : ObjectDetectionProcessor) : ObjectDetectionProcessor :=
  {| model_path := model_path self;
     model := model self;
     frame_count := frame_count self;
     processing_times := processing_times self;
     detection_stats :=
       {| objects_detected := objects_detected (detection_stats self);
          avg_processing_time := avg_processing_time (detection_stats self);
          model_loaded := true;
          last_detection_count := last_detection_count (detection_stats self) |};
     cfg := cfg self;
     detection_metadata := detection_metadata self |}.

(** Truth value of an [Optional[str]]. *)
Definition str_truthy (o : option string) : option string :=
  match o with
  | Some EmptyString => None
  | other => other
  end.

(** [load_model]. *)
Definition load_model (o : load_outcome) (model_path_arg : option string)
    (self : ObjectDetectionProcessor) : (bool * string) * ObjectDetectionProcessor :=
  match o with
  | DepsMissing => ((false, "Detection dependencies not available"%string), self)
  | _ =>
      let self1 := match str_truthy model_path_arg with
                   | Some p => set_model_path p self
                   | None => self
                   end in
      match o with
      | DepsMissing => ((false, "Detection dependencies not available"%string), self)
      | FileMissing =>
          ((false, String.append "Model file not found: " (model_path self1)), self1)
      | YoloRaises msg =>
          ((false, String.append "Failed to load model: " msg), self1)
      | SetupRaises msg =>
          ((false, String.append "Failed to load model: " msg), set_model self1)
      | LoadOk basename =>
          ((true, String.append "Model loaded successfully: " basename),
           set_model_loaded (set_model self1))
      end
  end.

(** [setup_object_detection]. *)
Definition setup_object_detection (o : load_outcome) (path : string) (s : CameraController)
  : (bool * string) * CameraController :=
  let '(r, p) := load_model o (Some path) (detection_processor s) in
  (r, set_detection_processor p s).

(** [is_detection_enabled]. *)
Definition is_detection_enabled (s : CameraController) : bool :=
  detection_enabled s && model_loaded (detection_stats (detection_processor s)).

(* ------------------------------------------------------------------ *)
(** ** Connecting and streaming: [connect], [start_streaming],
       [stop_streaming], [disconnect] *)

Definition set_pipeline (b : bool) (s : CameraController) : CameraController :=
  {| pipeline := b; is_streaming := is_streaming s; frame_queue := frame_queue s;
     rgb_callback := rgb_callback s; depth_callback := depth_callback s;
     recording := recording s; rgb_writer := rgb_writer s;
     depth_writer := depth_writer s; record_start_time := record_start_time s;
     detection_processor := detection_processor s;
     detection_enabled := detection_enabled s;
     recording_output_path := recording_output_path s |}.

(** [is_connected]. *)
Definition is_connected (s : CameraController) : bool := pipeline s.

(** [start_streaming]: the thread it starts is the worker whose passes are
    [stream_iteration]. *)
Definition start_streaming (s : CameraController) : bool * CameraController :=
  if is_streaming s || negb (pipeline s) then (false, s)
  else (true, set_is_streaming true s).

(** [stop_streaming]: clears the flag, waits for the worker (a bounded
    join, with no effect on the state) and stops an active recording. *)
Definition stop_streaming (fs_ok : bool) (s : CameraController)
  : stop_output * CameraController :=
  stop_recording fs_ok (set_is_streaming false s).

(** [disconnect]: an error of [pipeline.stop()] is swallowed. *)
Definition disconnect (fs_ok : bool) (s : CameraController)
  : stop_output * CameraController :=
  let '(out, s1) := stop_streaming fs_ok s in
  (out, set_pipeline false s1).

(** Whether the body of the [try] block of [connect] runs through
    ([_apply_camera_settings] swallows its own errors) or raises. *)
Inductive connect_outcome := ConnectOk | ConnectRaises.

(** [connect]. *)
Definition connect (o : connect_outcome) (fs_ok : bool) (s : CameraController)
  : bool * stop_output * CameraController :=
  match o with
  | ConnectOk => (true, {| released := []; sidecar := None |}, set_pipeline true s)
  | ConnectRaises =>
      let '(out, s1) := disconnect fs_ok s in (false, out, s1)
  end.

(* ------------------------------------------------------------------ *)
(** ** The controller as a whole *)

(** Everything that can happen to a controller: a call of one of its
    public methods by the consumer role, or a pass of the worker through
    its loop (taken only while the loop condition holds). *)
Inductive op :=
| OpCommand (c : command)
| OpStartStreaming
| OpStopStreaming (fs_ok : bool)
| OpConnect (o : connect_outcome) (fs_ok : bool)
| OpDisconnect (fs_ok : bool)
| OpSetupDetection (o : load_outcome) (path : string)
| OpWorkerPass (e : frame_env).

Definition run_op (o : op) (s : CameraController) : CameraController :=
  match o with
  | OpCommand c => run_command c s
  | OpStartStreaming => snd (start_streaming s)
  | OpStopStreaming fs_ok => snd (stop_streaming fs_ok s)
  | OpConnect co fs_ok => snd (connect co fs_ok s)
  | OpDisconnect fs_ok => snd (disconnect fs_ok s)
  | OpSetupDetection lo path => snd (setup_object_detection lo path s)
  | OpWorkerPass e =>
      if is_streaming s && pipeline s then fst (stream_iteration e s) else s
  end.

Definition run_ops (ops : list op) (s : CameraController) : CameraController :=
  fold_left (fun st o => run_op o st) ops s.

(** What every state reached from [__init__] satisfies. *)
Definition state_ok (s : CameraController) : Prop :=
  Queue.maxsize (frame_queue s) = 5 /\
  (length (Queue.items (frame_queue s)) <= 5)%nat /\
  (length (processing_times (detection_processor s)) <= 30)%nat /\
  (model_loaded (detection_stats (detection_processor s)) = true ->
   model (detection_processor s) = true) /\
  (detection_enabled s = true ->
   model_loaded (detection_stats (detection_processor s)) = true) /\
  (recording s = true ->
   rgb_writer s <> None /\ depth_writer s <> None /\ recording_output_path s <> None).

(** [n] successive calls of [get_latest_frames]. *)
Fixpoint poll (n : nat) (s : CameraController) : list (option FrameData) * CameraController :=
  match n with
  | O => ([], s)
  | S k =>
      let '(r, s1) := get_latest_frames s in
      let '(rs, s2) := poll k s1 in
      (r :: rs, s2)
  end.

(** The colour frame and the depth colormap a feeding pass hands to the
    recorder. *)
Definition pass_color (e : frame_env) : image :=
  match fe_acquire e with
  | Frames (Some color_image) _ => color_image
  | _ => []
  end.

Definition rgb_written (e : frame_env) : bool :=
  match fe_write e with RgbWriteRaises => false | _ => true end.

Definition depth_written (e : frame_env) : bool :=
  match fe_write e with WriteOk => true | _ => false end.

(** A run of equal readings with one other reading somewhere inside. *)
Definition with_outlier (v w : Z) (a b : nat) : list Z :=
  repeat v a ++ w :: repeat v b.

(* ================================================================== *)
(** * Properties *)

(* ------------------------------------------------------------------ *)
(** ** Arithmetic of means *)

Lemma Zlen_pos {A} (l : list A) : l <> [] -> 0 < Zlen l.
Proof. destruct l; [congruence | unfold Zlen; simpl; lia]. Qed.

Lemma Zsum_app (l1 l2 : list Z) : Zsum (l1 ++ l2) = Zsum l1 + Zsum l2.
Proof. induction l1 as [|x l1 IH]; simpl; [reflexivity | rewrite IH; lia]. Qed.

Lemma Zsum_repeat (v : Z) (k : nat) : Zsum (repeat v k) = Z.of_nat k * v.
Proof. induction k as [|k IH]; [reflexivity|]. cbn [repeat Zsum fold_right].
  fold (Zsum (repeat v k)). rewrite IH. lia. Qed.

Lemma Zsum_bounds (lo hi : Z) (l : list Z) :
  Forall (fun v => lo <= v <= hi) l ->
  lo * Zlen l <= Zsum l <= hi * Zlen l.
Proof.
  unfold Zlen. induction 1 as [|v l Hv _ IH]; simpl length; simpl Zsum; [lia|].
  rewrite Nat2Z.inj_succ. nia.
Qed.

Lemma np_mean_bounds (lo hi : Z) (l : list Z) :
  l <> [] ->
  Forall (fun v => lo <= v <= hi) l ->
  (inject_Z lo <= np_mean l /\ np_mean l <= inject_Z hi)%Q.
Proof.
  intros Hne Hall.
  pose proof (Zlen_pos l Hne) as Hn.
  pose proof (Zsum_bounds lo hi l Hall) as [Hlo Hhi].
  assert (Hq : (0 < inject_Z (Zlen l))%Q) by (rewrite <- (Zlt_Qlt 0); exact Hn).
  unfold np_mean. split.
  - apply Qle_shift_div_l; [exact Hq|].
    rewrite <- inject_Z_mult, <- Zle_Qle. exact Hlo.
  - apply Qle_shift_div_r; [exact Hq|].
    rewrite <- inject_Z_mult, <- Zle_Qle. exact Hhi.
Qed.

Lemma is_valid_depth_iff (v : Z) : is_valid_depth v = true <-> 0 < v < 10000.
Proof. unfold is_valid_depth. rewrite andb_true_iff, !Z.ltb_lt. tauto. Qed.

Lemma valid_depth_range (region : list Z) :
  Forall (fun v => 1 <= v <= 9999) (valid_depth region).
Proof.
  apply Forall_forall. intros v Hv.
  apply filter_In in Hv. destruct Hv as [_ Hv].
  apply is_valid_depth_iff in Hv. lia.
Qed.

Lemma Forall_filter_keep {A} (P : A -> Prop) (f : A -> bool) (l : list A) :
  Forall P l -> Forall P (filter f l).
Proof.
  intros H. apply Forall_forall. intros x Hx.
  apply filter_In in Hx. destruct Hx as [Hx _].
  rewrite Forall_forall in H. auto.
Qed.

Lemma nonempty_of_length {A} (l : list A) : (0 <? length l)%nat = true -> l <> [].
Proof. destruct l; simpl; [discriminate | congruence]. Qed.

Lemma nonempty_of_min_length {A} (l : list A) (k : nat) :
  (length l <? S k)%nat = false -> l <> [].
Proof. destruct l; simpl; [discriminate | congruence]. Qed.

(** The value computed on the valid samples is [0] or a mean of samples
    between 1 and 9999. *)
Lemma robust_mean_range (c : config) (valid : list Z) :
  Forall (fun v => 1 <= v <= 9999) valid ->
  robust_mean c valid = 0%Q \/ (1 <= robust_mean c valid /\ robust_mean c valid <= 9999)%Q.
Proof.
  intros Hall. unfold robust_mean.
  destruct (length valid <? 5)%nat eqn:Hlen; [left; reflexivity | right].
  unfold filtered_depth.
  destruct (0 <? length (filter _ valid))%nat eqn:Hf.
  - apply (np_mean_bounds 1 9999).
    + apply nonempty_of_length. exact Hf.
    + apply Forall_filter_keep. exact Hall.
  - apply (np_mean_bounds 1 9999); [|exact Hall].
    apply (nonempty_of_min_length _ 4). exact Hlen.
Qed.

(** C10: for every depth map and bounding box, degenerate or out-of-bounds
    boxes included, the estimate is exactly [0.0] or lies strictly between
    0 and 10000 mm, on the fallback path as well. *)
Theorem C10_estimate_zero_or_in_range (c : config) (d : depth_array) (b : bbox) :
  calculate_depth_robust_center c d b = 0%Q \/
  (0 < calculate_depth_robust_center c d b /\
   calculate_depth_robust_center c d b < 10000)%Q.
Proof.
  unfold calculate_depth_robust_center.
  destruct (region_empty (center_bounds c d b)); [left; reflexivity|].
  destruct (robust_mean_range c (valid_depth (bbox_depth d (center_bounds c d b)))
              (valid_depth_range _)) as [H0 | [Hlo Hhi]].
  - left. exact H0.
  - right. split; Lqa.lra.
Qed.

(* ------------------------------------------------------------------ *)
(** ** The outlier test and the real square root *)

Lemma Q2R_zero : Q2R 0 = 0%R.
Proof. unfold Q2R. simpl. lra. Qed.

Lemma Q2R_nonneg (q : Q) : (0 <= q)%Q -> (0 <= Q2R q)%R.
Proof. intros H. rewrite <- Q2R_zero. apply Qle_Rle. exact H. Qed.

Lemma Q2R_Qabs (q : Q) : Q2R (Qabs q) = Rabs (Q2R q).
Proof.
  destruct (Qlt_le_dec q 0) as [Hneg | Hpos].
  - rewrite (Qeq_eqR _ _ (Qabs_neg q (Qlt_le_weak _ _ Hneg))), Q2R_opp.
    apply Qlt_Rlt in Hneg. rewrite Q2R_zero in Hneg.
    rewrite Rabs_left; [reflexivity | exact Hneg].
  - rewrite (Qeq_eqR _ _ (Qabs_pos q Hpos)).
    rewrite Rabs_right; [reflexivity|].
    apply Rle_ge. apply Q2R_nonneg. exact Hpos.
Qed.

Lemma Q2R_inject_Z (z : Z) : Q2R (inject_Z z) = IZR z.
Proof. unfold Q2R, inject_Z. simpl. field. Qed.

(** [le_mul_sqrt a t s] is the comparison [a <= t * sqrt s] of the source. *)
Lemma le_mul_sqrt_sound (a t s : Q) :
  (0 <= a)%Q -> (0 <= s)%Q ->
  le_mul_sqrt a t s = true <-> (Q2R a <= Q2R t * sqrt (Q2R s))%R.
Proof.
  intros Ha Hs.
  pose proof (Q2R_nonneg a Ha) as HA.
  pose proof (Q2R_nonneg s Hs) as HS.
  pose proof (sqrt_pos (Q2R s)) as Hsq.
  pose proof (sqrt_sqrt (Q2R s) HS) as Hss.
  unfold le_mul_sqrt.
  destruct (Qle_bool 0 t) eqn:Ht.
  - apply Qle_bool_iff in Ht. pose proof (Q2R_nonneg t Ht) as HT.
    rewrite Qle_bool_iff. split.
    + intros H. apply Qle_Rle in H. rewrite !Q2R_mult in H.
      apply Rsqr_incr_0_var; [|apply Rmult_le_pos; assumption].
      unfold Rsqr.
      replace (Q2R t * sqrt (Q2R s) * (Q2R t * sqrt (Q2R s)))%R
        with (Q2R t * Q2R t * (sqrt (Q2R s) * sqrt (Q2R s)))%R by ring.
      rewrite Hss. exact H.
    + intros H. apply Rle_Qle. rewrite !Q2R_mult.
      apply Rsqr_incr_1 in H; [|exact HA|apply Rmult_le_pos; assumption].
      unfold Rsqr in H.
      replace (Q2R t * sqrt (Q2R s) * (Q2R t * sqrt (Q2R s)))%R
        with (Q2R t * Q2R t * (sqrt (Q2R s) * sqrt (Q2R s)))%R in H by ring.
      rewrite Hss in H. exact H.
  - assert (HT : (Q2R t < 0)%R).
    { rewrite <- Q2R_zero. apply Qlt_Rlt. apply Qnot_le_lt. intros C.
      apply Qle_bool_iff in C. congruence. }
    rewrite andb_true_iff, Qle_bool_iff, Qeq_bool_iff. split.
    + intros [Ha0 Hs0].
      apply Qle_Rle in Ha0. rewrite Q2R_zero in Ha0.
      apply Qeq_eqR in Hs0. rewrite Q2R_zero in Hs0.
      rewrite Hs0, sqrt_0. lra.
    + intros H.
      assert (Hle : (Q2R t * sqrt (Q2R s) <= 0)%R) by nra.
      split.
      * apply Rle_Qle. rewrite Q2R_zero. lra.
      * apply eqR_Qeq. rewrite Q2R_zero.
        destruct (Rle_lt_or_eq_dec _ _ HS) as [Hpos | Heq]; [|symmetry; exact Heq].
        pose proof (sqrt_lt_R0 _ Hpos). nra.
Qed.

Lemma Qsquare_nonneg (q : Q) : (0 <= q * q)%Q.
Proof.
  destruct (Qlt_le_dec q 0) as [Hneg | Hpos].
  - setoid_replace (q * q)%Q with ((- q) * (- q))%Q by ring.
    apply Qmult_le_0_compat; Lqa.lra.
  - apply Qmult_le_0_compat; exact Hpos.
Qed.

Lemma Qsum_squares_nonneg (m : Q) (l : list Z) :
  (0 <= Qsum (map (fun v => (inject_Z v - m) * (inject_Z v - m)) l))%Q.
Proof.
  induction l as [|v l IH]; simpl; [Lqa.lra|].
  pose proof (Qsquare_nonneg (inject_Z v - m)) as Hsq.
  Lqa.lra.
Qed.

Lemma np_var_nonneg (l : list Z) : l <> [] -> (0 <= np_var l)%Q.
Proof.
  intros Hne. unfold np_var.
  apply Qle_shift_div_l.
  - rewrite <- (Zlt_Qlt 0). apply Zlen_pos. exact Hne.
  - rewrite Qmult_0_l. apply Qsum_squares_nonneg.
Qed.

(** The survivors of the outlier filter are exactly the valid samples no
    farther than [DEPTH_OUTLIER_THRESHOLD * std] from the mean. *)
Lemma within_threshold_sound (c : config) (valid : list Z) (v : Z) :
  valid <> [] ->
  within_threshold c (np_mean valid) (np_var valid) v = true <->
  (Rabs (IZR v - Q2R (np_mean valid))
     <= Q2R (DEPTH_OUTLIER_THRESHOLD c) * sqrt (Q2R (np_var valid)))%R.
Proof.
  intros Hne. unfold within_threshold.
  rewrite le_mul_sqrt_sound.
  - rewrite Q2R_Qabs, Q2R_minus, Q2R_inject_Z. reflexivity.
  - apply Qabs_nonneg.
  - apply np_var_nonneg. exact Hne.
Qed.

(* ------------------------------------------------------------------ *)
(** ** Depth estimator: sample selection *)

Lemma count_occ_filter_true (f : Z -> bool) (l : list Z) (v : Z) :
  f v = true -> count_occ Z.eq_dec (filter f l) v = count_occ Z.eq_dec l v.
Proof.
  intros Hv. induction l as [|x l IH]; simpl; [reflexivity|].
  destruct (Z.eq_dec x v) as [-> | Hne].
  - rewrite Hv. simpl. destruct (Z.eq_dec v v); [|congruence]. now rewrite IH.
  - destruct (f x); simpl; [|exact IH].
    destruct (Z.eq_dec x v); [congruence | exact IH].
Qed.

Lemma estimate_on_center_region (c : config) (d : depth_array) (b : bbox) :
  calculate_depth_robust_center c d b = robust_mean c (valid_depth (center_region c d b)).
Proof.
  unfold calculate_depth_robust_center, center_region.
  destruct (region_empty (center_bounds c d b)); reflexivity.
Qed.

(** With the default ratio 0.6 each margin is a fifth of the side of the
    box, truncated toward zero: three fifths of the side are retained. *)
Lemma default_margin (w : Z) :
  py_int (inject_Z w * (1 - CENTER_REGION_RATIO default_config) / 2) = Z.quot w 5.
Proof.
  unfold py_int. simpl.
  replace (w * 4 * 1) with (w * 4) by lia.
  change 20 with (5 * 4).
  apply Z.quot_mul_cancel_r; lia.
Qed.

(** C3 (as the code has it): the estimate is computed from the samples of
    the shrunk centre region that lie strictly between 0 and 10000 mm, both
    bounds excluded, each kept with its multiplicity; when fewer than 5 of
    them exist the estimate is [0.0].  With the default ratio the region
    is the box less a margin of a fifth of its side all around, clipped to
    the frame. *)
Theorem C3_valid_samples_open_interval (c : config) (d : depth_array) (b : bbox) :
  let region := center_region c d b in
  calculate_depth_robust_center c d b = robust_mean c (valid_depth region) /\
  Forall (fun v => 0 < v < 10000) (valid_depth region) /\
  (forall v, 0 < v < 10000 ->
     count_occ Z.eq_dec (valid_depth region) v = count_occ Z.eq_dec region v) /\
  ((length (valid_depth region) < 5)%nat ->
     calculate_depth_robust_center c d b = 0%Q) /\
  (let '(b0, b1, b2, b3) := b in
   let mx := Z.quot (py_int b2 - py_int b0) 5 in
   let my := Z.quot (py_int b3 - py_int b1) 5 in
   center_bounds default_config d b =
   (Z.max 0 (py_int b0 + mx), Z.max 0 (py_int b1 + my),
    Z.min (shape1 d) (py_int b2 - mx), Z.min (shape0 d) (py_int b3 - my))).
Proof.
  intros region. split; [apply estimate_on_center_region|]. split; [|split; [|split]].
  - apply Forall_forall. intros v Hv. apply filter_In in Hv.
    apply is_valid_depth_iff. tauto.
  - intros v Hv. apply count_occ_filter_true. apply is_valid_depth_iff. exact Hv.
  - intros Hlt. rewrite estimate_on_center_region. fold region.
    unfold robust_mean. apply Nat.ltb_lt in Hlt. rewrite Hlt. reflexivity.
  - destruct b as [[[b0 b1] b2] b3]. unfold center_bounds.
    rewrite !default_margin. reflexivity.
Qed.

Lemma C3_valid_samples_open_interval_witness :
  calculate_depth_robust_center default_config [[700; 0; 800; 10000; 900]] (0, 0, 5, 1)%Q = 0%Q.
Proof.
  apply (C3_valid_samples_open_interval default_config [[700; 0; 800; 10000; 900]] (0, 0, 5, 1)%Q).
  vm_compute. lia.
Defined.

(** C3 as worded, with 10000 mm counted as a valid sample, fails: a region of
    five samples of 10000 mm holds five samples of (0, 10000], yet none of
    them is gathered and the estimate is [0.0] instead of their mean. *)
Lemma C3_counterexample :
  let d := [[10000; 10000; 10000; 10000; 10000; 10000; 10000]] in
  let b := (0, 0, 7, 1)%Q in
  let region := center_region default_config d b in
  region = [10000; 10000; 10000; 10000; 10000] /\
  valid_depth_spec region = region /\
  valid_depth region = [] /\
  calculate_depth_robust_center default_config d b = 0%Q /\
  robust_mean default_config (valid_depth_spec region) == 10000.
Proof. vm_compute. repeat split; discriminate. Qed.

(* ------------------------------------------------------------------ *)
(** ** Depth estimator: outlier rejection *)

Lemma np_mean_const (v0 : Z) (l : list Z) :
  l <> [] -> Forall (fun v => v = v0) l -> np_mean l == inject_Z v0.
Proof.
  intros Hne Hall.
  destruct (np_mean_bounds v0 v0 l Hne) as [Hlo Hhi].
  - eapply Forall_impl; [|exact Hall]. simpl. intros; lia.
  - apply Qle_antisym; assumption.
Qed.

Lemma robust_mean_const (c : config) (v0 : Z) (l : list Z) :
  (5 <= length l)%nat -> Forall (fun v => v = v0) l ->
  robust_mean c l == inject_Z v0.
Proof.
  intros Hlen Hall. unfold robust_mean.
  destruct (length l <? 5)%nat eqn:E; [apply Nat.ltb_lt in E; lia|].
  destruct (0 <? length (filtered_depth c l))%nat eqn:Hf.
  - apply np_mean_const.
    + apply nonempty_of_length. exact Hf.
    + apply Forall_filter_keep. exact Hall.
  - apply np_mean_const; [|exact Hall].
    apply (nonempty_of_min_length _ 4). exact E.
Qed.



Lemma Forall_of_forallb {A} (f : A -> bool) (P : A -> Prop) (l : list A) :
  (forall x, f x = true -> P x) -> forallb f l = true -> Forall P l.
Proof.
  intros Hf H. apply Forall_forall. intros x Hx.
  apply Hf. rewrite forallb_forall in H. auto.
Qed.

(* ------------------------------------------------------------------ *)
(** ** Depth estimator: outlier rejection on doubles *)






Lemma estimate_f64_on_center_region (c : config) (d : depth_array) (b : bbox) :
  calculate_depth_robust_center_f64 c d b
  = robust_mean_f64 c (valid_depth (center_region c d b)).
Proof.
  unfold calculate_depth_robust_center_f64, center_region.
  destruct (region_empty (center_bounds c d b)); reflexivity.
Qed.

(** The early returns do not depend on the arithmetic: without a region,
    or with fewer than 5 valid samples in it, the estimate is [0.0]. *)
Lemma estimate_f64_early_return (c : config) (d : depth_array) (b : bbox) :
  (length (valid_depth (center_region c d b)) < 5)%nat ->
  calculate_depth_robust_center_f64 c d b = 0%float.
Proof.
  intros H. rewrite estimate_f64_on_center_region. unfold robust_mean_f64.
  apply Nat.ltb_lt in H. rewrite H. reflexivity.
Qed.

(** With five valid samples or more, the estimate is the mean of the
    samples the filter keeps, or of all of them when it keeps none. *)
Lemma robust_mean_f64_of_five (c : config) (valid : list Z) :
  (5 <= length valid)%nat ->
  robust_mean_f64 c valid
  = np_mean_f64 (if (0 <? length (filtered_depth_f64 c valid))%nat
                 then filtered_depth_f64 c valid else valid).
Proof.
  intros Hlen. unfold robust_mean_f64.
  destruct (length valid <? 5)%nat eqn:E; [apply Nat.ltb_lt in E; lia|].
  destruct (0 <? length (filtered_depth_f64 c valid))%nat; reflexivity.
Qed.





(** The filter at work: the far reading is dropped and the estimate is the
    mean of the others. *)
Example outlier_is_dropped_f64 :
  filtered_depth_f64 default_config far_reading = [1000; 1010; 1020; 1030; 1040; 1050] /\
  robust_mean_f64 default_config far_reading = 1025%float.
Proof. vm_compute. split; reflexivity. Qed.

(** A sample can sit exactly on the threshold: of 1000, 1000, 1000, 1000,
    1002 the mean is 1000.4 and the standard deviation 0.8, so 1002 lies
    1.6 = 2.0 * 0.8 away.  On doubles the distance comes out as
    1.6000000000000227 and the limit as 1.6000000000000001: the code drops
    1002 and returns 1000.0, where exact arithmetic keeps it. *)
Example threshold_tie_is_decided_by_rounding :
  filtered_depth_f64 default_config threshold_tie = [1000; 1000; 1000; 1000] /\
  robust_mean_f64 default_config threshold_tie = 1000%float /\
  filtered_depth default_config threshold_tie = threshold_tie /\
  robust_mean default_config threshold_tie == 5002 # 5.
Proof. vm_compute. repeat split; reflexivity. Qed.

(** Sums of more than 8 and of more than 128 doubles. *)
Example np_sum_f64_of_integers :
  np_sum_f64 (map f64_of_Z (map Z.of_nat (seq 1 100))) = 5050%float /\
  np_sum_f64 (map f64_of_Z (map Z.of_nat (seq 1 300))) = 45150%float.
Proof. vm_compute. split; reflexivity. Qed.

(** The order of the additions shows in the last bit.  0.1 + 0.2 + ... +
    2.0 comes out as 21.0 from the unrolled loop and as 20.999999999999996
    from a plain loop; with 200 terms, summed in two halves, the sum is
    2009.9999999999998 against 2010.0000000000002. *)
Example np_sum_f64_order :
  np_sum_f64 (tenths 20) = 21%float /\
  fold_left PrimFloat.add (tenths 20) 0%float = 0x1.4ffffffffffffp+4%float /\
  np_sum_f64 (tenths 200) = 0x1.f67ffffffffffp+10%float /\
  fold_left PrimFloat.add (tenths 200) 0%float = 0x1.f680000000001p+10%float.
Proof. vm_compute. repeat split; reflexivity. Qed.

(** So does it in the standard deviation of seventeen readings. *)
Example np_std_f64_order :
  let m := np_mean_f64 seventeen_readings in
  let squares :=
    map (fun v => ((f64_of_Z v - m) * (f64_of_Z v - m))%float) seventeen_readings in
  np_std_f64 seventeen_readings = 0x1.9ce4d78984487p+5%float /\
  PrimFloat.sqrt (fold_left PrimFloat.add squares 0 / 17)%float
  = 0x1.9ce4d78984488p+5%float.
Proof. vm_compute. split; reflexivity. Qed.


(* ------------------------------------------------------------------ *)
(** ** Depth estimator: shifting the valid samples *)

Section Shift.

Variable c : Z.

Lemma slice_map {A B} (f : A -> B) (lo hi : Z) (l : list A) :
  slice lo hi (map f l) = map f (slice lo hi l).
Proof. unfold slice. rewrite skipn_map, firstn_map. reflexivity. Qed.

Lemma shape_shift (d : depth_array) :
  shape0 (shift_valid c d) = shape0 d /\ shape1 (shift_valid c d) = shape1 d.
Proof.
  unfold shape0, shape1, shift_valid, Zlen. rewrite length_map. split; [reflexivity|].
  destruct d as [|r d]; simpl; [reflexivity|]. rewrite length_map. reflexivity.
Qed.

Lemma center_bounds_shift (cf : config) (d : depth_array) (b : bbox) :
  center_bounds cf (shift_valid c d) b = center_bounds cf d b.
Proof.
  destruct b as [[[b0 b1] b2] b3]. unfold center_bounds.
  destruct (shape_shift d) as [-> ->]. reflexivity.
Qed.

Lemma bbox_depth_shift (d : depth_array) (bd : Z * Z * Z * Z) :
  bbox_depth (shift_valid c d) bd = map (shift_sample c) (bbox_depth d bd).
Proof.
  destruct bd as [[[cx1 cy1] cx2] cy2]. unfold bbox_depth, shift_valid.
  rewrite slice_map, concat_map, !map_map.
  f_equal. apply map_ext. intros r. apply slice_map.
Qed.

Lemma center_region_shift (cf : config) (d : depth_array) (b : bbox) :
  center_region cf (shift_valid c d) b = map (shift_sample c) (center_region cf d b).
Proof.
  unfold center_region. rewrite center_bounds_shift.
  destruct (region_empty (center_bounds cf d b)); [reflexivity|].
  apply bbox_depth_shift.
Qed.

Lemma valid_depth_shift (region : list Z) :
  Forall (fun v => is_valid_depth (v + c) = true) (valid_depth region) ->
  valid_depth (map (shift_sample c) region) = map (Z.add c) (valid_depth region).
Proof.
  unfold valid_depth. induction region as [|v l IH]; [reflexivity|].
  cbn [map filter].
  destruct (is_valid_depth v) eqn:Hv.
  - cbn [map]. intros H. inversion H as [|? ? Hvc Hl]; subst.
    unfold shift_sample at 1 2. rewrite Hv, Hvc, (IH Hl), (Z.add_comm v c).
    reflexivity.
  - unfold shift_sample at 1. rewrite Hv, Hv. exact IH.
Qed.

Lemma Zsum_shift (l : list Z) : Zsum (map (Z.add c) l) = Zsum l + c * Zlen l.
Proof.
  unfold Zlen. induction l as [|v l IH]; simpl Zsum; simpl length; [lia|].
  rewrite IH, Nat2Z.inj_succ. lia.
Qed.

Lemma Zlen_map {A B} (f : A -> B) (l : list A) : Zlen (map f l) = Zlen l.
Proof. unfold Zlen. rewrite length_map. reflexivity. Qed.

Lemma np_mean_f64_shift (l : list Z) :
  np_mean_f64 (map (Z.add c) l)
  = (f64_of_Z (Zsum l + c * Zlen l) / f64_of_Z (Zlen l))%float.
Proof. unfold np_mean_f64. rewrite Zsum_shift, Zlen_map. reflexivity. Qed.

Lemma exact_mean_shift (l : list Z) :
  l <> [] ->
  (inject_Z (Zsum l + c * Zlen l) / inject_Z (Zlen l)
   == inject_Z (Zsum l) / inject_Z (Zlen l) + inject_Z c)%Q.
Proof.
  intros Hne. rewrite inject_Z_plus, inject_Z_mult.
  assert (Hn : ~ inject_Z (Zlen l) == 0).
  { intros E. pose proof (Zlen_pos l Hne) as Hp.
    rewrite (Zlt_Qlt 0) in Hp. rewrite E in Hp. apply (Qlt_irrefl 0). exact Hp. }
  field. exact Hn.
Qed.

End Shift.

(** C7 (as the code has it): when the shrunk region yields at least 5
    valid samples, every valid sample shifted by [c] is still valid, and the
    outlier filter keeps the same samples after the shift as before, the
    estimate is the [float64] quotient of the sum of the samples used (the
    ones kept, or all valid ones when none is kept) by their count before
    the shift, and the quotient of that sum plus [c] times the count by the
    count after it: the exact mean moves by exactly [c], the returned
    double by [c] up to the rounding of the two quotients. *)
Theorem C7_shift_invariance (cf : config) (d : depth_array) (b : bbox) (c : Z) :
  let valid := valid_depth (center_region cf d b) in
  let valid' := valid_depth (center_region cf (shift_valid c d) b) in
  let kept := filtered_depth_f64 cf valid in
  let used := if (0 <? length kept)%nat then kept else valid in
  let k := Z.of_nat (length used) in
  let total := fold_right Z.add 0 used in
  (5 <= length valid)%nat ->
  Forall (fun v => is_valid_depth (v + c) = true) valid ->
  filtered_depth_f64 cf valid' = map (Z.add c) kept ->
  calculate_depth_robust_center_f64 cf d b = (f64_of_Z total / f64_of_Z k)%float /\
  calculate_depth_robust_center_f64 cf (shift_valid c d) b
  = (f64_of_Z (total + c * k) / f64_of_Z k)%float /\
  (inject_Z (total + c * k) / inject_Z k == inject_Z total / inject_Z k + inject_Z c)%Q.
Proof.
  intros valid valid' kept used k total Hlen Hval Hkept.
  assert (Hne : valid <> []) by (intros E; rewrite E in Hlen; simpl in Hlen; lia).
  assert (Hv' : valid' = map (Z.add c) valid).
  { unfold valid'. rewrite center_region_shift. apply valid_depth_shift. exact Hval. }
  assert (Hused : used <> []).
  { unfold used. destruct (0 <? length kept)%nat eqn:E; [|exact Hne].
    apply nonempty_of_length. exact E. }
  split; [|split].
  - rewrite estimate_f64_on_center_region. fold valid.
    rewrite (robust_mean_f64_of_five cf valid Hlen). reflexivity.
  - rewrite estimate_f64_on_center_region. fold valid'.
    rewrite (robust_mean_f64_of_five cf valid')
      by (rewrite Hv', length_map; exact Hlen).
    rewrite Hkept, length_map. fold kept.
    replace (if (0 <? length kept)%nat then map (Z.add c) kept else valid')
      with (map (Z.add c) used)
      by (unfold used; rewrite Hv'; destruct (0 <? length kept)%nat; reflexivity).
    apply np_mean_f64_shift.
  - apply (exact_mean_shift c used Hused).
Qed.

Lemma C7_shift_invariance_witness :
  calculate_depth_robust_center_f64 default_config
    (shift_valid 500 [[1000; 1010; 1020; 1030; 1040; 1050; 1060]]) (0, 0, 7, 1)%Q
  = (f64_of_Z (5150 + 500 * 5) / f64_of_Z 5)%float.
Proof.
  apply (C7_shift_invariance default_config
           [[1000; 1010; 1020; 1030; 1040; 1050; 1060]] (0, 0, 7, 1)%Q 500).
  - apply Nat.leb_le. vm_compute. reflexivity.
  - apply (Forall_of_forallb (fun v => is_valid_depth (v + 500))).
    + intros x Hx. exact Hx.
    + vm_compute. reflexivity.
  - vm_compute. reflexivity.
Defined.

(** C7 as worded fails twice.  Five valid samples 1000, 1000, 1000, 1000,
    1002 shifted by 24 mm stay valid and are all within the threshold, but
    before the shift the filter drops 1002 (it sits on the threshold and
    rounding decides, see [threshold_tie_is_decided_by_rounding]): the
    estimate goes from 1000.0 to 1024.4, not to 1024.0.  And four valid
    samples of 1000 mm shifted by 1 mm stay valid and within the threshold,
    while the estimate is [0.0] before and after. *)
Lemma C7_counterexample :
  let d := [[0; 1000; 1000; 1000; 1000; 1002; 0]] in
  let b := (0, 0, 7, 1)%Q in
  let valid := valid_depth (center_region default_config d b) in
  let valid' := valid_depth (center_region default_config (shift_valid 24 d) b) in
  let before := calculate_depth_robust_center_f64 default_config d b in
  let after := calculate_depth_robust_center_f64 default_config (shift_valid 24 d) b in
  let d4 := [[1000; 1000; 1000; 1000]] in
  let b4 := (0, 0, 4, 1)%Q in
  let valid4 := valid_depth (center_region default_config (shift_valid 1 d4) b4) in
  let before4 := calculate_depth_robust_center_f64 default_config d4 b4 in
  let after4 := calculate_depth_robust_center_f64 default_config (shift_valid 1 d4) b4 in
  (valid = [1000; 1000; 1000; 1000; 1002] /\
   valid' = [1024; 1024; 1024; 1024; 1026] /\
   forallb (fun v => is_valid_depth (v + 24)) valid = true /\
   forallb (within_threshold_f64 default_config (np_mean_f64 valid') (np_std_f64 valid'))
           valid' = true /\
   before = 1000%float /\
   after = (f64_of_Z 5122 / f64_of_Z 5)%float /\
   (after =? before + 24)%float = false /\
   (after - before =? 24)%float = false) /\
  (valid4 = [1001; 1001; 1001; 1001] /\
   forallb (within_threshold_f64 default_config (np_mean_f64 valid4) (np_std_f64 valid4))
           valid4 = true /\
   before4 = 0%float /\
   after4 = 0%float /\
   (after4 =? before4 + 1)%float = false).
Proof.
  vm_compute. repeat split; reflexivity.
Qed.

(** Even when the filter keeps every sample before and after the shift, the
    returned double need not move by exactly [c]: the two means are rounded
    separately. *)
Example shift_is_exact_only_up_to_rounding :
  let d := [[0; 2488; 2501; 2483; 2500; 2503; 2487; 0]] in
  let b := (0, 0, 8, 1)%Q in
  let valid := valid_depth (center_region default_config d b) in
  let valid' := valid_depth (center_region default_config (shift_valid 3529 d) b) in
  let before := calculate_depth_robust_center_f64 default_config d b in
  let after := calculate_depth_robust_center_f64 default_config (shift_valid 3529 d) b in
  filtered_depth_f64 default_config valid = valid /\
  filtered_depth_f64 default_config valid' = valid' /\
  valid' = map (Z.add 3529) valid /\
  before = (f64_of_Z 14962 / f64_of_Z 6)%float /\
  after = (f64_of_Z 36136 / f64_of_Z 6)%float /\
  (after =? before + 3529)%float = false.
Proof.
  vm_compute. repeat split; reflexivity.
Qed.

(* ------------------------------------------------------------------ *)
(** ** Frame queue *)

Lemma push_full {A} (q : Queue.t A) (x : A) : Queue.full q = true -> push q x = q.
Proof. intros H. unfold push, Queue.put_nowait. rewrite H. reflexivity. Qed.

Lemma push_not_full {A} (q : Queue.t A) (x : A) :
  Queue.full q = false -> push q x = Queue.mk (Queue.maxsize q) (Queue.items q ++ [x]).
Proof. intros H. unfold push, Queue.put_nowait. rewrite H. reflexivity. Qed.


Lemma firstn_app_short {A} (n : nat) (l1 l2 : list A) :
  (n <= length l1)%nat -> firstn n (l1 ++ l2) = firstn n l1.
Proof.
  intros H. rewrite firstn_app.
  replace (n - length l1)%nat with 0%nat by lia. simpl. apply app_nil_r.
Qed.

(** Pushing a run of bundles keeps the earliest ones up to the capacity. *)
Lemma pushes_keep_first {A} (n : nat) (xs : list A) (q : Queue.t A) :
  Queue.maxsize q = Z.of_nat (S n) ->
  (length (Queue.items q) <= S n)%nat ->
  Queue.items (fold_left push xs q) = firstn (S n) (Queue.items q ++ xs).
Proof.
  revert q. induction xs as [|x xs IH]; intros q Hm Hlen.
  - cbn [fold_left]. rewrite app_nil_r, firstn_all2; [reflexivity | exact Hlen].
  - simpl fold_left. destruct (Queue.full q) eqn:Hf.
    + rewrite (push_full q x Hf), (IH q Hm Hlen).
      unfold Queue.full, Queue.qsize, Zlen in Hf. rewrite Hm in Hf.
      apply andb_true_iff in Hf. destruct Hf as [_ Hf]. apply Z.leb_le in Hf.
      rewrite !firstn_app_short by lia. reflexivity.
    + rewrite (push_not_full q x Hf).
      unfold Queue.full, Queue.qsize, Zlen in Hf. rewrite Hm in Hf.
      apply andb_false_iff in Hf.
      destruct Hf as [Hf | Hf]; [apply Z.ltb_ge in Hf; lia | apply Z.leb_gt in Hf].
      rewrite IH; simpl Queue.items; simpl Queue.maxsize.
      * rewrite <- app_assoc. reflexivity.
      * exact Hm.
      * rewrite length_app. simpl. lia.
Qed.

(* ------------------------------------------------------------------ *)
(** ** Streaming worker: what an iteration leaves alone *)

Lemma same_control_refl (s : CameraController) : same_control s s.
Proof. unfold same_control. tauto. Qed.

Lemma same_control_trans (s1 s2 s3 : CameraController) :
  same_control s1 s2 -> same_control s2 s3 -> same_control s1 s3.
Proof.
  unfold same_control. intros H1 H2.
  destruct H1 as (?&?&?&?&?&?&?&?), H2 as (?&?&?&?&?&?&?&?).
  repeat split; congruence.
Qed.

Lemma same_control_set_processor (p : ObjectDetectionProcessor) (s : CameraController) :
  same_control s (set_detection_processor p s).
Proof. unfold same_control. simpl. tauto. Qed.

Lemma same_control_set_queue (q : Queue.t FrameData) (s : CameraController) :
  same_control s (set_frame_queue q s).
Proof. unfold same_control. simpl. tauto. Qed.

Lemma same_control_set_writers (rw dw : option VideoWriter) (s : CameraController) :
  same_control s (set_writers rw dw s).
Proof. unfold same_control. simpl. tauto. Qed.

Lemma same_control_record_frame (w : write_outcome) (f g : image) (s : CameraController) :
  same_control s (_record_frame w f g s).
Proof.
  unfold _record_frame.
  destruct (rgb_writer s), (depth_writer s), w;
    first [apply same_control_refl | apply same_control_set_writers].
Qed.

Lemma same_control_detect_step (e : frame_env) (s : CameraController)
    (color : image) (depth : depth_array) :
  same_control s (fst (fst (detect_step e s color depth))).
Proof.
  unfold detect_step.
  destruct (detection_enabled s); [|apply same_control_refl].
  destruct (fe_cvt_raises e); [apply same_control_refl|].
  destruct (process_frame _ _ _ _) as [p [a m]]. simpl.
  apply same_control_set_processor.
Qed.

Lemma same_control_record_step (e : frame_env) (s : CameraController)
    (color cmap ann : image) (m : option json) :
  same_control s (record_step e s color cmap ann m).
Proof.
  unfold record_step.
  destruct (recording s); [|apply same_control_refl].
  pose proof (same_control_record_frame (fe_write e)
                (if detection_enabled s then ann else color) cmap s) as H1.
  destruct (detection_enabled _ && py_truthy m); [|exact H1].
  destruct m as [m|]; [|exact H1].
  eapply same_control_trans; [exact H1 | apply same_control_set_processor].
Qed.

Lemma same_control_iteration (e : frame_env) (s : CameraController) :
  same_control s (fst (stream_iteration e s)).
Proof.
  unfold stream_iteration.
  destruct (fe_acquire e) as [| msg | [color|] [depth|]]; try apply same_control_refl.
  pose proof (same_control_detect_step e s color depth) as H1.
  destruct (detect_step e s color depth) as [[s1 ann] m]. simpl in *.
  eapply same_control_trans; [exact H1|].
  eapply same_control_trans; [apply same_control_set_queue|].
  apply same_control_record_step.
Qed.

Lemma iteration_status (e : frame_env) (s : CameraController) :
  snd (stream_iteration e s) = if breaks_loop e s then Exited else Looping.
Proof.
  pose proof (same_control_iteration e s) as H.
  unfold stream_iteration, breaks_loop in *.
  destruct (fe_acquire e) as [| msg | [color|] [depth|]]; try reflexivity.
  destruct (detect_step e s color depth) as [[s1 ann] m]. simpl in *.
  destruct H as (_ & _ & Hr & Hd & _).
  unfold callback_step. rewrite Hr, Hd.
  destruct (rgb_callback s && fe_rgb_callback_raises e); [reflexivity|].
  destruct (depth_callback s && fe_depth_callback_raises e); reflexivity.
Qed.

Lemma run_command_is_streaming (c : command) (s : CameraController) :
  is_stop (Control c) = false ->
  is_streaming (run_command c s) = is_streaming s.
Proof.
  destruct c as [| | b | env path | fs_ok]; simpl; intros H; try discriminate.
  - unfold get_latest_frames. destruct (Queue.get_nowait _) as [[x q]|]; reflexivity.
  - reflexivity.
  - unfold start_recording. destruct (recording s); [reflexivity|].
    destruct (se_outcome env); reflexivity.
  - unfold stop_recording. destruct (recording s); reflexivity.
Qed.

(** The worker never writes [is_streaming]: only a stop request clears it. *)
Lemma worker_keeps_is_streaming (trace : list event) (s : CameraController) :
  existsb is_stop trace = false ->
  is_streaming (fst (_stream_worker trace s)) = is_streaming s.
Proof.
  revert s. induction trace as [|ev trace IH]; intros s Hns; [reflexivity|].
  simpl in Hns. apply orb_false_iff in Hns. destruct Hns as [Hev Hns].
  destruct ev as [e | c]; simpl.
  - destruct (is_streaming s && pipeline s); [|reflexivity].
    pose proof (same_control_iteration e s) as (_ & Hs & _).
    destruct (stream_iteration e s) as [s' [|]]; simpl in *.
    + rewrite (IH s' Hns). exact Hs.
    + exact Hs.
  - rewrite (IH _ Hns). apply run_command_is_streaming. exact Hev.
Qed.

(** C2 (as the code has it): an iteration leaves the loop exactly when an
    error reaches the outer handler -- an error of the camera calls, the
    frame-pair wait timeout included, or of a registered callback; a failing
    detector, a full bus and a failing sink write do not.  No iteration
    writes [is_streaming], so without a stop request the flag is what it was
    when the loop exits. *)
Theorem C2_errors_that_end_the_loop (e : frame_env) (s : CameraController)
    (trace : list event) :
  snd (stream_iteration e s) = (if breaks_loop e s then Exited else Looping) /\
  (fe_acquire e = WaitTimeout -> stream_iteration e s = (s, Exited)) /\
  is_streaming (fst (stream_iteration e s)) = is_streaming s /\
  (existsb is_stop trace = false ->
   is_streaming (fst (_stream_worker trace s)) = is_streaming s).
Proof.
  split; [apply iteration_status|]. split; [|split].
  - intros H. unfold stream_iteration. rewrite H. reflexivity.
  - apply same_control_iteration.
  - apply worker_keeps_is_streaming.
Qed.

Lemma C2_errors_that_end_the_loop_witness :
  stream_iteration timeout_frame (streaming_controller true)
  = (streaming_controller true, Exited).
Proof.
  apply (C2_errors_that_end_the_loop timeout_frame (streaming_controller true) []).
  reflexivity.
Defined.

(** C2 as worded fails: with no stop request, a frame-pair wait timeout ends
    the loop (the frame that follows is never processed) and [is_streaming]
    is still [true] afterwards. *)
Lemma C2_counterexample :
  let trace := [Frame timeout_frame; Frame (good_frame one_detection)] in
  let s := streaming_controller false in
  existsb is_stop trace = false /\
  snd (_stream_worker trace s) = Exited /\
  Queue.items (frame_queue (fst (_stream_worker trace s))) = [] /\
  is_streaming (fst (_stream_worker trace s)) = true.
Proof. vm_compute. repeat split. Qed.

(* ------------------------------------------------------------------ *)
(** ** Frame queue: the pushes of the worker *)

Lemma record_frame_queue (w : write_outcome) (f g : image) (s : CameraController) :
  frame_queue (_record_frame w f g s) = frame_queue s.
Proof.
  unfold _record_frame.
  destruct (rgb_writer s), (depth_writer s), w; reflexivity.
Qed.

Lemma record_step_queue (e : frame_env) (s : CameraController)
    (color cmap ann : image) (m : option json) :
  frame_queue (record_step e s color cmap ann m) = frame_queue s.
Proof.
  unfold record_step. destruct (recording s); [|reflexivity].
  destruct (detection_enabled _ && py_truthy m); [|apply record_frame_queue].
  destruct m as [m|]; [|apply record_frame_queue].
  cbn [frame_queue set_detection_processor]. apply record_frame_queue.
Qed.

Lemma detect_step_queue (e : frame_env) (s : CameraController)
    (color : image) (depth : depth_array) :
  frame_queue (fst (fst (detect_step e s color depth))) = frame_queue s.
Proof.
  unfold detect_step.
  destruct (detection_enabled s); [|reflexivity].
  destruct (fe_cvt_raises e); [reflexivity|].
  destruct (process_frame _ _ _ _) as [p [a m]]. reflexivity.
Qed.

(** A pass that gets a frame pair pushes one bundle, stamped by that pass,
    with the push of lines 222-235. *)
Lemma iteration_queue (e : frame_env) (s : CameraController)
    (color : image) (depth : depth_array) :
  fe_acquire e = Frames (Some color) (Some depth) ->
  exists fd : FrameData,
    fd_timestamp fd = fe_timestamp e /\
    fd_rgb fd = color /\
    frame_queue (fst (stream_iteration e s)) = push (frame_queue s) fd.
Proof.
  intros Ha. unfold stream_iteration. rewrite Ha.
  pose proof (detect_step_queue e s color depth) as Hq.
  destruct (detect_step e s color depth) as [[s1 ann] m]. cbn [fst] in *.
  eexists. split; [|split]; [| |rewrite record_step_queue; cbn [frame_queue set_frame_queue];
                               rewrite Hq; reflexivity]; reflexivity.
Qed.

(** Along a run of feeding passes the queue of the worker is the fold of
    its pushes. *)
Lemma worker_pushes (es : list frame_env) (s : CameraController) :
  is_streaming s = true ->
  pipeline s = true ->
  forallb feeds es = true ->
  exists fds : list FrameData,
    map fd_timestamp fds = map fe_timestamp es /\
    frame_queue (fst (_stream_worker (map Frame es) s))
    = fold_left push fds (frame_queue s).
Proof.
  revert s. induction es as [|e es IH]; intros s Hs Hp Hf.
  - exists []. split; reflexivity.
  - cbn [forallb] in Hf. apply andb_true_iff in Hf. destruct Hf as [He Hf].
    cbn [map _stream_worker]. rewrite Hs, Hp. cbn [andb].
    pose proof (iteration_status e s) as Hst.
    pose proof (same_control_iteration e s) as (Hp' & Hs' & _).
    unfold feeds in He. unfold breaks_loop in Hst.
    destruct (fe_acquire e) as [| msg | [color|] [depth|]] eqn:Ha; try discriminate.
    apply andb_true_iff in He. destruct He as [H1 H2].
    apply negb_true_iff in H1, H2. rewrite H1, H2, !andb_false_r in Hst.
    cbn [orb] in Hst.
    destruct (iteration_queue e s color depth Ha) as (fd & Hts & _ & Hq).
    destruct (stream_iteration e s) as [s' st]. cbn [fst snd] in *. subst st.
    destruct (IH s') as (fds & Hmap & Hfold); try congruence.
    cbv iota beta.
    exists (fd :: fds). split.
    + cbn [map]. rewrite Hts, Hmap. reflexivity.
    + rewrite Hfold, Hq. reflexivity.
Qed.

(** C1 (as the code has it): a push onto a full bus leaves the resident
    bundles in place and discards the new one, a push onto a bus with room
    appends it, and neither blocks; so after any run of pushes with no pops
    a capacity-5 bus holds the 5 earliest bundles in push order -- after 8
    pushes, the first 5.  The same holds of the worker: after a run of
    passes with no read by the consumer, the bus that started empty holds
    the bundles of the first 5 passes. *)
Theorem C1_push_skips_new_when_full (q : Queue.t FrameData) (x : FrameData)
    (xs : list FrameData) (es : list frame_env) :
  (Queue.full q = true -> push q x = q) /\
  (Queue.full q = false -> Queue.items (push q x) = Queue.items q ++ [x]) /\
  Queue.items (fold_left push xs (frame_queue new_controller)) = firstn 5 xs /\
  (length xs = 8%nat ->
   length (Queue.items (fold_left push xs (frame_queue new_controller))) = 5%nat /\
   Queue.items (fold_left push xs (frame_queue new_controller)) ++ skipn 5 xs = xs) /\
  (forallb feeds es = true ->
   map fd_timestamp
     (Queue.items (frame_queue (fst (_stream_worker (map Frame es)
                                       (streaming_controller false)))))
   = firstn 5 (map fe_timestamp es)).
Proof.
  assert (H5 : forall l : list FrameData,
             Queue.items (fold_left push l (frame_queue new_controller)) = firstn 5 l).
  { intros l. apply (pushes_keep_first 4 l (frame_queue new_controller)).
    - reflexivity.
    - simpl. lia. }
  split; [apply push_full|]. split; [|split; [|split]].
  - intros H. rewrite (push_not_full q x H). reflexivity.
  - apply H5.
  - intros Hlen. rewrite H5. split.
    + rewrite length_firstn. lia.
    + apply firstn_skipn.
  - intros Hf.
    destruct (worker_pushes es (streaming_controller false) eq_refl eq_refl Hf)
      as (fds & Hmap & Hq).
    rewrite Hq. change (frame_queue (streaming_controller false))
      with (frame_queue new_controller).
    rewrite H5, <- firstn_map, Hmap. reflexivity.
Qed.

Lemma C1_push_skips_new_when_full_witness :
  map fd_timestamp
    (Queue.items (fold_left push (map bundle [0; 1; 2; 3; 4; 5; 6; 7])
                    (frame_queue new_controller)))
  = map inject_Z [0; 1; 2; 3; 4].
Proof.
  rewrite (proj1 (proj2 (proj2 (C1_push_skips_new_when_full
                                   (frame_queue new_controller) (bundle 0)
                                   (map bundle [0; 1; 2; 3; 4; 5; 6; 7]) [])))).
  reflexivity.
Defined.

(** C1 as worded fails: after 8 pushes with no pops the capacity-5 bus holds
    bundles 0..4, the earliest five, where drop-oldest would leave 3..7. *)
Lemma C1_counterexample :
  let pushed := map bundle [0; 1; 2; 3; 4; 5; 6; 7] in
  let q := fold_left push pushed (frame_queue new_controller) in
  Queue.items q = map bundle [0; 1; 2; 3; 4] /\
  Queue.items q <> map bundle [3; 4; 5; 6; 7] /\
  Queue.items (fold_left push_spec pushed (frame_queue new_controller))
  = map bundle [3; 4; 5; 6; 7].
Proof.
  vm_compute. repeat split. discriminate.
Qed.

(* ------------------------------------------------------------------ *)
(** ** Recorder: starting twice *)

(** C9: while a recording session is active, [start_recording] reports
    failure and returns the controller exactly as it was: sinks, metadata
    accumulator, frame counter, start timestamp and output path included. *)
Theorem C9_start_while_recording_fails (env : start_env) (output_path : string)
    (s : CameraController) :
  recording s = true ->
  start_recording env output_path s = (false, s).
Proof. intros H. unfold start_recording. rewrite H. reflexivity. Qed.

Lemma C9_start_while_recording_fails_witness :
  let active := snd (start_recording start_ok "recordings/a" (streaming_controller true)) in
  recording active = true /\
  start_recording start_ok "recordings/b" active = (false, active).
Proof.
  split; [reflexivity|].
  apply (C9_start_while_recording_fails start_ok "recordings/b"
           (snd (start_recording start_ok "recordings/a" (streaming_controller true)))).
  reflexivity.
Defined.

(* ------------------------------------------------------------------ *)
(** ** Detection pipeline: a failing detector *)

Lemma cvtColor_swap_involutive (img : image) : cvtColor_swap (cvtColor_swap img) = img.
Proof.
  unfold cvtColor_swap. rewrite map_map.
  rewrite <- (map_id img) at 2. apply map_ext. intros row.
  rewrite map_map. rewrite <- (map_id row) at 2. apply map_ext.
  intros [[c0 c1] c2]. reflexivity.
Qed.

(** The metadata dict returned when the detector raises [msg]. *)
Lemma process_frame_detector_raises (env : detect_env) (self : ObjectDetectionProcessor)
    (rgb_frame : image) (depth_frame : depth_array) (msg : string) :
  model self = true ->
  de_outcome env = DetectorRaises msg ->
  process_frame env self rgb_frame depth_frame
  = (self, (rgb_frame,
            JObj [("error"%string, JStr (String.append "Processing failed: " msg))])).
Proof.
  intros Hm Ho. unfold process_frame. rewrite Hm, Ho. reflexivity.
Qed.

(** C6: when the detector raises on a frame, [process_frame] returns the
    input frame itself and a metadata dict with an [error] entry and no
    [detections] entry, leaving the processor untouched; the iteration of
    the worker that made the call stays in the loop, keeps the controller
    streaming and hands the raw colour frame on in place of an annotated
    one. *)
Theorem C6_detector_error_is_not_fatal (e : frame_env) (s : CameraController)
    (color_image : image) (depth_image : depth_array) (msg : string) :
  fe_acquire e = Frames (Some color_image) (Some depth_image) ->
  detection_enabled s = true ->
  model (detection_processor s) = true ->
  fe_cvt_raises e = false ->
  de_outcome (fe_detect e) = DetectorRaises msg ->
  fe_rgb_callback_raises e = false ->
  fe_depth_callback_raises e = false ->
  let rgb_frame := cvtColor_swap color_image in
  let '(p, (frame, metadata)) :=
    process_frame (fe_detect e) (detection_processor s) rgb_frame depth_image in
  let s' := fst (stream_iteration e s) in
  p = detection_processor s /\
  frame = rgb_frame /\
  jget "error" metadata = Some (JStr (String.append "Processing failed: " msg)) /\
  jget "detections" metadata = None /\
  snd (stream_iteration e s) = Looping /\
  is_streaming s' = is_streaming s /\
  frame_queue s' =
    push (frame_queue s)
         {| fd_rgb := color_image;
            fd_depth := depth_image;
            fd_depth_colorized := fe_depth_colormap e;
            fd_annotated := color_image;
            fd_detection_metadata := Some metadata;
            fd_timestamp := fe_timestamp e |} /\
  frame_count (detection_processor s') = frame_count (detection_processor s).
Proof.
  intros Ha Hd Hm Hc Ho Hr1 Hr2 rgb_frame.
  rewrite (process_frame_detector_raises _ _ rgb_frame depth_image msg Hm Ho).
  cbv zeta.
  split; [reflexivity|]. split; [reflexivity|]. split; [reflexivity|].
  split; [reflexivity|]. split.
  - rewrite iteration_status. unfold breaks_loop. rewrite Ha, Hr1, Hr2.
    rewrite !andb_false_r. reflexivity.
  - split; [apply same_control_iteration|].
    unfold stream_iteration, detect_step. rewrite Ha, Hd, Hc.
    fold rgb_frame.
    rewrite (process_frame_detector_raises _ _ rgb_frame depth_image msg Hm Ho).
    unfold rgb_frame at 1 3. rewrite cvtColor_swap_involutive.
    unfold record_step. cbn [recording set_frame_queue set_detection_processor].
    destruct (recording s).
    + unfold _record_frame. cbn.
      destruct (rgb_writer s), (depth_writer s), (fe_write e);
        cbn; rewrite ?Hd; cbn; split; reflexivity.
    + cbn. split; reflexivity.
Qed.

Lemma C6_detector_error_is_not_fatal_witness :
  snd (stream_iteration (good_frame (DetectorRaises "CUDA error"))
         (streaming_controller true)) = Looping.
Proof.
  pose proof (C6_detector_error_is_not_fatal
                (good_frame (DetectorRaises "CUDA error")) (streaming_controller true)
                [[(30, 20, 10)]] row_depth "CUDA error"
                eq_refl eq_refl eq_refl eq_refl eq_refl eq_refl eq_refl) as H.
  cbv zeta in H.
  destruct (process_frame _ _ _ _) as [p [frame metadata]].
  exact (proj1 (proj2 (proj2 (proj2 (proj2 H))))).
Defined.

(* ------------------------------------------------------------------ *)
(** ** Recorder: frame sequence numbers of a session *)

Lemma frame_numbers_app (l1 l2 : list json) :
  frame_numbers (l1 ++ l2) = frame_numbers l1 ++ frame_numbers l2.
Proof. unfold frame_numbers. apply flat_map_app. Qed.

Lemma record_frame_processor (w : write_outcome) (f g : image) (s : CameraController) :
  detection_processor (_record_frame w f g s) = detection_processor s.
Proof.
  unfold _record_frame.
  destruct (rgb_writer s), (depth_writer s), w; reflexivity.
Qed.

Lemma record_step_processor (e : frame_env) (s : CameraController)
    (color cmap ann : image) (m : option json) :
  recording s = true ->
  detection_enabled s = true ->
  detection_processor (record_step e s color cmap ann m) =
  match m with
  | Some m' =>
      if py_truthy (Some m') then add_detection_metadata (detection_processor s) m'
      else detection_processor s
  | None => detection_processor s
  end.
Proof.
  intros Hr Hd. unfold record_step. rewrite Hr.
  pose proof (same_control_record_frame (fe_write e)
                (if detection_enabled s then ann else color) cmap s)
    as (_ & _ & _ & _ & _ & He & _).
  rewrite He, Hd. cbn [andb].
  destruct m as [m'|].
  - destruct (py_truthy (Some m')).
    + cbn [detection_processor set_detection_processor].
      rewrite record_frame_processor. reflexivity.
    + apply record_frame_processor.
  - change (py_truthy None) with false. cbv iota. apply record_frame_processor.
Qed.

(** The processor after one pass of the worker over a recording session
    with detection enabled. *)
Lemma iteration_processor (e : frame_env) (s : CameraController) :
  recording s = true ->
  detection_enabled s = true ->
  detection_processor (fst (stream_iteration e s)) =
  match fe_acquire e with
  | Frames (Some color_image) (Some depth_image) =>
      if fe_cvt_raises e then detection_processor s
      else
        let '(p, (_, m)) :=
          process_frame (fe_detect e) (detection_processor s)
                        (cvtColor_swap color_image) depth_image in
        if py_truthy (Some m) then add_detection_metadata p m else p
  | _ => detection_processor s
  end.
Proof.
  intros Hr Hd. unfold stream_iteration.
  destruct (fe_acquire e) as [| msg | [color|] [depth|]]; try reflexivity.
  unfold detect_step. rewrite Hd.
  destruct (fe_cvt_raises e).
  - cbn [fst]. rewrite record_step_processor; [reflexivity | exact Hr | exact Hd].
  - destruct (process_frame _ _ _ _) as [p [a m]]. cbn [fst].
    rewrite record_step_processor; [reflexivity | exact Hr | exact Hd].
Qed.

(** [process_frame] either returns an error dict and the processor as it
    was, or a dict numbered with the frame counter, which it then advances. *)
Lemma process_frame_cases (env : detect_env) (self : ObjectDetectionProcessor)
    (rgb_frame : image) (depth_frame : depth_array) :
  let '(p, (_, m)) := process_frame env self rgb_frame depth_frame in
  py_truthy (Some m) = true /\
  ((p = self /\ jget "frame_number" m = None /\
    (model self = true -> exists msg, de_outcome env = DetectorRaises msg)) \/
   (jget "frame_number" m = Some (JInt (frame_count self)) /\
    frame_count p = frame_count self + 1 /\
    detection_metadata p = detection_metadata self /\
    model p = model self)).
Proof.
  unfold process_frame.
  destruct (model self) eqn:Hm; cbn [negb].
  - destruct (de_outcome env) as [msg | dets names].
    + split; [reflexivity|]. left.
      split; [reflexivity|]. split; [reflexivity|].
      intros _. exists msg. reflexivity.
    + split; [reflexivity|]. right.
      split; [reflexivity|]. split; [reflexivity|]. split; reflexivity.
  - split; [reflexivity|]. left.
    split; [reflexivity|]. split; [reflexivity|]. discriminate.
Qed.

Lemma frame_numbers_snoc (l : list json) (m : json) :
  frame_numbers (l ++ [m]) =
  frame_numbers l ++ match jget "frame_number" m with
                     | Some (JInt n) => [n]
                     | _ => []
                     end.
Proof.
  rewrite frame_numbers_app. f_equal. unfold frame_numbers. cbn [flat_map].
  apply app_nil_r.
Qed.

Lemma iteration_numbered (e : frame_env) (s : CameraController) :
  recording s = true ->
  detection_enabled s = true ->
  numbered_from_zero (detection_processor s) ->
  numbered_from_zero (detection_processor (fst (stream_iteration e s))).
Proof.
  intros Hr Hd Hn. rewrite (iteration_processor e s Hr Hd).
  destruct (fe_acquire e) as [| msg | [color|] [depth|]]; try exact Hn.
  destruct (fe_cvt_raises e); [exact Hn|].
  pose proof (process_frame_cases (fe_detect e) (detection_processor s)
                (cvtColor_swap color) depth) as Hc.
  destruct (process_frame _ _ _ _) as [p [a m]].
  destruct Hc as [Ht Hc]. rewrite Ht.
  destruct Hn as [k [Hk Hnum]].
  destruct Hc as [(-> & Hnone & _) | (Hsome & Hcount & Hmeta & _)].
  - exists k. split; [exact Hk|].
    cbn [detection_metadata add_detection_metadata].
    rewrite frame_numbers_snoc, Hnone, app_nil_r. exact Hnum.
  - exists (S k). split.
    + cbn [frame_count add_detection_metadata]. rewrite Hcount, Hk. lia.
    + cbn [detection_metadata add_detection_metadata].
      rewrite frame_numbers_snoc, Hsome, Hmeta, Hnum, Hk.
      rewrite seq_S, map_app. reflexivity.
Qed.

Lemma session_command_keeps (c : command) (s : CameraController) :
  session_event (Control c) = true ->
  recording (run_command c s) = recording s /\
  detection_enabled (run_command c s) = detection_enabled s /\
  detection_processor (run_command c s) = detection_processor s /\
  pipeline (run_command c s) = pipeline s.
Proof.
  destruct c; cbn; intros H; try discriminate.
  - repeat split.
  - unfold get_latest_frames. destruct (Queue.get_nowait _) as [[x q]|]; repeat split.
Qed.

(** *** One pass on which detection succeeds *)

Lemma iteration_detected (e : frame_env) (s : CameraController) (k : nat) :
  fed_and_detected (Frame e) = true ->
  recording s = true ->
  detection_enabled s = true ->
  model (detection_processor s) = true ->
  frame_count (detection_processor s) = Z.of_nat k ->
  frame_numbers (detection_metadata (detection_processor s)) = map Z.of_nat (seq 0 k) ->
  length (detection_metadata (detection_processor s)) = k ->
  let p' := detection_processor (fst (stream_iteration e s)) in
  model p' = true /\
  frame_count p' = Z.of_nat (S k) /\
  frame_numbers (detection_metadata p') = map Z.of_nat (seq 0 (S k)) /\
  length (detection_metadata p') = S k.
Proof.
  intros Hev Hr Hd Hm Hk Hnum Hlen p'.
  pose proof (iteration_processor e s Hr Hd) as Hproc. fold p' in Hproc.
  cbn [fed_and_detected] in Hev.
  destruct (fe_acquire e) as [| msg | [color|] [depth|]]; try discriminate.
  destruct (de_outcome (fe_detect e)) as [msg | dets names] eqn:Ho; try discriminate.
  apply andb_true_iff in Hev. destruct Hev as [Hev _].
  apply andb_true_iff in Hev. destruct Hev as [Hc0 _].
  apply negb_true_iff in Hc0. rewrite Hc0 in Hproc.
  pose proof (process_frame_cases (fe_detect e) (detection_processor s)
                (cvtColor_swap color) depth) as Hcases.
  destruct (process_frame _ _ _ _) as [p [a m]].
  destruct Hcases as [Htr Hcases]. rewrite Htr in Hproc.
  destruct Hcases as [(_ & _ & Hex) | (Hsome & Hcount & Hmeta & Hmodel)].
  { destruct (Hex Hm) as [msg Hmsg]. congruence. }
  rewrite Hproc. cbn [model frame_count detection_metadata add_detection_metadata].
  split; [congruence|]. split; [rewrite Hcount, Hk; lia|]. split.
  - rewrite frame_numbers_snoc, Hsome, Hmeta, Hnum, Hk, seq_S, map_app. reflexivity.
  - rewrite length_app, Hmeta, Hlen. cbn. lia.
Qed.

(** *** Commands that land inside a pass *)

Ltac session_goal :=
  unfold same_session; cbn; repeat split; try reflexivity; try congruence.

Lemma same_session_refl (s : CameraController) : same_session s s.
Proof. repeat split. Qed.

Lemma same_session_trans (s1 s2 s3 : CameraController) :
  same_session s1 s2 -> same_session s2 s3 -> same_session s1 s3.
Proof.
  intros (A1 & A2 & A3) (B1 & B2 & B3). repeat split; congruence.
Qed.

Lemma session_commands_keep (cs : list command) (s : CameraController) :
  forallb (fun c => session_event (Control c)) cs = true ->
  same_session s (run_commands cs s).
Proof.
  revert s. induction cs as [|c cs IH]; intros s H; [apply same_session_refl|].
  cbn [forallb] in H. apply andb_true_iff in H. destruct H as [Hc Hcs].
  cbn [run_commands fold_left]. fold (run_commands cs (run_command c s)).
  apply (same_session_trans _ (run_command c s)); [|apply IH; exact Hcs].
  destruct (session_command_keeps c s Hc) as (Hr & Hd & Hp & _).
  repeat split; assumption.
Qed.

Lemma reads_keep_control (cs : list command) (s : CameraController) :
  forallb (fun c => fed_and_detected (Control c)) cs = true ->
  is_streaming (run_commands cs s) = is_streaming s /\
  pipeline (run_commands cs s) = pipeline s.
Proof.
  revert s. induction cs as [|c cs IH]; intros s H; [split; reflexivity|].
  cbn [forallb] in H. apply andb_true_iff in H. destruct H as [Hc Hcs].
  cbn [run_commands fold_left]. fold (run_commands cs (run_command c s)).
  destruct (IH (run_command c s) Hcs) as [Hs Hp]. rewrite Hs, Hp.
  assert (E : c = CmdGetLatest) by (destruct c; cbn in Hc; congruence).
  subst c. cbn [run_command]. unfold get_latest_frames.
  destruct (Queue.get_nowait _) as [[x q]|]; split; reflexivity.
Qed.

Lemma reads_are_session_commands (cs : list command) :
  forallb (fun c => fed_and_detected (Control c)) cs = true ->
  forallb (fun c => session_event (Control c)) cs = true.
Proof.
  intros H. rewrite forallb_forall in *. intros c Hc. specialize (H c Hc).
  destruct c; cbn in *; congruence.
Qed.

Lemma detect_step_session (e : frame_env) (s t : CameraController)
    (color : image) (depth : depth_array) :
  same_session s t ->
  snd (fst (detect_step e t color depth)) = snd (fst (detect_step e s color depth)) /\
  snd (detect_step e t color depth) = snd (detect_step e s color depth) /\
  same_session (fst (fst (detect_step e s color depth)))
               (fst (fst (detect_step e t color depth))).
Proof.
  intros (Hr & Hd & Hp). unfold detect_step. rewrite Hd, Hp.
  destruct (detection_enabled s) eqn:E; [|session_goal].
  destruct (fe_cvt_raises e); [session_goal|].
  destruct (process_frame _ _ _ _) as [p [a m]]. session_goal.
Qed.

Lemma write_step_session (e : frame_env) (s t : CameraController)
    (color cmap ann : image) :
  same_session s t ->
  snd (write_step e t color cmap ann) = snd (write_step e s color cmap ann) /\
  same_session (fst (write_step e s color cmap ann)) (fst (write_step e t color cmap ann)).
Proof.
  intros (Hr & Hd & Hp). unfold write_step. rewrite Hr, Hd.
  destruct (recording s) eqn:E; cbn [fst snd]; [|session_goal].
  split; [reflexivity|].
  pose proof (same_control_record_frame (fe_write e)
                (if detection_enabled s then ann else color) cmap s)
    as (_ & _ & _ & _ & Rs & Ds & _).
  pose proof (same_control_record_frame (fe_write e)
                (if detection_enabled s then ann else color) cmap t)
    as (_ & _ & _ & _ & Rt & Dt & _).
  repeat split; [congruence | congruence |].
  rewrite !record_frame_processor. exact Hp.
Qed.

Lemma append_step_session (s t : CameraController) (entered : bool) (m : option json) :
  same_session s t ->
  same_session (append_step s entered m) (append_step t entered m).
Proof.
  intros (Hr & Hd & Hp). unfold append_step. rewrite Hd, Hp.
  destruct entered; [|session_goal].
  destruct (detection_enabled s && py_truthy m); [|session_goal].
  destruct m as [m'|]; session_goal.
Qed.

Lemma record_step_in_two (e : frame_env) (s : CameraController)
    (color cmap ann : image) (m : option json) :
  record_step e s color cmap ann m
  = append_step (fst (write_step e s color cmap ann))
                (snd (write_step e s color cmap ann)) m.
Proof.
  unfold record_step, write_step, append_step.
  destruct (recording s); reflexivity.
Qed.

(** Reads of the consumer and stop requests that land inside a pass leave
    the recorder's side of the pass as it is when they land between two
    passes. *)
Lemma interleaved_pass_session (p : pass) (s : CameraController) :
  session_pass p = true ->
  let s0 := run_commands (ps_before p) s in
  same_session
    (if is_streaming s0 && pipeline s0 then fst (stream_iteration (ps_env p) s) else s)
    (fst (interleaved_pass p s)).
Proof.
  intros Hp s0. unfold session_pass, pass_commands in Hp.
  rewrite !forallb_app in Hp.
  apply andb_true_iff in Hp. destruct Hp as [H0 Hp].
  apply andb_true_iff in Hp. destruct Hp as [H1 Hp].
  apply andb_true_iff in Hp. destruct Hp as [H2 Hp].
  apply andb_true_iff in Hp. destruct Hp as [H3 Hp].
  apply andb_true_iff in Hp. destruct Hp as [H4 H5].
  pose proof (session_commands_keep _ s H0) as K0. fold s0 in K0.
  unfold interleaved_pass, stream_iteration. fold s0.
  destruct (is_streaming s0 && pipeline s0); [|exact K0].
  destruct (fe_acquire (ps_env p)) as [| msg | [color|] [depth|]]; try exact K0.
  set (e := ps_env p).
  set (s1 := run_commands (ps_after_acquire p) s0).
  assert (K1 : same_session s s1).
  { apply (same_session_trans _ s0); [exact K0|]. apply session_commands_keep. exact H1. }
  destruct (detect_step_session e s s1 color depth K1) as (Ea & Em & K2).
  destruct (detect_step e s color depth) as [[a2 ann] m].
  destruct (detect_step e s1 color depth) as [[s2 ann'] m'].
  cbn [fst snd] in Ea, Em, K2. subst ann' m'.
  set (s3 := run_commands (ps_after_detect p) s2).
  assert (K3 : same_session a2 s3).
  { apply (same_session_trans _ s2); [exact K2|]. apply session_commands_keep. exact H2. }
  set (fd := {| fd_rgb := color; fd_depth := depth;
                fd_depth_colorized := fe_depth_colormap e; fd_annotated := ann;
                fd_detection_metadata := m; fd_timestamp := fe_timestamp e |}).
  set (a4 := set_frame_queue (push (frame_queue a2) fd) a2).
  set (s4 := set_frame_queue (push (frame_queue s3) fd) s3).
  set (s5 := run_commands (ps_after_push p) s4).
  assert (K5 : same_session a4 s5).
  { apply (same_session_trans _ s4); [|apply session_commands_keep; exact H3].
    destruct K3 as (A & B & C). session_goal. }
  rewrite record_step_in_two.
  destruct (write_step_session e a4 s5 color (fe_depth_colormap e) ann K5) as (Eb & K6).
  destruct (write_step e a4 color (fe_depth_colormap e) ann) as [a6 b].
  destruct (write_step e s5 color (fe_depth_colormap e) ann) as [s6 b'].
  cbn [fst snd] in Eb, K6 |- *. subst b'.
  set (s7 := run_commands (ps_after_write p) s6).
  assert (K7 : same_session a6 s7).
  { apply (same_session_trans _ s6); [exact K6|]. apply session_commands_keep. exact H4. }
  apply (same_session_trans _ (append_step s7 b m)).
  - apply append_step_session. exact K7.
  - apply session_commands_keep. exact H5.
Qed.

(** With reads of the consumer only, a pass on a fed frame goes through
    and leaves the loop condition as it was. *)
Lemma interleaved_pass_goes_on (p : pass) (s : CameraController) :
  detected_pass p = true ->
  is_streaming s = true ->
  pipeline s = true ->
  snd (interleaved_pass p s) = Looping /\
  is_streaming (fst (interleaved_pass p s)) = true /\
  pipeline (fst (interleaved_pass p s)) = true /\
  is_streaming (run_commands (ps_before p) s) = true /\
  pipeline (run_commands (ps_before p) s) = true.
Proof.
  intros Hp Hs Hpl. unfold detected_pass in Hp.
  apply andb_true_iff in Hp. destruct Hp as [He Hp].
  unfold pass_commands in Hp. rewrite !forallb_app in Hp.
  apply andb_true_iff in Hp. destruct Hp as [H0 Hp].
  apply andb_true_iff in Hp. destruct Hp as [H1 Hp].
  apply andb_true_iff in Hp. destruct Hp as [H2 Hp].
  apply andb_true_iff in Hp. destruct Hp as [H3 Hp].
  apply andb_true_iff in Hp. destruct Hp as [H4 H5].
  destruct (reads_keep_control _ s H0) as [S0 P0].
  unfold interleaved_pass. rewrite S0, P0, Hs, Hpl. cbn [andb].
  cbn [fed_and_detected] in He.
  destruct (fe_acquire (ps_env p)) as [| msg | [color|] [depth|]]; try discriminate.
  destruct (de_outcome (fe_detect (ps_env p))); try discriminate.
  apply andb_true_iff in He. destruct He as [He Hc2].
  apply andb_true_iff in He. destruct He as [_ Hc1].
  apply negb_true_iff in Hc1, Hc2.
  set (s0 := run_commands (ps_before p) s) in *.
  destruct (reads_keep_control _ s0 H1) as [S1 P1].
  set (s1 := run_commands (ps_after_acquire p) s0) in *.
  pose proof (same_control_detect_step (ps_env p) s1 color depth)
    as (P2 & S2 & _).
  destruct (detect_step (ps_env p) s1 color depth) as [[s2 ann] m].
  cbn [fst] in P2, S2.
  destruct (reads_keep_control _ s2 H2) as [S3 P3].
  set (s3 := run_commands (ps_after_detect p) s2) in *.
  set (s4 := set_frame_queue _ s3).
  assert (S4 : is_streaming s4 = is_streaming s3) by reflexivity.
  assert (P4 : pipeline s4 = pipeline s3) by reflexivity.
  destruct (reads_keep_control _ s4 H3) as [S5 P5].
  set (s5 := run_commands (ps_after_push p) s4) in *.
  assert (K6 : is_streaming (fst (write_step (ps_env p) s5 color
                                    (fe_depth_colormap (ps_env p)) ann))
               = is_streaming s5 /\
               pipeline (fst (write_step (ps_env p) s5 color
                                (fe_depth_colormap (ps_env p)) ann))
               = pipeline s5).
  { unfold write_step. destruct (recording s5); [|split; reflexivity].
    cbn [fst].
    pose proof (same_control_record_frame (fe_write (ps_env p))
                  (if detection_enabled s5 then ann else color)
                  (fe_depth_colormap (ps_env p)) s5) as (A & B & _).
    split; assumption. }
  destruct (write_step (ps_env p) s5 color (fe_depth_colormap (ps_env p)) ann)
    as [s6 b].
  cbn [fst] in K6. destruct K6 as [S6 P6].
  destruct (reads_keep_control _ s6 H4) as [S7 P7].
  set (s7 := run_commands (ps_after_write p) s6) in *.
  assert (K8 : is_streaming (append_step s7 b m) = is_streaming s7 /\
               pipeline (append_step s7 b m) = pipeline s7).
  { unfold append_step. destruct b; [|split; reflexivity].
    destruct (detection_enabled s7 && py_truthy m); [|split; reflexivity].
    destruct m; split; reflexivity. }
  destruct K8 as [S8 P8].
  destruct (reads_keep_control _ (append_step s7 b m) H5) as [S9 P9].
  cbn [fst snd]. unfold callback_step. rewrite Hc1, Hc2, !andb_false_r.
  repeat split; congruence.
Qed.

(** Over a session the numbered records stay 0, 1, 2, ... in order,
    wherever the reads and the stop request land. *)
Lemma session_numbered (passes : list pass) (s : CameraController) :
  forallb session_pass passes = true ->
  recording s = true ->
  detection_enabled s = true ->
  numbered_from_zero (detection_processor s) ->
  numbered_from_zero (detection_processor (fst (_stream_worker_interleaved passes s))).
Proof.
  revert s. induction passes as [|p passes IH]; intros s Ht Hr Hd Hn; [exact Hn|].
  cbn [forallb] in Ht. apply andb_true_iff in Ht. destruct Ht as [Hp Ht].
  cbn [_stream_worker_interleaved].
  pose proof (interleaved_pass_session p s Hp) as K. cbv zeta in K.
  assert (Hn' : numbered_from_zero (detection_processor (fst (interleaved_pass p s))) /\
                recording (fst (interleaved_pass p s)) = true /\
                detection_enabled (fst (interleaved_pass p s)) = true).
  { destruct (is_streaming _ && pipeline _).
    - destruct K as (Kr & Kd & Kp). rewrite Kp, Kr, Kd.
      pose proof (same_control_iteration (ps_env p) s) as (_ & _ & _ & _ & Hr' & Hd' & _).
      split; [apply iteration_numbered; assumption|]. split; congruence.
    - destruct K as (Kr & Kd & Kp). rewrite Kp, Kr, Kd. auto. }
  destruct Hn' as (Hn' & Hr' & Hd').
  destruct (interleaved_pass p s) as [s' [|]]; cbn [fst] in *.
  - apply IH; assumption.
  - exact Hn'.
Qed.

Lemma session_all_detected (passes : list pass) (s : CameraController) (k : nat) :
  forallb detected_pass passes = true ->
  recording s = true ->
  detection_enabled s = true ->
  is_streaming s = true ->
  pipeline s = true ->
  model (detection_processor s) = true ->
  frame_count (detection_processor s) = Z.of_nat k ->
  frame_numbers (detection_metadata (detection_processor s)) = map Z.of_nat (seq 0 k) ->
  length (detection_metadata (detection_processor s)) = k ->
  let s' := fst (_stream_worker_interleaved passes s) in
  length (detection_metadata (detection_processor s')) = (k + length passes)%nat /\
  frame_numbers (detection_metadata (detection_processor s'))
  = map Z.of_nat (seq 0 (k + length passes)).
Proof.
  revert s k. induction passes as [|p passes IH];
    intros s k Ht Hr Hd Hs Hp Hm Hk Hnum Hlen.
  - cbn. rewrite Nat.add_0_r. auto.
  - cbn [forallb] in Ht. apply andb_true_iff in Ht. destruct Ht as [Hev Ht].
    cbn [_stream_worker_interleaved].
    destruct (interleaved_pass_goes_on p s Hev Hs Hp) as (Hst & Hs' & Hp' & Hs0 & Hp0).
    assert (Hsp : session_pass p = true).
    { unfold detected_pass in Hev. apply andb_true_iff in Hev.
      apply reads_are_session_commands. tauto. }
    pose proof (interleaved_pass_session p s Hsp) as K. cbv zeta in K.
    rewrite Hs0, Hp0 in K. cbn [andb] in K. destruct K as (Kr & Kd & Kp).
    assert (Hfe : fed_and_detected (Frame (ps_env p)) = true).
    { unfold detected_pass in Hev. apply andb_true_iff in Hev. tauto. }
    destruct (iteration_detected (ps_env p) s k Hfe Hr Hd Hm Hk Hnum Hlen)
      as (Hm' & Hk' & Hnum' & Hlen').
    pose proof (same_control_iteration (ps_env p) s) as (_ & _ & _ & _ & Hr' & Hd' & _).
    destruct (interleaved_pass p s) as [s' st]. cbn [fst snd] in *. subst st.
    replace (k + length (p :: passes))%nat with (S k + length passes)%nat
      by (cbn [length]; lia).
    apply IH.
    + exact Ht.
    + rewrite Kr, Hr'. exact Hr.
    + rewrite Kd, Hd'. exact Hd.
    + exact Hs'.
    + exact Hp'.
    + rewrite Kp. exact Hm'.
    + rewrite Kp. exact Hk'.
    + rewrite Kp. exact Hnum'.
    + rewrite Kp. exact Hlen'.
Qed.

Lemma start_recording_ok (env : start_env) (path : string) (s s1 : CameraController) :
  detection_enabled s = true ->
  start_recording env path s = (true, s1) ->
  recording s1 = true /\
  detection_enabled s1 = true /\
  is_streaming s1 = is_streaming s /\
  pipeline s1 = pipeline s /\
  recording_output_path s1 = Some path /\
  rgb_writer s1 = Some {| vw_path := String.append path "_detection.avi"; vw_frames := [] |} /\
  detection_processor s1 = clear_metadata (detection_processor s).
Proof.
  intros Hd H. unfold start_recording in H.
  destruct (recording s); [discriminate|].
  destruct (se_outcome env); try discriminate.
  rewrite Hd in H. inversion H; subst. cbn. repeat split.
Qed.

(** *** Passes without inner commands *)

Lemma worker_after_commands (cs : list command) (rest : list event) (s : CameraController) :
  _stream_worker (map Control cs ++ rest) s = _stream_worker rest (run_commands cs s).
Proof.
  revert s. induction cs as [|c cs IH]; intros s; [reflexivity|].
  cbn [map app _stream_worker run_commands fold_left]. apply IH.
Qed.

Lemma atomic_pass_is_iteration (p : pass) (s : CameraController) :
  atomic_pass p = true ->
  let s0 := run_commands (ps_before p) s in
  interleaved_pass p s
  = if is_streaming s0 && pipeline s0 then stream_iteration (ps_env p) s0
    else (s0, Exited).
Proof.
  intros Ha s0. unfold atomic_pass in Ha.
  destruct (ps_after_acquire p) eqn:E1; [|discriminate].
  destruct (ps_after_detect p) eqn:E2; [|discriminate].
  destruct (ps_after_push p) eqn:E3; [|discriminate].
  destruct (ps_after_write p) eqn:E4; [|discriminate].
  destruct (ps_after_append p) eqn:E5; [|discriminate].
  unfold interleaved_pass, stream_iteration. fold s0.
  rewrite E1, E2, E3, E4, E5. cbn [run_commands fold_left].
  destruct (is_streaming s0 && pipeline s0); [|reflexivity].
  destruct (fe_acquire (ps_env p)) as [| msg | [color|] [depth|]]; try reflexivity.
  destruct (detect_step (ps_env p) s0 color depth) as [[s2 ann] m].
  rewrite record_step_in_two.
  destruct (write_step _ _ _ _ _) as [s6 b]. reflexivity.
Qed.

(** When every command lands between two passes, the interleaved worker
    is [_stream_worker] on the trace of the same commands and passes. *)
Lemma interleaved_worker_atomic (passes : list pass) (s : CameraController) :
  forallb atomic_pass passes = true ->
  _stream_worker_interleaved passes s
  = _stream_worker (flat_map events_of_pass passes) s.
Proof.
  revert s. induction passes as [|p passes IH]; intros s Ha; [reflexivity|].
  cbn [forallb] in Ha. apply andb_true_iff in Ha. destruct Ha as [Hp Ha].
  cbn [_stream_worker_interleaved flat_map]. unfold events_of_pass at 1.
  rewrite <- app_assoc, worker_after_commands. cbn [app _stream_worker].
  rewrite (atomic_pass_is_iteration p s Hp). cbv zeta.
  destruct (is_streaming _ && pipeline _); [|reflexivity].
  destruct (stream_iteration _ _) as [s' [|]]; [apply IH; exact Ha | reflexivity].
Qed.

(** C5 (as the code has it): in a recording session started with detection
    enabled, by a [start_recording] that runs between two passes of the
    worker, and during which the consumer only reads the bus or requests a
    stop, the frame numbers of the recorded metadata are 0, 1, 2, ... in
    order, strictly increasing without gaps, whatever the bus drops and
    wherever those reads and the stop request land, inside a pass or
    between two; a fed frame on which detection fails is recorded without a
    number and does not advance the counter, so the numbers are exactly
    0..N-1 for N fed frames when detection succeeds on each of them. *)
Theorem C5_session_frame_numbers (env : start_env) (output_path : string)
    (s s1 : CameraController) (passes : list pass) (later : list command) :
  detection_enabled s = true ->
  start_recording env output_path s = (true, s1) ->
  forallb session_pass passes = true ->
  forallb (fun c => session_event (Control c)) later = true ->
  let recorded :=
    detection_metadata
      (detection_processor
         (run_commands later (fst (_stream_worker_interleaved passes s1)))) in
  frame_numbers recorded = map Z.of_nat (seq 0 (length (frame_numbers recorded))) /\
  (is_streaming s = true ->
   pipeline s = true ->
   model (detection_processor s) = true ->
   forallb detected_pass passes = true ->
   length recorded = length passes /\
   frame_numbers recorded = map Z.of_nat (seq 0 (length passes))).
Proof.
  intros Hd Hstart Ht Hl recorded.
  destruct (start_recording_ok env output_path s s1 Hd Hstart)
    as (Hr1 & Hd1 & Hs1 & Hp1 & _ & _ & Hproc).
  destruct (session_commands_keep later (fst (_stream_worker_interleaved passes s1)) Hl)
    as (_ & _ & Hlater).
  unfold recorded. rewrite Hlater.
  split.
  - assert (Hn : numbered_from_zero
                   (detection_processor (fst (_stream_worker_interleaved passes s1)))).
    { apply session_numbered; try assumption.
      rewrite Hproc. exists 0%nat. split; reflexivity. }
    destruct Hn as [k [_ Hnum]].
    rewrite Hnum at 2. rewrite length_map, length_seq. exact Hnum.
  - intros Hs Hp Hm Hall.
    destruct (session_all_detected passes s1 0 Hall Hr1 Hd1) as (Hlen & Hnum);
      try congruence; try (rewrite Hproc; reflexivity).
    + rewrite Hproc. cbn. exact Hm.
    + split; [exact Hlen | exact Hnum].
Qed.

Lemma C5_session_frame_numbers_witness :
  let s1 := snd (start_recording start_ok "recordings/a" (streaming_controller true)) in
  let passes :=
    [ quiet_pass (good_frame one_detection);
      {| ps_env := good_frame one_detection;
         ps_before := [CmdGetLatest]; ps_after_acquire := [];
         ps_after_detect := [CmdGetLatest]; ps_after_push := [CmdGetLatest];
         ps_after_write := []; ps_after_append := [] |};
      quiet_pass (good_frame one_detection) ] in
  frame_numbers
    (detection_metadata
       (detection_processor
          (run_commands [CmdStop] (fst (_stream_worker_interleaved passes s1)))))
  = [0; 1; 2].
Proof.
  intros s1 passes.
  destruct (C5_session_frame_numbers start_ok "recordings/a"
              (streaming_controller true) s1 passes [CmdStop]
              eq_refl eq_refl eq_refl eq_refl)
    as [_ H].
  destruct (H eq_refl eq_refl eq_refl eq_refl) as [_ Hnum].
  exact Hnum.
Defined.

(** C5 as worded fails: of two frames fed to the recorder, the detector
    raises on the first; both are recorded, but only the second carries a
    frame number, so the numbers are [0], not [0; 1]. *)
Lemma C5_counterexample :
  let s1 := snd (start_recording start_ok "recordings/a" (streaming_controller true)) in
  let passes := [quiet_pass (good_frame (DetectorRaises "CUDA error"));
                 quiet_pass (good_frame one_detection)] in
  let recorded :=
    detection_metadata (detection_processor (fst (_stream_worker_interleaved passes s1))) in
  length recorded = 2%nat /\
  map (jget "frame_number") recorded = [None; Some (JInt 0)] /\
  frame_numbers recorded = [0] /\
  frame_numbers recorded <> [0; 1].
Proof.
  vm_compute. repeat split. discriminate.
Qed.

(** When [start_recording] takes effect while a pass is in flight, after
    the frame was numbered (line 215) and before the test of line 238, the
    frame in flight is recorded with the number it was given before the
    counter was reset, here 3, ahead of 0 and 1. *)
Example start_inside_a_pass_records_a_stale_number :
  let g := good_frame one_detection in
  let passes := [quiet_pass g; quiet_pass g; quiet_pass g;
                 pass_with_start g start_ok "recordings/a";
                 quiet_pass g; quiet_pass g] in
  frame_numbers
    (detection_metadata
       (detection_processor
          (fst (_stream_worker_interleaved passes (streaming_controller true)))))
  = [3; 0; 1].
Proof. vm_compute. reflexivity. Qed.

(* ------------------------------------------------------------------ *)
(** ** Sidecar: path *)

Lemma prefix_app_false (u : ascii) (pat p t : string) :
  pat <> EmptyString ->
  mem_char u pat = false ->
  String.prefix pat p = false ->
  String.prefix pat (String.append p (String u t)) = false.
Proof.
  revert p. induction pat as [|a pat IH]; intros p Hne Hmem Hp; [congruence|].
  cbn [mem_char] in Hmem. apply orb_false_iff in Hmem. destruct Hmem as [Hau Hmem].
  destruct p as [|b p]; cbn [String.append String.prefix] in *.
  - destruct (ascii_dec a u) as [-> | _]; [|reflexivity].
    rewrite Ascii.eqb_refl in Hau. discriminate.
  - revert Hp. destruct (ascii_dec a b) as [_ | _]; [|reflexivity].
    intros Hp. destruct pat as [|a' pat]; [destruct p; cbn in Hp; discriminate Hp|].
    apply IH; [discriminate | exact Hmem | exact Hp].
Qed.

(** A prefix free of [old], followed by a character that [old] does not
    contain, passes through [str.replace] unchanged. *)
Lemma replace_from_app (u : ascii) (old new p t : string) :
  old <> EmptyString ->
  mem_char u old = false ->
  occurs old p = false ->
  replace_from old new 0 (String.append p (String u t))
  = String.append p (replace_from old new 0 (String u t)).
Proof.
  intros Hne Hmem. induction p as [|b p IH]; intros Hocc; [reflexivity|].
  cbn [occurs] in Hocc. apply orb_false_iff in Hocc. destruct Hocc as [Hpre Hocc].
  change (String.append (String b p) (String u t))
    with (String b (String.append p (String u t))).
  cbn [replace_from].
  change (String b (String.append p (String u t)))
    with (String.append (String b p) (String u t)).
  rewrite (prefix_app_false u old (String b p) t Hne Hmem Hpre).
  rewrite (IH Hocc). reflexivity.
Qed.

(** For an output prefix that contains neither [.avi] nor [.mp4], the
    sidecar path is the primary sink path with [.avi] replaced. *)
Lemma metadata_file_of_prefix (path : string) :
  occurs ".avi" path = false ->
  occurs ".mp4" path = false ->
  metadata_file (String.append path "_detection.avi")
  = String.append path "_detection_detections.json".
Proof.
  intros Havi Hmp4. unfold metadata_file, str_replace.
  rewrite (replace_from_app "_" ".avi" "_detections.json" path "detection.avi");
    [| discriminate | reflexivity | exact Havi].
  change (replace_from ".avi" "_detections.json" 0 "_detection.avi")
    with "_detection_detections.json"%string.
  rewrite (replace_from_app "_" ".mp4" "_detections.json" path
             "detection_detections.json");
    [| discriminate | reflexivity | exact Hmp4].
  reflexivity.
Qed.

(* ------------------------------------------------------------------ *)
(** ** Sidecar: contents *)

Lemma detection_record_wf (self : ObjectDetectionProcessor) (depth_frame : depth_array)
    (dets : detections) (names : Z -> string) (i : nat) (b : bbox) :
  detection_wf (detection_record self depth_frame dets names i b).
Proof.
  destruct b as [[[b0 b1] b2] b3]. unfold detection_wf, detection_record.
  do 10 eexists. reflexivity.
Qed.

Lemma detection_info_wf (self : ObjectDetectionProcessor) (depth_frame : depth_array)
    (dets : detections) (names : Z -> string) :
  Forall detection_wf (detection_info self depth_frame dets names).
Proof.
  unfold detection_info. apply Forall_forall. intros j Hj.
  apply in_map_iff in Hj. destruct Hj as [[i b] [<- _]].
  apply detection_record_wf.
Qed.

(** Every dict [process_frame] returns has one of the two record shapes, and
    the call changes neither the model path nor the configuration. *)
Lemma process_frame_wf (env : detect_env) (self : ObjectDetectionProcessor)
    (rgb_frame : image) (depth_frame : depth_array) :
  let '(p, (_, m)) := process_frame env self rgb_frame depth_frame in
  recorded_wf m /\
  detection_metadata p = detection_metadata self /\
  model_path p = model_path self /\
  cfg p = cfg self.
Proof.
  unfold process_frame.
  destruct (negb (model self)).
  - split; [right; eexists; reflexivity | repeat split].
  - destruct (de_outcome env) as [msg | dets names].
    + split; [right; eexists; reflexivity | repeat split].
    + split; [|repeat split].
      left. do 4 eexists. split; [reflexivity|]. apply detection_info_wf.
Qed.

Lemma iteration_recorded_wf (e : frame_env) (s : CameraController) :
  recording s = true ->
  detection_enabled s = true ->
  Forall recorded_wf (detection_metadata (detection_processor s)) ->
  Forall recorded_wf (detection_metadata (detection_processor (fst (stream_iteration e s)))) /\
  model_path (detection_processor (fst (stream_iteration e s)))
  = model_path (detection_processor s) /\
  cfg (detection_processor (fst (stream_iteration e s))) = cfg (detection_processor s).
Proof.
  intros Hr Hd Hwf. rewrite (iteration_processor e s Hr Hd).
  destruct (fe_acquire e) as [| msg | [color|] [depth|]]; try (repeat split; assumption).
  destruct (fe_cvt_raises e); [repeat split; assumption|].
  pose proof (process_frame_wf (fe_detect e) (detection_processor s)
                (cvtColor_swap color) depth) as Hp.
  destruct (process_frame _ _ _ _) as [p [a m]].
  destruct Hp as (Hm & Hmeta & Hpath & Hcfg).
  destruct (py_truthy (Some m)); cbn; rewrite Hmeta; repeat split; try assumption.
  apply Forall_app. split; [assumption | constructor; [assumption | constructor]].
Qed.

Lemma session_recorded_wf (trace : list event) (s : CameraController) :
  forallb session_event trace = true ->
  recording s = true ->
  detection_enabled s = true ->
  Forall recorded_wf (detection_metadata (detection_processor s)) ->
  let s' := fst (_stream_worker trace s) in
  Forall recorded_wf (detection_metadata (detection_processor s')) /\
  model_path (detection_processor s') = model_path (detection_processor s) /\
  cfg (detection_processor s') = cfg (detection_processor s) /\
  recording s' = true /\
  detection_enabled s' = true /\
  recording_output_path s' = recording_output_path s.
Proof.
  revert s. induction trace as [|ev trace IH]; intros s Ht Hr Hd Hwf;
    [cbn; repeat split; assumption|].
  cbn [forallb] in Ht. apply andb_true_iff in Ht. destruct Ht as [Hev Ht].
  destruct ev as [e | c]; cbn [_stream_worker].
  - destruct (is_streaming s && pipeline s); [|cbn; repeat split; assumption].
    destruct (iteration_recorded_wf e s Hr Hd Hwf) as (Hwf' & Hpath & Hcfg).
    pose proof (same_control_iteration e s) as (_ & _ & _ & _ & Hr' & Hd' & _ & Ho').
    destruct (stream_iteration e s) as [s' [|]]; cbn [fst] in *.
    + specialize (IH s' Ht). cbv zeta in IH.
      destruct IH as (H1 & H2 & H3 & H4 & H5 & H6); try congruence.
      repeat split; congruence.
    + repeat split; congruence.
  - assert (Hk : detection_processor (run_command c s) = detection_processor s /\
                 recording (run_command c s) = recording s /\
                 detection_enabled (run_command c s) = detection_enabled s /\
                 recording_output_path (run_command c s) = recording_output_path s).
    { destruct c; cbn in Hev; try discriminate; cbn.
      - repeat split.
      - unfold get_latest_frames. destruct (Queue.get_nowait _) as [[x q]|]; repeat split. }
    destruct Hk as (Hk1 & Hk2 & Hk3 & Hk4).
    specialize (IH (run_command c s) Ht). cbv zeta in IH.
    destruct IH as (H1 & H2 & H3 & H4 & H5 & H6); try congruence.
    repeat split; congruence.
Qed.

(** C8 (as the code has it): stopping a recording session that was started
    with detection enabled, under an output prefix containing neither
    [.avi] nor [.mp4], writes the sidecar at the primary sink's path with
    its [.avi] extension replaced by [_detections.json]; the document has
    the fields [total_frames], [model_path], [config] (with
    [center_region_ratio], [depth_outlier_threshold] and [yolo_input_size])
    and [frames], the recorded records in order, each either a frame record
    whose detections carry [tracker_id], [class_id], [class_name],
    [confidence], [bbox] as 4 floats, [depth_mm] and [depth_m], or an error
    record. *)
Theorem C8_sidecar_document (env : start_env) (output_path : string)
    (s s1 : CameraController) (trace : list event) :
  detection_enabled s = true ->
  start_recording env output_path s = (true, s1) ->
  forallb session_event trace = true ->
  occurs ".avi" output_path = false ->
  occurs ".mp4" output_path = false ->
  let s2 := fst (_stream_worker trace s1) in
  let recorded := detection_metadata (detection_processor s2) in
  let c := cfg (detection_processor s) in
  option_map vw_path (rgb_writer s1) = Some (String.append output_path "_detection.avi") /\
  sidecar (fst (stop_recording true s2)) =
    Some (String.append output_path "_detection_detections.json",
          JObj [ ("total_frames"%string, JInt (Zlen recorded));
                 ("model_path"%string, JStr (model_path (detection_processor s)));
                 ("config"%string,
                    JObj [ ("center_region_ratio"%string, JFloat (CENTER_REGION_RATIO c));
                           ("depth_outlier_threshold"%string,
                              JFloat (DEPTH_OUTLIER_THRESHOLD c));
                           ("yolo_input_size"%string, JInt (YOLO_INPUT_SIZE c)) ]);
                 ("frames"%string, JList recorded) ]) /\
  Forall recorded_wf recorded.
Proof.
  intros Hd Hstart Ht Havi Hmp4 s2 recorded c.
  destruct (start_recording_ok env output_path s s1 Hd Hstart)
    as (Hr1 & Hd1 & _ & _ & Hout & Hrw & Hproc).
  destruct (session_recorded_wf trace s1 Ht Hr1 Hd1) as (Hwf & Hpath & Hcfg & Hr2 & Hd2 & Ho2).
  { rewrite Hproc. constructor. }
  fold s2 in Hwf, Hpath, Hcfg, Hr2, Hd2, Ho2. fold recorded in Hwf.
  split; [rewrite Hrw; reflexivity|]. split; [|exact Hwf].
  unfold stop_recording. rewrite Hr2, Hd2, Ho2, Hout. cbn [negb sidecar].
  unfold save_detection_metadata. cbn [snd].
  rewrite (metadata_file_of_prefix output_path Havi Hmp4).
  unfold metadata_document. fold recorded.
  rewrite Hpath, Hcfg, Hproc. reflexivity.
Qed.

Lemma C8_sidecar_document_witness :
  let s1 := snd (start_recording start_ok "out/rec" (streaming_controller true)) in
  let trace := [Frame (good_frame one_detection);
                Frame (good_frame (DetectorRaises "CUDA error"))] in
  option_map fst (sidecar (fst (stop_recording true (fst (_stream_worker trace s1)))))
  = Some "out/rec_detection_detections.json"%string.
Proof.
  intros s1 trace.
  destruct (C8_sidecar_document start_ok "out/rec" (streaming_controller true) s1 trace
              eq_refl eq_refl eq_refl eq_refl eq_refl) as (_ & H & _).
  rewrite H. reflexivity.
Defined.

(** C8 as worded fails: the [config] object of the document has no
    [detector_input_size] entry; the detector input size is stored under
    [yolo_input_size]. *)
Lemma C8_counterexample :
  let s1 := snd (start_recording start_ok "out/rec" (streaming_controller true)) in
  let trace := [Frame (good_frame one_detection)] in
  exists (path : string) (doc config_obj : json),
    sidecar (fst (stop_recording true (fst (_stream_worker trace s1)))) = Some (path, doc) /\
    jget "config" doc = Some config_obj /\
    jkeys config_obj = ["center_region_ratio"; "depth_outlier_threshold";
                        "yolo_input_size"]%string /\
    jget "detector_input_size" config_obj = None /\
    jget "yolo_input_size" config_obj = Some (JInt 640).
Proof.
  do 3 eexists. vm_compute. repeat split.
Qed.

(** [str.replace] rewrites every occurrence, not only the extension: an
    output prefix that itself contains [.avi] is rewritten too. *)
Example metadata_file_rewrites_every_occurrence :
  metadata_file "take.avi_2/rec_detection.avi"
  = "take_detections.json_2/rec_detection_detections.json"%string.
Proof. reflexivity. Qed.

(* ================================================================== *)
(** * Further properties of the depth estimator *)

Lemma robust_mean_of_five (c : config) (valid : list Z) :
  (5 <= length valid)%nat ->
  robust_mean c valid =
  if (0 <? length (filtered_depth c valid))%nat
  then np_mean (filtered_depth c valid) else np_mean valid.
Proof.
  intros Hlen. unfold robust_mean.
  destruct (length valid <? 5)%nat eqn:E; [apply Nat.ltb_lt in E; lia | reflexivity].
Qed.

(** When a mean is returned it lies between any two bounds of the valid
    samples of the shrunk region, hence between their minimum and maximum:
    outlier rejection never moves the estimate outside the readings. *)
Theorem estimate_within_sample_bounds (c : config) (d : depth_array) (b : bbox)
    (lo hi : Z) :
  let valid := valid_depth (center_region c d b) in
  (5 <= length valid)%nat ->
  Forall (fun v => lo <= v <= hi) valid ->
  (inject_Z lo <= calculate_depth_robust_center c d b /\
   calculate_depth_robust_center c d b <= inject_Z hi)%Q.
Proof.
  intros valid Hlen Hall.
  rewrite estimate_on_center_region. fold valid.
  rewrite (robust_mean_of_five c valid Hlen).
  destruct (0 <? length (filtered_depth c valid))%nat eqn:Hf.
  - apply np_mean_bounds.
    + apply nonempty_of_length. exact Hf.
    + apply Forall_filter_keep. exact Hall.
  - apply np_mean_bounds; [|exact Hall].
    intros E. rewrite E in Hlen. simpl in Hlen. lia.
Qed.

Lemma estimate_within_sample_bounds_witness :
  Qle (inject_Z 1000)
      (calculate_depth_robust_center default_config
         [[1000; 1010; 1020; 1030; 1040; 1050; 9000]] (0, 0, 7, 1)%Q) /\
  Qle (calculate_depth_robust_center default_config
         [[1000; 1010; 1020; 1030; 1040; 1050; 9000]] (0, 0, 7, 1)%Q)
      (inject_Z 1050).
Proof.
  apply (estimate_within_sample_bounds default_config
           [[1000; 1010; 1020; 1030; 1040; 1050; 9000]] (0, 0, 7, 1)%Q 1000 1050).
  - apply Nat.leb_le. vm_compute. reflexivity.
  - apply (Forall_of_forallb (fun v => (1000 <=? v) && (v <=? 1050))).
    + intros x Hx. apply andb_true_iff in Hx. destruct Hx as [H1 H2].
      apply Z.leb_le in H1, H2. lia.
    + vm_compute. reflexivity.
Defined.

Lemma Qsum_above (f : Z -> Q) (bound : Q) (l : list Z) :
  l <> [] ->
  Forall (fun v => (bound < f v)%Q) l ->
  (inject_Z (Zlen l) * bound < Qsum (map f l))%Q.
Proof.
  intros Hne Hall. induction Hall as [|v l Hv Hall IH]; [congruence|].
  assert (Hlen : (inject_Z (Zlen (v :: l)) == inject_Z (Zlen l) + 1)%Q).
  { unfold Zlen. cbn [length]. rewrite Nat2Z.inj_succ. unfold Z.succ.
    rewrite inject_Z_plus. reflexivity. }
  assert (Hsum : (Qsum (map f (v :: l)) == f v + Qsum (map f l))%Q) by reflexivity.
  rewrite Hlen, Hsum.
  destruct l as [|v' l'].
  - change (inject_Z (Zlen [])) with 0%Q. change (Qsum (map f [])) with 0%Q. Lqa.lra.
  - assert (IH' : (inject_Z (Zlen (v' :: l')) * bound
                   < Qsum (map f (v' :: l')))%Q) by (apply IH; discriminate).
    Lqa.lra.
Qed.

Lemma np_var_times_length (l : list Z) :
  l <> [] ->
  (inject_Z (Zlen l) * np_var l
   == Qsum (map (fun v => (inject_Z v - np_mean l) * (inject_Z v - np_mean l)) l))%Q.
Proof.
  intros Hne. unfold np_var.
  assert (Hn : ~ inject_Z (Zlen l) == 0).
  { intros E. pose proof (Zlen_pos l Hne) as Hp.
    rewrite (Zlt_Qlt 0) in Hp. rewrite E in Hp. apply (Qlt_irrefl 0). exact Hp. }
  field. exact Hn.
Qed.

Lemma Qabs_square (q : Q) : (Qabs q * Qabs q == q * q)%Q.
Proof.
  destruct (Qlt_le_dec q 0) as [Hneg | Hpos].
  - rewrite (Qabs_neg q (Qlt_le_weak _ _ Hneg)). ring.
  - rewrite (Qabs_pos q Hpos). reflexivity.
Qed.

(** With a threshold of at least one standard deviation some sample always
    survives the outlier filter. *)
Lemma filtered_depth_nonempty (c : config) (valid : list Z) :
  valid <> [] ->
  (1 <= DEPTH_OUTLIER_THRESHOLD c)%Q ->
  filtered_depth c valid <> [].
Proof.
  intros Hne Ht Hnil.
  pose proof (np_var_nonneg valid Hne) as Hvar.
  assert (Hall : Forall (fun v => (np_var valid
                   < (inject_Z v - np_mean valid) * (inject_Z v - np_mean valid))%Q) valid).
  { apply Forall_forall. intros v Hv.
    assert (Hw : within_threshold c (np_mean valid) (np_var valid) v = false).
    { destruct (within_threshold c (np_mean valid) (np_var valid) v) eqn:E; [|reflexivity].
      assert (Hin : In v (filtered_depth c valid))
        by (unfold filtered_depth; apply filter_In; split; assumption).
      rewrite Hnil in Hin. destruct Hin. }
    unfold within_threshold, le_mul_sqrt in Hw.
    assert (H0 : Qle_bool 0 (DEPTH_OUTLIER_THRESHOLD c) = true)
      by (apply Qle_bool_iff; Lqa.lra).
    rewrite H0 in Hw.
    assert (Hlt : (DEPTH_OUTLIER_THRESHOLD c * DEPTH_OUTLIER_THRESHOLD c * np_var valid
                   < Qabs (inject_Z v - np_mean valid) * Qabs (inject_Z v - np_mean valid))%Q).
    { apply Qnot_le_lt. intros Hle. apply Qle_bool_iff in Hle. congruence. }
    rewrite Qabs_square in Hlt.
    assert (Htt : (1 * np_var valid
                   <= DEPTH_OUTLIER_THRESHOLD c * DEPTH_OUTLIER_THRESHOLD c * np_var valid)%Q).
    { apply Qmult_le_compat_r; [|exact Hvar].
      assert (H1 : (1 * 1 <= DEPTH_OUTLIER_THRESHOLD c * DEPTH_OUTLIER_THRESHOLD c)%Q)
        by (apply Qmult_le_compat_nonneg; split; Lqa.lra).
      Lqa.lra. }
    Lqa.lra. }
  pose proof (Qsum_above _ _ valid Hne Hall) as Hsum.
  rewrite (np_var_times_length valid Hne) in Hsum.
  exact (Qlt_irrefl _ Hsum).
Qed.

(** The fallback of line 143 is dead code for every threshold of at least
    1.0 (the default is 2.0): the filter never removes every sample, so with
    5 or more valid samples the estimate is always the mean of the
    survivors. *)
Theorem unfiltered_fallback_unreachable (c : config) (d : depth_array) (b : bbox) :
  let valid := valid_depth (center_region c d b) in
  (5 <= length valid)%nat ->
  (1 <= DEPTH_OUTLIER_THRESHOLD c)%Q ->
  filtered_depth c valid <> [] /\
  calculate_depth_robust_center c d b = np_mean (filtered_depth c valid).
Proof.
  intros valid Hlen Ht.
  assert (Hne : valid <> []) by (intros E; rewrite E in Hlen; simpl in Hlen; lia).
  pose proof (filtered_depth_nonempty c valid Hne Ht) as Hk.
  split; [exact Hk|].
  rewrite estimate_on_center_region. fold valid.
  rewrite (robust_mean_of_five c valid Hlen).
  destruct (filtered_depth c valid); [congruence | reflexivity].
Qed.

Lemma unfiltered_fallback_unreachable_witness :
  calculate_depth_robust_center default_config
    [[1000; 1010; 1020; 1030; 1040; 1050; 9000]] (0, 0, 7, 1)%Q
  = np_mean (filtered_depth default_config [1010; 1020; 1030; 1040; 1050]).
Proof.
  apply (unfiltered_fallback_unreachable default_config
           [[1000; 1010; 1020; 1030; 1040; 1050; 9000]] (0, 0, 7, 1)%Q).
  - apply Nat.leb_le. vm_compute. reflexivity.
  - vm_compute. discriminate.
Defined.

Lemma py_int_of_nonneg (q : Q) :
  (0 <= q)%Q -> 0 <= py_int q /\ (inject_Z (py_int q) <= q)%Q.
Proof.
  intros Hq.
  assert (Hn : 0 <= Qnum q) by (unfold Qle in Hq; simpl in Hq; lia).
  assert (Hf : py_int q = Qfloor q).
  { destruct q as [n d]. unfold py_int, Qfloor. simpl in *.
    apply Z.quot_div_nonneg; lia. }
  rewrite Hf. split.
  - change 0 with (Qfloor 0). apply Qfloor_resp_le. exact Hq.
  - apply Qfloor_le.
Qed.

Lemma py_int_opp (q : Q) : py_int (- q) = - py_int q.
Proof.
  destruct q as [n d]. unfold py_int. simpl.
  apply Z.quot_opp_l. discriminate.
Qed.

Lemma py_int_of_nonpos (q : Q) :
  (q <= 0)%Q -> py_int q <= 0 /\ (q <= inject_Z (py_int q))%Q.
Proof.
  intros Hq.
  destruct (py_int_of_nonneg (- q)) as [H1 H2]; [Lqa.lra|].
  rewrite py_int_opp in H1, H2. rewrite inject_Z_opp in H2.
  split; [lia | Lqa.lra].
Qed.

Lemma Qmult_le_compat_left (x y z : Q) :
  (0 <= z)%Q -> (x <= y)%Q -> (z * x <= z * y)%Q.
Proof.
  intros Hz Hxy. rewrite (Qmult_comm z x), (Qmult_comm z y).
  apply Qmult_le_compat_r; assumption.
Qed.

(** A margin never exceeds half the side and has the sign of the side, for
    every ratio between 0 and 1. *)
Lemma margin_bounds (r : Q) (w : Z) :
  (0 <= r)%Q -> (r <= 1)%Q ->
  let m := py_int (inject_Z w * (1 - r) / 2) in
  (0 <= w -> 0 <= m /\ 2 * m <= w) /\
  (w <= 0 -> m <= 0 /\ w <= 2 * m).
Proof.
  intros Hr0 Hr1 m. split; intros Hw.
  - assert (HwQ : (0 <= inject_Z w)%Q) by (rewrite <- (Zle_Qle 0); exact Hw).
    assert (Hp : (0 <= inject_Z w * (1 - r))%Q)
      by (apply Qmult_le_0_compat; Lqa.lra).
    assert (Hp' : (inject_Z w * (1 - r) <= inject_Z w * 1)%Q)
      by (apply Qmult_le_compat_left; Lqa.lra).
    destruct (py_int_of_nonneg (inject_Z w * (1 - r) / 2)) as [H1 H2].
    { apply Qle_shift_div_l; Lqa.lra. }
    fold m in H1, H2. split; [exact H1|].
    rewrite Zle_Qle, inject_Z_mult. change (inject_Z 2) with 2%Q.
    clearbody m. revert H2 Hp'. generalize (inject_Z w * (1 - r))%Q. intros p H2 Hp'.
    assert (H3 : (p / 2 * 2 == p)%Q) by field.
    assert (H4 : (inject_Z m * 2 <= p / 2 * 2)%Q)
      by (apply Qmult_le_compat_r; [exact H2 | Lqa.lra]).
    Lqa.lra.
  - assert (HwQ : (inject_Z w <= 0)%Q) by (rewrite <- (Zle_Qle _ 0); exact Hw).
    assert (Hp : (0 <= (- inject_Z w) * (1 - r))%Q)
      by (apply Qmult_le_0_compat; Lqa.lra).
    assert (Hp' : ((- inject_Z w) * (1 - r) <= (- inject_Z w) * 1)%Q)
      by (apply Qmult_le_compat_left; Lqa.lra).
    destruct (py_int_of_nonpos (inject_Z w * (1 - r) / 2)) as [H1 H2].
    { apply Qle_shift_div_r; Lqa.lra. }
    fold m in H1, H2. split; [exact H1|].
    rewrite Zle_Qle, inject_Z_mult. change (inject_Z 2) with 2%Q.
    assert (Hp2 : (inject_Z w * 1 <= inject_Z w * (1 - r))%Q).
    { setoid_replace (inject_Z w * 1)%Q with (- (- inject_Z w * 1))%Q by ring.
      setoid_replace (inject_Z w * (1 - r))%Q with (- (- inject_Z w * (1 - r)))%Q by ring.
      apply Qopp_le_compat. exact Hp'. }
    clearbody m. clear Hp Hp'. revert H2 Hp2.
    generalize (inject_Z w * (1 - r))%Q. intros p H2 Hp2.
    assert (H3 : (p / 2 * 2 == p)%Q) by field.
    assert (H4 : (p / 2 * 2 <= inject_Z m * 2)%Q)
      by (apply Qmult_le_compat_r; [exact H2 | Lqa.lra]).
    Lqa.lra.
Qed.

(** A box that is inverted or degenerate after truncation, or that lies
    entirely to the right of, below, to the left of or above the frame,
    has an empty centre region and gets [0.0], for every retained ratio
    between 0 and 1. *)
Theorem box_without_region_gives_zero (c : config) (d : depth_array) (b : bbox) :
  (0 <= CENTER_REGION_RATIO c)%Q ->
  (CENTER_REGION_RATIO c <= 1)%Q ->
  (let '(b0, b1, b2, b3) := b in
   py_int b2 <= py_int b0 \/ py_int b3 <= py_int b1 \/
   shape1 d <= py_int b0 \/ shape0 d <= py_int b1 \/
   py_int b2 <= 0 \/ py_int b3 <= 0) ->
  center_region c d b = [] /\ calculate_depth_robust_center c d b = 0%Q.
Proof.
  intros Hr0 Hr1 Hbox.
  assert (He : region_empty (center_bounds c d b) = true).
  { destruct b as [[[b0 b1] b2] b3]. unfold center_bounds, region_empty.
    pose proof (margin_bounds (CENTER_REGION_RATIO c) (py_int b2 - py_int b0) Hr0 Hr1)
      as [Hx1 Hx2].
    pose proof (margin_bounds (CENTER_REGION_RATIO c) (py_int b3 - py_int b1) Hr0 Hr1)
      as [Hy1 Hy2].
    cbv zeta in Hx1, Hx2, Hy1, Hy2.
    set (mx := py_int (inject_Z (py_int b2 - py_int b0) * (1 - CENTER_REGION_RATIO c) / 2)) in *.
    set (my := py_int (inject_Z (py_int b3 - py_int b1) * (1 - CENTER_REGION_RATIO c) / 2)) in *.
    assert (Hs0 : 0 <= shape0 d) by (unfold shape0, Zlen; lia).
    assert (Hs1 : 0 <= shape1 d) by (unfold shape1, Zlen; destruct d; lia).
    apply orb_true_iff. rewrite !Z.leb_le. lia. }
  unfold center_region, calculate_depth_robust_center. rewrite He. split; reflexivity.
Qed.

Lemma box_without_region_gives_zero_witness :
  calculate_depth_robust_center default_config scenario_depth (400, 100, 500, 200)%Q = 0%Q.
Proof.
  apply (box_without_region_gives_zero default_config scenario_depth (400, 100, 500, 200)%Q).
  - vm_compute. discriminate.
  - vm_compute. discriminate.
  - right. right. left. vm_compute. discriminate.
Defined.

(* ------------------------------------------------------------------ *)
(** ** One outlier among equal readings *)

Lemma Qsum_cons (x : Q) (l : list Q) : Qsum (x :: l) == x + Qsum l.
Proof. reflexivity. Qed.

Lemma Qsum_map_cons (f : Z -> Q) (x : Z) (l : list Z) :
  Qsum (map f (x :: l)) == f x + Qsum (map f l).
Proof. reflexivity. Qed.

Lemma Qsum_map_app (f : Z -> Q) (l1 l2 : list Z) :
  Qsum (map f (l1 ++ l2)) == Qsum (map f l1) + Qsum (map f l2).
Proof.
  induction l1 as [|x l1 IH].
  - change (Qsum (map f [])) with 0%Q. rewrite Qplus_0_l. reflexivity.
  - change (map f ((x :: l1) ++ l2)) with (f x :: map f (l1 ++ l2)).
    change (map f (x :: l1)) with (f x :: map f l1).
    rewrite !Qsum_cons, IH. apply Qplus_assoc.
Qed.

Lemma Qsum_map_repeat (f : Z -> Q) (v : Z) (k : nat) :
  Qsum (map f (repeat v k)) == inject_Z (Z.of_nat k) * f v.
Proof.
  induction k as [|k IH].
  - change (Qsum (map f (repeat v 0))) with 0%Q. change (inject_Z (Z.of_nat 0)) with 0%Q.
    rewrite Qmult_0_l. reflexivity.
  - change (map f (repeat v (S k))) with (f v :: map f (repeat v k)).
    rewrite Qsum_cons, IH, Nat2Z.inj_succ. unfold Z.succ.
    rewrite inject_Z_plus. change (inject_Z 1) with 1%Q. ring.
Qed.

Lemma le_mul_sqrt_two (a t s : Q) :
  t == 2 -> le_mul_sqrt a t s = Qle_bool (a * a) (4 * s).
Proof.
  intros Ht. unfold le_mul_sqrt.
  assert (H0 : Qle_bool 0 t = true) by (apply Qle_bool_iff; rewrite Ht; discriminate).
  rewrite H0. apply Qleb_comp; [reflexivity|]. rewrite Ht. ring.
Qed.

Lemma filter_with_outlier (f : Z -> bool) (v w : Z) (a b : nat) :
  f v = true -> f w = false ->
  filter f (with_outlier v w a b) = repeat v (a + b).
Proof.
  intros Hv Hw. unfold with_outlier.
  assert (Hr : forall k, filter f (repeat v k) = repeat v k).
  { induction k as [|k IH]; [reflexivity|]. cbn [repeat filter]. rewrite Hv, IH. reflexivity. }
  rewrite filter_app. cbn [filter]. rewrite Hw, !Hr, repeat_app. reflexivity.
Qed.

Section Outlier.

Variables (v w : Z) (a b : nat).
Hypothesis Hn : (5 <= a + b)%nat.
Hypothesis Hvw : v <> w.

Let l := with_outlier v w a b.
Let nQ := inject_Z (Z.of_nat (a + b)).
Let V := inject_Z v.
Let W := inject_Z w.
Let q := ((W - V) * (W - V) / ((nQ + 1) * (nQ + 1)))%Q.

Lemma outlier_nQ : (5 <= nQ)%Q.
Proof. unfold nQ. change 5%Q with (inject_Z 5). rewrite <- Zle_Qle. lia. Qed.

Lemma outlier_length : inject_Z (Zlen l) == nQ + 1.
Proof.
  unfold l, with_outlier, Zlen, nQ. rewrite length_app. cbn [length].
  rewrite !repeat_length.
  replace (Z.of_nat (a + S b)) with (Z.of_nat (a + b) + 1)%Z by lia.
  rewrite inject_Z_plus. reflexivity.
Qed.

Lemma outlier_mean : np_mean l == V + (W - V) / (nQ + 1).
Proof.
  pose proof outlier_nQ as H5.
  unfold np_mean. rewrite outlier_length.
  assert (Hs : inject_Z (Zsum l) == nQ * V + W).
  { unfold l, with_outlier. rewrite Zsum_app. cbn [Zsum fold_right].
    fold (Zsum (repeat v b)). rewrite !Zsum_repeat.
    replace (Z.of_nat a * v + (w + Z.of_nat b * v))%Z
      with (Z.of_nat (a + b) * v + w)%Z by lia.
    rewrite inject_Z_plus, inject_Z_mult. reflexivity. }
  rewrite Hs. field. Lqa.lra.
Qed.

Lemma outlier_square_sum :
  Qsum (map (fun x => (inject_Z x - np_mean l) * (inject_Z x - np_mean l))%Q l)
  == nQ * q + nQ * nQ * q.
Proof.
  pose proof outlier_nQ as H5. pose proof outlier_mean as Hm.
  revert Hm. generalize (np_mean l). intros m Hm.
  unfold l, with_outlier. rewrite Qsum_map_app, Qsum_map_cons, !Qsum_map_repeat, Hm.
  fold V W.
  assert (Hab : inject_Z (Z.of_nat a) == nQ - inject_Z (Z.of_nat b)).
  { unfold nQ. rewrite Nat2Z.inj_add, inject_Z_plus. ring. }
  rewrite Hab. unfold q. field. Lqa.lra.
Qed.

Lemma outlier_var : np_var l == nQ * q.
Proof.
  pose proof outlier_nQ as H5.
  unfold np_var. rewrite outlier_square_sum, outlier_length. field. Lqa.lra.
Qed.

Lemma outlier_q_pos : (0 < q)%Q.
Proof.
  pose proof outlier_nQ as H5. unfold q.
  apply Qlt_shift_div_l.
  - apply Qmult_lt_0_compat; Lqa.lra.
  - rewrite Qmult_0_l.
    assert (Hd : ~ W - V == 0).
    { intros E. apply Hvw. apply inject_Z_injective. fold V W. symmetry.
      Lqa.lra. }
    destruct (Qlt_le_dec 0 ((W - V) * (W - V))) as [Hpos | Hle]; [exact Hpos|].
    exfalso. pose proof (Qsquare_nonneg (W - V)) as Hsq.
    assert (E : (W - V) * (W - V) == 0) by Lqa.lra.
    apply Qmult_integral in E. tauto.
Qed.

Lemma outlier_keeps_reading (c : config) :
  DEPTH_OUTLIER_THRESHOLD c == 2 ->
  within_threshold c (np_mean l) (np_var l) v = true.
Proof.
  intros Ht. pose proof outlier_nQ as H5. pose proof outlier_q_pos as Hq.
  unfold within_threshold. rewrite (le_mul_sqrt_two _ _ _ Ht).
  apply Qle_bool_iff. rewrite Qabs_square, outlier_var, outlier_mean. fold V.
  assert (E : (V - (V + (W - V) / (nQ + 1))) * (V - (V + (W - V) / (nQ + 1))) == 1 * q).
  { unfold q. field. Lqa.lra. }
  rewrite E. rewrite Qmult_assoc. apply Qmult_le_compat_r; Lqa.lra.
Qed.

Lemma outlier_drops_outlier (c : config) :
  DEPTH_OUTLIER_THRESHOLD c == 2 ->
  within_threshold c (np_mean l) (np_var l) w = false.
Proof.
  intros Ht. pose proof outlier_nQ as H5. pose proof outlier_q_pos as Hq.
  unfold within_threshold. rewrite (le_mul_sqrt_two _ _ _ Ht).
  destruct (Qle_bool _ _) eqn:E; [|reflexivity]. exfalso.
  apply Qle_bool_iff in E. rewrite Qabs_square, outlier_var, outlier_mean in E. fold W in E.
  assert (E' : (W - (V + (W - V) / (nQ + 1))) * (W - (V + (W - V) / (nQ + 1)))
               == nQ * nQ * q).
  { unfold q. field. Lqa.lra. }
  rewrite E', Qmult_assoc in E.
  apply Qmult_le_r in E; [|exact Hq].
  assert (Hnn : (5 * nQ <= nQ * nQ)%Q) by (apply Qmult_le_compat_r; Lqa.lra).
  Lqa.lra.
Qed.

Lemma outlier_robust_mean (c : config) :
  DEPTH_OUTLIER_THRESHOLD c == 2 ->
  filtered_depth c l = repeat v (a + b) /\ robust_mean c l == V.
Proof.
  intros Ht.
  assert (Hf : filtered_depth c l = repeat v (a + b)).
  { unfold filtered_depth. unfold l at 3.
    apply filter_with_outlier;
      [apply outlier_keeps_reading | apply outlier_drops_outlier]; exact Ht. }
  split; [exact Hf|].
  rewrite robust_mean_of_five.
  - rewrite Hf, repeat_length.
    destruct (0 <? a + b)%nat eqn:E; [|apply Nat.ltb_ge in E; lia].
    apply np_mean_const.
    + destruct (a + b)%nat; [lia | discriminate].
    + apply Forall_forall. intros x Hx. apply repeat_spec in Hx. exact Hx.
  - unfold l, with_outlier. rewrite length_app. cbn [length]. rewrite !repeat_length. lia.
Qed.

End Outlier.

(** With the default threshold of 2.0, when the valid samples of the region
    are five or more equal readings and a single different one, that one is
    discarded and the estimate is exactly the common reading, however far
    off the outlier is. *)
Theorem single_outlier_is_rejected (c : config) (d : depth_array) (b : bbox)
    (v w : Z) (n1 n2 : nat) :
  DEPTH_OUTLIER_THRESHOLD c == 2 ->
  valid_depth (center_region c d b) = with_outlier v w n1 n2 ->
  (5 <= n1 + n2)%nat ->
  v <> w ->
  filtered_depth c (valid_depth (center_region c d b)) = repeat v (n1 + n2) /\
  calculate_depth_robust_center c d b == inject_Z v.
Proof.
  intros Ht Hvalid Hn Hvw.
  rewrite estimate_on_center_region, Hvalid.
  apply outlier_robust_mean; assumption.
Qed.

Lemma single_outlier_is_rejected_witness :
  calculate_depth_robust_center default_config
    [[0; 1500; 1500; 1500; 9000; 1500; 1500; 0]] (0, 0, 8, 1)%Q == inject_Z 1500.
Proof.
  apply (single_outlier_is_rejected default_config
           [[0; 1500; 1500; 1500; 9000; 1500; 1500; 0]] (0, 0, 8, 1)%Q 1500 9000 3 2).
  - reflexivity.
  - reflexivity.
  - simpl. lia.
  - discriminate.
Defined.

(* ================================================================== *)
(** * Further properties of the detection pipeline *)

Lemma process_frame_detected (env : detect_env) (self : ObjectDetectionProcessor)
    (rgb_frame : image) (depth_frame : depth_array) (dets : detections)
    (names : Z -> string) :
  model self = true ->
  de_outcome env = Detected dets names ->
  process_frame env self rgb_frame depth_frame =
  let processing_time := ((de_end_time env - de_start_time env) * 1000)%Q in
  let times := push_processing_time (processing_times self) processing_time in
  ({| model_path := model_path self;
      model := model self;
      frame_count := frame_count self + 1;
      processing_times := times;
      detection_stats :=
        {| objects_detected := Zlen (xyxy dets);
           avg_processing_time := np_mean_Q times;
           model_loaded := model_loaded (detection_stats self);
           last_detection_count := Zlen (xyxy dets) |};
      cfg := cfg self;
      detection_metadata := detection_metadata self |},
   (de_annotated env,
    JObj [ ("frame_number"%string, JInt (frame_count self));
           ("timestamp"%string, JFloat (de_timestamp env));
           ("processing_time_ms"%string, JFloat processing_time);
           ("detections"%string,
              JList (detection_info self depth_frame dets names)) ])).
Proof.
  intros Hm Ho. unfold process_frame. rewrite Hm, Ho. reflexivity.
Qed.

Lemma push_processing_time_length (times : list Q) (t : Q) :
  (length times <= 30)%nat ->
  (length (push_processing_time times t) <= 30)%nat /\
  push_processing_time times t
  = skipn (length (times ++ [t]) - 30) (times ++ [t]).
Proof.
  intros Hlen. unfold push_processing_time.
  assert (Hl : length (times ++ [t]) = S (length times))
    by (rewrite length_app; simpl; lia).
  destruct (30 <? length (times ++ [t]))%nat eqn:E.
  - apply Nat.ltb_lt in E.
    assert (H30 : length times = 30%nat) by lia.
    rewrite Hl, H30. change (31 - 30)%nat with 1%nat.
    split; [|destruct (times ++ [t]); reflexivity].
    destruct (times ++ [t]) as [|x r] eqn:Er; simpl in *; lia.
  - apply Nat.ltb_ge in E.
    replace (length (times ++ [t]) - 30)%nat with 0%nat by lia.
    split; [exact E | reflexivity].
Qed.

Lemma process_frame_times (env : detect_env) (self : ObjectDetectionProcessor)
    (rgb_frame : image) (depth_frame : depth_array) :
  (length (processing_times self) <= 30)%nat ->
  (length (processing_times (fst (process_frame env self rgb_frame depth_frame))) <= 30)%nat.
Proof.
  intros Hlen. unfold process_frame.
  destruct (negb (model self)); [exact Hlen|].
  destruct (de_outcome env); [exact Hlen|].
  apply push_processing_time_length. exact Hlen.
Qed.

(** The rolling window of processing times.  On a processor whose model
    was loaded ([model_loaded] is set only after the tracker and the
    annotators exist, line 100) a processed frame appends the duration it
    reports as [processing_time_ms], and the window never grows beyond the
    30 most recent durations (the oldest is dropped); a frame on which the
    model is missing or the pipeline raises leaves window and statistics
    alone. *)
Theorem processing_window_keeps_last_30 (env : detect_env)
    (self : ObjectDetectionProcessor) (rgb_frame : image) (depth_frame : depth_array) :
  (length (processing_times self) <= 30)%nat ->
  let p := fst (process_frame env self rgb_frame depth_frame) in
  let metadata := snd (snd (process_frame env self rgb_frame depth_frame)) in
  (length (processing_times p) <= 30)%nat /\
  (forall dets names,
     model self = true ->
     model_loaded (detection_stats self) = true ->
     de_outcome env = Detected dets names ->
     exists t : Q,
       jget "processing_time_ms" metadata = Some (JFloat t) /\
       processing_times p
       = skipn (length (processing_times self ++ [t]) - 30) (processing_times self ++ [t]) /\
       last (processing_times p) 0%Q = t) /\
  ((model self = false \/ exists msg, de_outcome env = DetectorRaises msg) ->
   processing_times p = processing_times self /\
   detection_stats p = detection_stats self).
Proof.
  intros Hlen p metadata. split; [apply process_frame_times; exact Hlen|]. split.
  - intros dets names Hm _ Ho. unfold p, metadata.
    rewrite (process_frame_detected env self rgb_frame depth_frame dets names Hm Ho).
    cbn [fst snd processing_times].
    set (t := ((de_end_time env - de_start_time env) * 1000)%Q).
    exists t. split; [reflexivity|].
    destruct (push_processing_time_length (processing_times self) t Hlen) as [_ Hw].
    split; [exact Hw|].
    rewrite Hw.
    assert (Hs : (length (processing_times self ++ [t]) - 30 <= length (processing_times self))%nat)
      by (rewrite length_app; simpl; lia).
    rewrite skipn_app.
    replace (length (processing_times self ++ [t]) - 30 - length (processing_times self))%nat
      with 0%nat by lia.
    cbn [skipn]. apply last_last.
  - intros [Hm | [msg Ho]]; unfold p, process_frame.
    + rewrite Hm. split; reflexivity.
    + destruct (negb (model self)); [split; reflexivity|]. rewrite Ho. split; reflexivity.
Qed.

Lemma processing_window_keeps_last_30_witness :
  Nat.le (length (processing_times
                    (fst (process_frame (detect_with one_detection) loaded_processor
                            [[(10, 20, 30)]] row_depth))))
         30.
Proof.
  apply (processing_window_keeps_last_30 (detect_with one_detection) loaded_processor
           [[(10, 20, 30)]] row_depth).
  simpl. lia.
Defined.

Lemma nth_error_enumerate_from {A} (k : nat) (l : list A) (i : nat) :
  nth_error (enumerate_from k l) i = option_map (fun x => ((k + i)%nat, x)) (nth_error l i).
Proof.
  revert k i. induction l as [|x l IH]; intros k [|i]; cbn; try reflexivity.
  - rewrite Nat.add_0_r. reflexivity.
  - rewrite IH. replace (S k + i)%nat with (k + S i)%nat by lia. reflexivity.
Qed.

Lemma length_enumerate_from {A} (k : nat) (l : list A) :
  length (enumerate_from k l) = length l.
Proof. revert k. induction l as [|x l IH]; intros k; cbn; [reflexivity | now rewrite IH]. Qed.

(** On a processor whose model was loaded (so that the tracker exists), a
    processed frame reports one detection per bounding box, in the order of
    the boxes; the class ids, tracker ids and confidences of an
    [sv.Detections] are arrays as long as the list of boxes, and the i-th
    detection carries the i-th tracker id, class id, class name and
    confidence and its own box as four floats.  The frame counter advances
    by one and both object counts are the number of boxes. *)
Theorem detections_follow_boxes (env : detect_env) (self : ObjectDetectionProcessor)
    (rgb_frame : image) (depth_frame : depth_array) (dets : detections)
    (names : Z -> string) :
  model self = true ->
  model_loaded (detection_stats self) = true ->
  de_outcome env = Detected dets names ->
  length (class_id dets) = length (xyxy dets) ->
  length (tracker_id dets) = length (xyxy dets) ->
  length (confidence dets) = length (xyxy dets) ->
  let '(p, (frame, metadata)) := process_frame env self rgb_frame depth_frame in
  frame = de_annotated env /\
  frame_count p = frame_count self + 1 /\
  objects_detected (detection_stats p) = Zlen (xyxy dets) /\
  last_detection_count (detection_stats p) = Zlen (xyxy dets) /\
  exists info : list json,
    jget "detections" metadata = Some (JList info) /\
    length info = length (xyxy dets) /\
    forall (i : nat) (b0 b1 b2 b3 : Q),
      nth_error (xyxy dets) i = Some (b0, b1, b2, b3) ->
      exists (record : json) (tid cid : Z) (conf : Q),
        nth_error info i = Some record /\
        nth_error (tracker_id dets) i = Some tid /\
        nth_error (class_id dets) i = Some cid /\
        nth_error (confidence dets) i = Some conf /\
        jget "tracker_id" record = Some (JInt tid) /\
        jget "class_id" record = Some (JInt cid) /\
        jget "class_name" record = Some (JStr (names cid)) /\
        jget "confidence" record = Some (JFloat conf) /\
        jget "bbox" record = Some (JList [JFloat b0; JFloat b1; JFloat b2; JFloat b3]).
Proof.
  intros Hm _ Ho Hcid Htid Hconf.
  rewrite (process_frame_detected env self rgb_frame depth_frame dets names Hm Ho).
  cbv zeta. repeat (split; [reflexivity|]).
  exists (detection_info self depth_frame dets names).
  split; [reflexivity|]. split.
  - unfold detection_info. rewrite length_map, length_enumerate_from. reflexivity.
  - intros i b0 b1 b2 b3 Hb.
    assert (Hi : (i < length (xyxy dets))%nat)
      by (apply nth_error_Some; rewrite Hb; discriminate).
    destruct (nth_error (tracker_id dets) i) as [tid|] eqn:Et;
      [|apply nth_error_None in Et; lia].
    destruct (nth_error (class_id dets) i) as [cid|] eqn:Ec;
      [|apply nth_error_None in Ec; lia].
    destruct (nth_error (confidence dets) i) as [conf|] eqn:Ef;
      [|apply nth_error_None in Ef; lia].
    exists (detection_record self depth_frame dets names i (b0, b1, b2, b3)), tid, cid, conf.
    split.
    + unfold detection_info. rewrite nth_error_map, nth_error_enumerate_from, Hb.
      reflexivity.
    + unfold detection_record. rewrite Et, Ec, Ef. repeat split.
Qed.

Lemma detections_follow_boxes_witness :
  frame_count (fst (process_frame (detect_with one_detection) loaded_processor
                      [[(10, 20, 30)]] row_depth)) = 1.
Proof.
  pose proof (detections_follow_boxes (detect_with one_detection) loaded_processor
                [[(10, 20, 30)]] row_depth _ _ eq_refl eq_refl eq_refl
                eq_refl eq_refl eq_refl) as H.
  destruct (process_frame _ _ _ _) as [p [frame metadata]].
  destruct H as (_ & H & _). exact H.
Defined.

Lemma estimate_zero_or_positive (c : config) (d : depth_array) (b : bbox) :
  calculate_depth_robust_center c d b = 0%Q \/
  (1 <= calculate_depth_robust_center c d b /\
   calculate_depth_robust_center c d b <= 9999)%Q.
Proof.
  rewrite estimate_on_center_region.
  apply robust_mean_range. apply valid_depth_range.
Qed.

(** In every serialised detection [depth_m] is [depth_mm] in metres:
    both are 0 when there is no reliable depth, and otherwise [depth_mm]
    lies in [1, 9999] and [depth_m] is a thousandth of it, hence below
    10 m.  Neither is ever negative. *)
Theorem depth_fields_agree (self : ObjectDetectionProcessor) (depth_frame : depth_array)
    (dets : detections) (names : Z -> string) (record : json) :
  In record (detection_info self depth_frame dets names) ->
  exists mm m : Q,
    jget "depth_mm" record = Some (JFloat mm) /\
    jget "depth_m" record = Some (JFloat m) /\
    ((mm = 0%Q /\ m = 0%Q) \/
     (1 <= mm /\ mm <= 9999 /\ m = mm / 1000 /\ 0 < m /\ m < 10)%Q).
Proof.
  intros Hin. unfold detection_info in Hin.
  apply in_map_iff in Hin. destruct Hin as [[i [[[b0 b1] b2] b3]] [<- _]].
  cbn [fst snd]. unfold detection_record.
  set (avg := calculate_depth_robust_center (cfg self) depth_frame (b0, b1, b2, b3)).
  exists avg. eexists. split; [reflexivity|]. split; [reflexivity|].
  destruct (estimate_zero_or_positive (cfg self) depth_frame (b0, b1, b2, b3))
    as [H0 | [Hlo Hhi]]; fold avg in H0 || fold avg in Hlo, Hhi.
  - left. rewrite H0. split; reflexivity.
  - right. destruct (Qlt_le_dec 0 avg) as [Hpos | Hneg]; [|Lqa.lra].
    split; [exact Hlo|]. split; [exact Hhi|]. split; [reflexivity|].
    split.
    + apply Qlt_shift_div_l; Lqa.lra.
    + apply Qlt_shift_div_r; Lqa.lra.
Qed.

Lemma depth_fields_agree_witness :
  exists mm m : Q,
    jget "depth_mm" (detection_record loaded_processor row_depth
                       {| xyxy := [(0, 0, 7, 1)%Q]; class_id := [2]; tracker_id := [7];
                          confidence := [0.9%Q] |}
                       (fun _ => "object"%string) 0 (0, 0, 7, 1)%Q)
    = Some (JFloat mm) /\
    jget "depth_m" (detection_record loaded_processor row_depth
                      {| xyxy := [(0, 0, 7, 1)%Q]; class_id := [2]; tracker_id := [7];
                         confidence := [0.9%Q] |}
                      (fun _ => "object"%string) 0 (0, 0, 7, 1)%Q)
    = Some (JFloat m) /\
    ((mm = 0%Q /\ m = 0%Q) \/
     (1 <= mm /\ mm <= 9999 /\ m = mm / 1000 /\ 0 < m /\ m < 10)%Q).
Proof.
  apply (depth_fields_agree loaded_processor row_depth
           {| xyxy := [(0, 0, 7, 1)%Q]; class_id := [2]; tracker_id := [7];
              confidence := [0.9%Q] |}
           (fun _ => "object"%string)).
  left. reflexivity.
Defined.

(* ================================================================== *)
(** * The controller as a whole: what every reachable state satisfies *)

Lemma process_frame_keeps_flags (env : detect_env) (self : ObjectDetectionProcessor)
    (rgb_frame : image) (depth_frame : depth_array) :
  let p := fst (process_frame env self rgb_frame depth_frame) in
  model p = model self /\
  model_loaded (detection_stats p) = model_loaded (detection_stats self).
Proof.
  unfold process_frame.
  destruct (negb (model self)); [split; reflexivity|].
  destruct (de_outcome env); split; reflexivity.
Qed.

Lemma detect_step_keeps (e : frame_env) (s : CameraController)
    (color : image) (depth : depth_array) :
  let s1 := fst (fst (detect_step e s color depth)) in
  rgb_writer s1 = rgb_writer s /\
  depth_writer s1 = depth_writer s /\
  model (detection_processor s1) = model (detection_processor s) /\
  model_loaded (detection_stats (detection_processor s1))
  = model_loaded (detection_stats (detection_processor s)) /\
  ((length (processing_times (detection_processor s)) <= 30)%nat ->
   (length (processing_times (detection_processor s1)) <= 30)%nat).
Proof.
  unfold detect_step.
  destruct (detection_enabled s); [|cbn; tauto].
  destruct (fe_cvt_raises e); [cbn; tauto|].
  pose proof (process_frame_keeps_flags (fe_detect e) (detection_processor s)
                (cvtColor_swap color) depth) as [Hm Hl].
  pose proof (process_frame_times (fe_detect e) (detection_processor s)
                (cvtColor_swap color) depth) as Ht.
  destruct (process_frame _ _ _ _) as [p [a m]]. cbn in *. tauto.
Qed.

Lemma record_frame_writers (w : write_outcome) (f g : image) (s : CameraController) :
  (rgb_writer (_record_frame w f g s) = None <-> rgb_writer s = None) /\
  (depth_writer (_record_frame w f g s) = None <-> depth_writer s = None).
Proof.
  unfold _record_frame.
  destruct (rgb_writer s) eqn:Er, (depth_writer s) eqn:Ed, w; cbn;
    rewrite ?Er, ?Ed; split; split; intros H; congruence.
Qed.

Lemma record_step_keeps (e : frame_env) (s : CameraController)
    (color cmap ann : image) (m : option json) :
  let s1 := record_step e s color cmap ann m in
  (rgb_writer s1 = None <-> rgb_writer s = None) /\
  (depth_writer s1 = None <-> depth_writer s = None) /\
  model (detection_processor s1) = model (detection_processor s) /\
  model_loaded (detection_stats (detection_processor s1))
  = model_loaded (detection_stats (detection_processor s)) /\
  processing_times (detection_processor s1) = processing_times (detection_processor s).
Proof.
  unfold record_step.
  destruct (recording s); [|cbn; tauto].
  pose proof (record_frame_writers (fe_write e)
                (if detection_enabled s then ann else color) cmap s) as [Hr Hd].
  pose proof (record_frame_processor (fe_write e)
                (if detection_enabled s then ann else color) cmap s) as Hp.
  destruct (detection_enabled _ && py_truthy m).
  - destruct m as [m|]; cbn; rewrite ?Hp; tauto.
  - rewrite Hp. tauto.
Qed.

Lemma push_keeps_capacity {A} (q : Queue.t A) (x : A) :
  Queue.maxsize q = 5 ->
  (length (Queue.items q) <= 5)%nat ->
  Queue.maxsize (push q x) = 5 /\ (length (Queue.items (push q x)) <= 5)%nat.
Proof.
  intros Hm Hl. destruct (Queue.full q) eqn:Hf.
  - rewrite (push_full q x Hf). split; assumption.
  - rewrite (push_not_full q x Hf). cbn. split; [exact Hm|].
    unfold Queue.full, Queue.qsize, Zlen in Hf. rewrite Hm in Hf. cbn in Hf.
    apply Z.leb_gt in Hf. rewrite length_app. cbn. lia.
Qed.

Lemma state_ok_iteration (e : frame_env) (s : CameraController) :
  state_ok s -> state_ok (fst (stream_iteration e s)).
Proof.
  intros (Hq1 & Hq2 & Ht & Hml & Hde & Hrec).
  pose proof (same_control_iteration e s) as (_ & _ & _ & _ & Hr' & Hd' & _ & Ho').
  unfold stream_iteration in *.
  destruct (fe_acquire e) as [| msg | [color|] [depth|]];
    try (unfold state_ok; tauto).
  pose proof (detect_step_keeps e s color depth) as (D1 & D2 & D3 & D4 & D5).
  pose proof (detect_step_queue e s color depth) as Dq.
  destruct (detect_step e s color depth) as [[s1 ann] m]. cbn [fst] in *.
  match goal with
  | |- state_ok (record_step ?e0 ?s2 ?c0 ?cm ?an ?md) =>
      pose proof (record_step_keeps e0 s2 c0 cm an md) as (R1 & R2 & R3 & R4 & R5);
      pose proof (record_step_queue e0 s2 c0 cm an md) as Rq;
      set (s3 := record_step e0 s2 c0 cm an md) in *
  end.
  cbn [rgb_writer depth_writer detection_processor frame_queue set_frame_queue] in *.
  destruct (push_keeps_capacity (frame_queue s1)
              {| fd_rgb := color; fd_depth := depth;
                 fd_depth_colorized := fe_depth_colormap e;
                 fd_annotated := ann; fd_detection_metadata := m;
                 fd_timestamp := fe_timestamp e |}) as [P1 P2];
    [congruence | rewrite Dq; exact Hq2 |].
  unfold state_ok. rewrite Rq, R3, R4, R5, D3, D4, Hr', Hd', Ho'.
  split; [exact P1|]. split; [exact P2|]. split; [auto|]. split; [exact Hml|].
  split; [exact Hde|].
  intros Hr. destruct (Hrec Hr) as (W1 & W2 & W3).
  split; [|split; [|exact W3]].
  - intros E. apply R1 in E. rewrite D1 in E. contradiction.
  - intros E. apply R2 in E. rewrite D2 in E. contradiction.
Qed.

Lemma state_ok_stop_recording (fs_ok : bool) (s : CameraController) :
  state_ok s -> state_ok (snd (stop_recording fs_ok s)).
Proof.
  intros H. unfold stop_recording.
  destruct (recording s) eqn:Hr; [|exact H].
  destruct H as (Hq1 & Hq2 & Ht & Hml & Hde & Hrec).
  unfold state_ok. cbn. repeat (split; [assumption|]). discriminate.
Qed.

Lemma state_ok_set_is_streaming (b : bool) (s : CameraController) :
  state_ok s -> state_ok (set_is_streaming b s).
Proof. intros H. exact H. Qed.

Lemma state_ok_set_pipeline (b : bool) (s : CameraController) :
  state_ok s -> state_ok (set_pipeline b s).
Proof. intros H. exact H. Qed.

Lemma state_ok_command (c : command) (s : CameraController) :
  state_ok s -> state_ok (run_command c s).
Proof.
  intros H. destruct c as [| | b | env path | fs_ok]; cbn [run_command].
  - exact H.
  - unfold get_latest_frames, Queue.get_nowait.
    destruct (Queue.items (frame_queue s)) as [|x rest] eqn:E; [exact H|].
    destruct H as (Hq1 & Hq2 & Hrest). rewrite E in Hq2.
    unfold state_ok. cbn. split; [exact Hq1|]. split; [cbn in Hq2; lia | exact Hrest].
  - destruct H as (Hq1 & Hq2 & Ht & Hml & Hde & Hrec).
    unfold state_ok, enable_detection. cbn.
    repeat (split; [assumption|]). split; [|exact Hrec].
    intros Hb. apply andb_true_iff in Hb. tauto.
  - unfold start_recording. destruct (recording s) eqn:Hr; [exact H|].
    destruct H as (Hq1 & Hq2 & Ht & Hml & Hde & Hrec).
    destruct (se_outcome env); cbn [snd].
    + unfold state_ok. cbn.
      destruct (detection_enabled s); cbn; repeat (split; try assumption); discriminate.
    + unfold state_ok. tauto.
    + unfold state_ok. cbn. rewrite Hr.
      repeat (split; [assumption|]). discriminate.
  - apply state_ok_stop_recording. exact H.
Qed.

Lemma state_ok_load_model (o : load_outcome) (path : string) (s : CameraController) :
  state_ok s -> state_ok (snd (setup_object_detection o path s)).
Proof.
  intros (Hq1 & Hq2 & Ht & Hml & Hde & Hrec).
  unfold setup_object_detection, load_model.
  destruct o; destruct (str_truthy (Some path));
    unfold state_ok; cbn; repeat (split; try assumption); auto.
Qed.

(** Every method of the controller and every pass of the worker keeps
    [state_ok]. *)
Lemma state_ok_op (o : op) (s : CameraController) :
  state_ok s -> state_ok (run_op o s).
Proof.
  intros H. destruct o; cbn [run_op].
  - apply state_ok_command. exact H.
  - unfold start_streaming. destruct (is_streaming s || negb (pipeline s)); exact H.
  - unfold stop_streaming. apply state_ok_stop_recording. exact H.
  - unfold connect, disconnect, stop_streaming. destruct o; [exact H|].
    pose proof (state_ok_stop_recording fs_ok (set_is_streaming false s) H) as H'.
    destruct (stop_recording fs_ok (set_is_streaming false s)) as [out s1]. exact H'.
  - unfold disconnect, stop_streaming.
    pose proof (state_ok_stop_recording fs_ok (set_is_streaming false s) H) as H'.
    destruct (stop_recording fs_ok (set_is_streaming false s)) as [out s1]. exact H'.
  - apply state_ok_load_model. exact H.
  - destruct (is_streaming s && pipeline s); [apply state_ok_iteration|]; exact H.
Qed.

Lemma state_ok_new : state_ok new_controller.
Proof.
  unfold state_ok. cbn. repeat split; try lia; discriminate.
Qed.

Lemma state_ok_reachable (ops : list op) : state_ok (run_ops ops new_controller).
Proof.
  unfold run_ops. generalize state_ok_new. generalize new_controller.
  induction ops as [|o ops IH]; intros s Hs; [exact Hs|].
  cbn [fold_left]. apply IH. apply state_ok_op. exact Hs.
Qed.

(** In every state reachable from [__init__] through any interleaving of
    method calls and worker passes, the frame queue has capacity 5 and holds
    at most 5 bundles. *)
Theorem frame_queue_never_exceeds_capacity (ops : list op) :
  let q := frame_queue (run_ops ops new_controller) in
  Queue.maxsize q = 5 /\ 0 <= Queue.qsize q <= Queue.maxsize q.
Proof.
  destruct (state_ok_reachable ops) as (Hm & Hl & _).
  cbv zeta. rewrite Hm. split; [reflexivity|]. unfold Queue.qsize, Zlen. lia.
Qed.

(** Detection can only be switched on over a loaded model: in every
    reachable state with [detection_enabled] set, the model is loaded, so
    [is_detection_enabled] agrees with the flag and no pass of the worker
    ever gets the "Model not loaded" error from [process_frame]; and
    [enable_detection] leaves detection off as long as no model was loaded. *)
Theorem detection_enabled_only_with_model (ops : list op) (b : bool)
    (env : detect_env) (rgb_frame : image) (depth_frame : depth_array) :
  let s := run_ops ops new_controller in
  (detection_enabled s = true ->
   model_loaded (detection_stats (detection_processor s)) = true /\
   model (detection_processor s) = true /\
   is_detection_enabled s = true /\
   jget "error" (snd (snd (process_frame env (detection_processor s) rgb_frame depth_frame)))
   <> Some (JStr "Model not loaded")) /\
  (model_loaded (detection_stats (detection_processor s)) = false ->
   detection_enabled (enable_detection b s) = false).
Proof.
  intros s. destruct (state_ok_reachable ops) as (_ & _ & _ & Hml & Hde & _).
  fold s in Hml, Hde. split.
  - intros Hd. pose proof (Hde Hd) as Hl. pose proof (Hml Hl) as Hm.
    split; [exact Hl|]. split; [exact Hm|]. split.
    + unfold is_detection_enabled. rewrite Hd, Hl. reflexivity.
    + unfold process_frame. rewrite Hm. cbn [negb].
      destruct (de_outcome env); cbn; discriminate.
  - intros Hl. unfold enable_detection. cbn. rewrite Hl. apply andb_false_r.
Qed.

(** In every reachable state with a recording active both video sinks are
    open and the output prefix is set, so stopping the recording releases
    exactly those two sinks, primary first. *)
Theorem while_recording_both_sinks_open (ops : list op) (fs_ok : bool) :
  let s := run_ops ops new_controller in
  recording s = true ->
  exists (rw dw : VideoWriter) (path : string),
    rgb_writer s = Some rw /\
    depth_writer s = Some dw /\
    recording_output_path s = Some path /\
    released (fst (stop_recording fs_ok s)) = [rw; dw].
Proof.
  intros s Hr. destruct (state_ok_reachable ops) as (_ & _ & _ & _ & _ & Hrec).
  fold s in Hrec. destruct (Hrec Hr) as (H1 & H2 & H3).
  destruct (rgb_writer s) as [rw|] eqn:E1; [|congruence].
  destruct (depth_writer s) as [dw|] eqn:E2; [|congruence].
  destruct (recording_output_path s) as [path|] eqn:E3; [|congruence].
  exists rw, dw, path. repeat (split; [reflexivity|]).
  unfold stop_recording. rewrite Hr, E1, E2. reflexivity.
Qed.

Lemma while_recording_both_sinks_open_witness :
  exists (rw dw : VideoWriter) (path : string),
    rgb_writer (run_ops [OpCommand (CmdStartRecording start_ok "out/rec")] new_controller)
    = Some rw /\
    depth_writer (run_ops [OpCommand (CmdStartRecording start_ok "out/rec")] new_controller)
    = Some dw /\
    recording_output_path
      (run_ops [OpCommand (CmdStartRecording start_ok "out/rec")] new_controller)
    = Some path /\
    released (fst (stop_recording true
                     (run_ops [OpCommand (CmdStartRecording start_ok "out/rec")]
                        new_controller)))
    = [rw; dw].
Proof.
  apply (while_recording_both_sinks_open
           [OpCommand (CmdStartRecording start_ok "out/rec")] true).
  reflexivity.
Defined.

(* ------------------------------------------------------------------ *)
(** ** Reading the frame queue *)

Lemma poll_empty (k : nat) (s : CameraController) :
  Queue.items (frame_queue s) = [] ->
  poll k s = (repeat None k, s).
Proof.
  intros He. induction k as [|k IH]; [reflexivity|].
  cbn [poll]. unfold get_latest_frames, Queue.get_nowait. rewrite He, IH. reflexivity.
Qed.

Lemma poll_items (xs : list FrameData) (k : nat) (s : CameraController) :
  Queue.items (frame_queue s) = xs ->
  fst (poll (length xs + k) s) = map Some xs ++ repeat None k /\
  Queue.items (frame_queue (snd (poll (length xs + k) s))) = [].
Proof.
  revert s. induction xs as [|x xs IH]; intros s He.
  - cbn [length Nat.add map app]. rewrite (poll_empty k s He). split; [reflexivity | exact He].
  - cbn [length Nat.add poll]. unfold get_latest_frames, Queue.get_nowait. rewrite He.
    destruct (IH (set_frame_queue (Queue.mk (Queue.maxsize (frame_queue s)) xs) s) eq_refl)
      as [H1 H2].
    destruct (poll (length xs + k) _) as [rs s2]. cbn [fst snd] in *.
    split; [rewrite H1; reflexivity | exact H2].
Qed.

(** [get_latest_frames] hands the queued bundles out oldest first and then
    returns [None] without blocking; in particular, reading after a run of
    pushes onto the empty bus returns the bundles that were admitted (the
    first 5) in push order and leaves the bus empty. *)
Theorem bundles_are_read_oldest_first (s : CameraController) (xs : list FrameData)
    (k : nat) :
  let queued := Queue.items (frame_queue s) in
  let s1 := set_frame_queue (fold_left push xs (frame_queue new_controller)) s in
  fst (poll (length queued + k) s) = map Some queued ++ repeat None k /\
  Queue.items (frame_queue (snd (poll (length queued + k) s))) = [] /\
  fst (poll (length (firstn 5 xs) + k) s1) = map Some (firstn 5 xs) ++ repeat None k.
Proof.
  intros queued s1.
  destruct (poll_items queued k s eq_refl) as [H1 H2].
  split; [exact H1|]. split; [exact H2|].
  apply poll_items. unfold s1. cbn [frame_queue set_frame_queue].
  apply (pushes_keep_first 4 xs (frame_queue new_controller)).
  - reflexivity.
  - simpl. lia.
Qed.

Lemma detection_enabled_only_with_model_witness :
  is_detection_enabled
    (run_ops [OpSetupDetection (LoadOk "best.pt") "models/best.pt";
              OpCommand (CmdEnableDetection true)] new_controller) = true.
Proof.
  apply (detection_enabled_only_with_model
           [OpSetupDetection (LoadOk "best.pt") "models/best.pt";
            OpCommand (CmdEnableDetection true)] true
           (detect_with one_detection) [] []).
  reflexivity.
Defined.

(* ================================================================== *)
(** * Connecting, streaming and disconnecting *)

(** [start_streaming] succeeds exactly on a connected controller that is
    not streaming, and then only sets [is_streaming]; otherwise it reports
    failure and changes nothing.  A second call right after the first
    always fails and changes nothing: at most one worker is started. *)
Theorem start_streaming_at_most_once (s : CameraController) :
  let '(started, s1) := start_streaming s in
  (started = true <-> is_streaming s = false /\ pipeline s = true) /\
  (started = false -> s1 = s) /\
  (started = true -> s1 = set_is_streaming true s) /\
  start_streaming s1 = (false, s1).
Proof.
  unfold start_streaming.
  destruct (is_streaming s) eqn:Hs, (pipeline s) eqn:Hp; cbn; rewrite ?Hs, ?Hp; cbn;
    repeat split; intros; try reflexivity; try discriminate; try tauto;
    match goal with
    | H : _ /\ _ |- _ => destruct H; discriminate
    end.
Qed.

(** [stop_streaming] always leaves the controller neither streaming nor
    recording, whatever the file system does; the worker then leaves its
    loop at its next test without touching the state, and a second
    [stop_streaming] has nothing left to do. *)
Theorem stop_streaming_stops_everything (fs_ok fs_ok' : bool) (s : CameraController)
    (e : frame_env) (rest : list event) :
  let '(out, s1) := stop_streaming fs_ok s in
  is_streaming s1 = false /\
  recording s1 = false /\
  pipeline s1 = pipeline s /\
  detection_processor s1 = detection_processor s /\
  (recording s = true ->
   rgb_writer s1 = None /\ depth_writer s1 = None /\
   released out = opt_list (rgb_writer s) ++ opt_list (depth_writer s)) /\
  (recording s = false -> released out = [] /\ sidecar out = None) /\
  _stream_worker (Frame e :: rest) s1 = (s1, Exited) /\
  stop_streaming fs_ok' s1 = ({| released := []; sidecar := None |}, s1).
Proof.
  unfold stop_streaming, stop_recording. cbn [recording set_is_streaming].
  destruct (recording s) eqn:Hr; cbn [negb].
  - cbn. repeat split; discriminate.
  - cbn. rewrite Hr. cbn. repeat split; discriminate.
Qed.

(** [disconnect] always ends with the controller not connected, not
    streaming and not recording (an error while stopping the pipeline is
    swallowed); afterwards [start_streaming] fails, the worker does not run,
    and a second [disconnect] changes nothing. *)
Theorem disconnect_releases_everything (fs_ok fs_ok' : bool) (s : CameraController)
    (e : frame_env) (rest : list event) :
  let '(out, s1) := disconnect fs_ok s in
  is_connected s1 = false /\
  is_streaming s1 = false /\
  recording s1 = false /\
  (recording s = true ->
   released out = opt_list (rgb_writer s) ++ opt_list (depth_writer s)) /\
  start_streaming s1 = (false, s1) /\
  _stream_worker (Frame e :: rest) s1 = (s1, Exited) /\
  disconnect fs_ok' s1 = ({| released := []; sidecar := None |}, s1).
Proof.
  unfold disconnect, stop_streaming, stop_recording. cbn [recording set_is_streaming].
  destruct (recording s) eqn:Hr; cbn [negb].
  - cbn. repeat split.
  - cbn. rewrite Hr. cbn. repeat split. discriminate.
Qed.

(** A failing [connect] rolls back through [disconnect]: it reports
    failure and leaves the controller not connected, not streaming and not
    recording, closing the sinks of a recording that was active; a
    successful [connect] only sets the pipeline. *)
Theorem connect_failure_rolls_back (fs_ok : bool) (s : CameraController) :
  (let '(ok, out, s1) := connect ConnectRaises fs_ok s in
   ok = false /\
   is_connected s1 = false /\
   is_streaming s1 = false /\
   recording s1 = false /\
   (recording s = true ->
    released out = opt_list (rgb_writer s) ++ opt_list (depth_writer s)) /\
   (recording s = false -> released out = [] /\ sidecar out = None)) /\
  connect ConnectOk fs_ok s
  = (true, {| released := []; sidecar := None |}, set_pipeline true s).
Proof.
  split; [|reflexivity].
  unfold connect, disconnect, stop_streaming, stop_recording.
  cbn [recording set_is_streaming].
  destruct (recording s) eqn:Hr; cbn [negb]; cbn;
    repeat split; intros; try reflexivity; try assumption; discriminate.
Qed.

(* ================================================================== *)
(** * Further properties of the recorder *)

Lemma record_step_writers (e : frame_env) (s : CameraController)
    (color cmap ann : image) (m : option json) (rw dw : VideoWriter) :
  recording s = true ->
  rgb_writer s = Some rw ->
  depth_writer s = Some dw ->
  rgb_writer (record_step e s color cmap ann m)
  = Some (if rgb_written e
          then vw_write rw (if detection_enabled s then ann else color) else rw) /\
  depth_writer (record_step e s color cmap ann m)
  = Some (if depth_written e then vw_write dw cmap else dw).
Proof.
  intros Hr Hrw Hdw. unfold record_step. rewrite Hr.
  assert (Hw : rgb_writer (_record_frame (fe_write e)
                 (if detection_enabled s then ann else color) cmap s)
               = Some (if rgb_written e
                       then vw_write rw (if detection_enabled s then ann else color)
                       else rw) /\
               depth_writer (_record_frame (fe_write e)
                 (if detection_enabled s then ann else color) cmap s)
               = Some (if depth_written e then vw_write dw cmap else dw)).
  { unfold _record_frame, rgb_written, depth_written. rewrite Hrw, Hdw.
    destruct (fe_write e); cbn; rewrite ?Hrw, ?Hdw; split; reflexivity. }
  destruct (detection_enabled _ && py_truthy m); [|exact Hw].
  destruct m as [m|]; [|exact Hw]. exact Hw.
Qed.

Lemma detect_step_disabled (e : frame_env) (s : CameraController)
    (color : image) (depth : depth_array) :
  detection_enabled s = false ->
  detect_step e s color depth = (s, color, None).
Proof. intros Hd. unfold detect_step. rewrite Hd. reflexivity. Qed.

Lemma record_step_disabled (e : frame_env) (s : CameraController)
    (color cmap ann : image) (m : option json) :
  detection_enabled s = false ->
  detection_processor (record_step e s color cmap ann m) = detection_processor s.
Proof.
  intros Hd. unfold record_step. destruct (recording s); [|reflexivity].
  pose proof (same_control_record_frame (fe_write e)
                (if detection_enabled s then ann else color) cmap s)
    as (_ & _ & _ & _ & _ & He & _).
  rewrite He, Hd. apply record_frame_processor.
Qed.

(** What a feeding pass does to the sinks of an active recording. *)
Lemma feeding_pass (e : frame_env) (s : CameraController) (rw dw : VideoWriter) :
  feeds e = true ->
  recording s = true ->
  rgb_writer s = Some rw ->
  depth_writer s = Some dw ->
  snd (stream_iteration e s) = Looping /\
  exists frame : image,
    rgb_writer (fst (stream_iteration e s))
    = Some (if rgb_written e then vw_write rw frame else rw) /\
    depth_writer (fst (stream_iteration e s))
    = Some (if depth_written e then vw_write dw (fe_depth_colormap e) else dw) /\
    (detection_enabled s = false ->
     frame = pass_color e /\
     detection_processor (fst (stream_iteration e s)) = detection_processor s).
Proof.
  intros Hf Hr Hrw Hdw.
  pose proof (iteration_status e s) as Hst.
  unfold feeds in Hf. unfold breaks_loop in Hst. unfold pass_color.
  unfold stream_iteration in *.
  destruct (fe_acquire e) as [| msg | [color|] [depth|]]; try discriminate.
  apply andb_true_iff in Hf. destruct Hf as [H1 H2].
  apply negb_true_iff in H1, H2. rewrite H1, H2, !andb_false_r in Hst. cbn [orb] in Hst.
  split; [exact Hst|]. clear Hst.
  destruct (detection_enabled s) eqn:Hd.
  - pose proof (detect_step_keeps e s color depth) as (D1 & D2 & _).
    pose proof (same_control_detect_step e s color depth) as (_ & _ & _ & _ & Dr & Dd & _).
    destruct (detect_step e s color depth) as [[s1 ann] m]. cbn [fst] in *.
    exists ann.
    match goal with
    | |- context [record_step ?e0 ?s2 ?c0 ?cm ?an ?md] =>
        destruct (record_step_writers e0 s2 c0 cm an md rw dw) as [W1 W2];
          [cbn; congruence | cbn; congruence | cbn; congruence |]
    end.
    cbn [detection_enabled set_frame_queue] in W1. rewrite Dd, Hd in W1.
    split; [exact W1|]. split; [exact W2|]. discriminate.
  - rewrite (detect_step_disabled e s color depth Hd).
    exists color.
    match goal with
    | |- context [record_step ?e0 ?s2 ?c0 ?cm ?an ?md] =>
        destruct (record_step_writers e0 s2 c0 cm an md rw dw) as [W1 W2];
          [exact Hr | exact Hrw | exact Hdw |]
    end.
    cbn [detection_enabled set_frame_queue] in W1. rewrite Hd in W1.
    split; [exact W1|]. split; [exact W2|]. intros _. split; [reflexivity|].
    cbn [fst]. rewrite record_step_disabled; [reflexivity | exact Hd].
Qed.

(** The sinks of a recording over a run of feeding passes. *)
Lemma session_sinks (es : list frame_env) (s : CameraController) (rw dw : VideoWriter) :
  is_streaming s = true ->
  pipeline s = true ->
  recording s = true ->
  rgb_writer s = Some rw ->
  depth_writer s = Some dw ->
  forallb feeds es = true ->
  let s' := fst (_stream_worker (map Frame es) s) in
  exists frames : list image,
    length frames = length (filter rgb_written es) /\
    rgb_writer s' = Some {| vw_path := vw_path rw; vw_frames := vw_frames rw ++ frames |} /\
    depth_writer s'
    = Some {| vw_path := vw_path dw;
              vw_frames := vw_frames dw
                           ++ map fe_depth_colormap (filter depth_written es) |} /\
    recording s' = true /\
    detection_enabled s' = detection_enabled s /\
    recording_output_path s' = recording_output_path s /\
    (detection_enabled s = false ->
     frames = map pass_color (filter rgb_written es) /\
     detection_processor s' = detection_processor s).
Proof.
  revert s rw dw. induction es as [|e es IH]; intros s rw dw Hs Hp Hr Hrw Hdw Hf.
  - exists []. cbn. rewrite !app_nil_r. destruct rw, dw. cbn. tauto.
  - cbn [forallb] in Hf. apply andb_true_iff in Hf. destruct Hf as [He Hf].
    cbn [map _stream_worker]. rewrite Hs, Hp. cbn [andb].
    destruct (feeding_pass e s rw dw He Hr Hrw Hdw) as (Hst & frame & W1 & W2 & Wd).
    pose proof (same_control_iteration e s) as (Hp' & Hs' & _ & _ & Hr' & Hd' & _ & Ho').
    destruct (stream_iteration e s) as [s1 st]. cbn [fst snd] in *. subst st.
    destruct (IH s1 _ _ ltac:(congruence) ltac:(congruence) ltac:(congruence) W1 W2 Hf)
      as (frames & L & R1 & R2 & R3 & R4 & R5 & R6).
    exists ((if rgb_written e then [frame] else []) ++ frames).
    cbn [filter].
    destruct (rgb_written e) eqn:Erw, (depth_written e) eqn:Edw;
      cbn [vw_write vw_path vw_frames app map length] in *;
      rewrite <- ?app_assoc in *; cbn [app] in *;
      (split; [congruence|]); (split; [exact R1|]); (split; [exact R2|]);
      (split; [exact R3|]); (split; [congruence|]); (split; [congruence|]);
      intros Hd; destruct (Wd Hd) as [Wf Wp];
      destruct (R6 ltac:(congruence)) as [R6a R6b];
      split; congruence.
Qed.

Lemma start_recording_success (env : start_env) (path : string) (s s1 : CameraController) :
  start_recording env path s = (true, s1) ->
  recording s = false /\
  recording s1 = true /\
  rgb_writer s1
  = Some {| vw_path := String.append path
                         (if detection_enabled s then "_detection.avi" else "_rgb.avi");
            vw_frames := [] |} /\
  depth_writer s1 = Some {| vw_path := String.append path "_depth.avi"; vw_frames := [] |} /\
  is_streaming s1 = is_streaming s /\
  pipeline s1 = pipeline s /\
  detection_enabled s1 = detection_enabled s /\
  recording_output_path s1 = Some path /\
  record_start_time s1 = Some (se_time env) /\
  detection_processor s1
  = (if detection_enabled s then clear_metadata (detection_processor s)
     else detection_processor s).
Proof.
  intros H. unfold start_recording in H.
  destruct (recording s) eqn:Hr; [discriminate|].
  destruct (se_outcome env); try discriminate.
  inversion H; subst. cbn. repeat split.
Qed.

Lemma filter_written_le (es : list frame_env) :
  (length (filter depth_written es) <= length (filter rgb_written es))%nat.
Proof.
  induction es as [|e es IH]; [reflexivity|]. cbn [filter].
  unfold depth_written at 1, rgb_written at 1.
  destruct (fe_write e); cbn [length]; lia.
Qed.

Lemma filter_all {A} (f : A -> bool) (l : list A) :
  forallb f l = true -> filter f l = l.
Proof.
  induction l as [|x l IH]; [reflexivity|]. cbn. intros H.
  apply andb_true_iff in H. destruct H as [Hx Hl]. rewrite Hx, (IH Hl). reflexivity.
Qed.

Lemma depth_written_rgb_written (es : list frame_env) :
  forallb depth_written es = true -> forallb rgb_written es = true.
Proof.
  induction es as [|e es IH]; [reflexivity|]. cbn. intros H.
  apply andb_true_iff in H. destruct H as [He Hl]. rewrite (IH Hl), andb_true_r.
  unfold depth_written in He. unfold rgb_written. destruct (fe_write e); congruence.
Qed.

(** Over a recording session each pass that feeds the recorder adds one
    frame to the primary sink unless its write fails, and one frame to the
    depth sink unless either write fails: the depth video never has more
    frames than the primary one, and when no write fails both have exactly
    one frame per fed pass.  The sinks are [<prefix>_detection.avi] or
    [<prefix>_rgb.avi], by the detection switch at start, and
    [<prefix>_depth.avi]. *)
Theorem sinks_get_one_frame_per_pass (env : start_env) (output_path : string)
    (s s1 : CameraController) (es : list frame_env) :
  start_recording env output_path s = (true, s1) ->
  is_streaming s = true ->
  pipeline s = true ->
  forallb feeds es = true ->
  let s2 := fst (_stream_worker (map Frame es) s1) in
  exists rw dw : VideoWriter,
    rgb_writer s2 = Some rw /\
    depth_writer s2 = Some dw /\
    vw_path rw = String.append output_path
                   (if detection_enabled s then "_detection.avi" else "_rgb.avi") /\
    vw_path dw = String.append output_path "_depth.avi" /\
    length (vw_frames rw) = length (filter rgb_written es) /\
    length (vw_frames dw) = length (filter depth_written es) /\
    (length (vw_frames dw) <= length (vw_frames rw))%nat /\
    (forallb depth_written es = true ->
     length (vw_frames rw) = length es /\ length (vw_frames dw) = length es).
Proof.
  intros Hstart Hs Hp Hf s2.
  destruct (start_recording_success env output_path s s1 Hstart)
    as (_ & Hr1 & Hrw & Hdw & Hs1 & Hp1 & _).
  destruct (session_sinks es s1 _ _ ltac:(congruence) ltac:(congruence) Hr1 Hrw Hdw Hf)
    as (frames & L & R1 & R2 & _).
  fold s2 in R1, R2. cbn [vw_path vw_frames app] in R1, R2.
  eexists. eexists. split; [exact R1|]. split; [exact R2|].
  cbn [vw_path vw_frames]. split; [reflexivity|]. split; [reflexivity|].
  rewrite length_map. split; [exact L|]. split; [reflexivity|]. split.
  - rewrite L. apply filter_written_le.
  - intros Hall. rewrite L.
    rewrite (filter_all _ _ Hall), (filter_all _ _ (depth_written_rgb_written es Hall)).
    split; reflexivity.
Qed.

Lemma sinks_get_one_frame_per_pass_witness :
  exists rw dw : VideoWriter,
    rgb_writer (fst (_stream_worker
                       (map Frame [good_frame one_detection; good_frame one_detection])
                       (snd (start_recording start_ok "out/rec" (streaming_controller true)))))
    = Some rw /\
    depth_writer (fst (_stream_worker
                         (map Frame [good_frame one_detection; good_frame one_detection])
                         (snd (start_recording start_ok "out/rec"
                                 (streaming_controller true)))))
    = Some dw /\
    length (vw_frames rw) = 2%nat /\ length (vw_frames dw) = 2%nat.
Proof.
  destruct (sinks_get_one_frame_per_pass start_ok "out/rec" (streaming_controller true)
              (snd (start_recording start_ok "out/rec" (streaming_controller true)))
              [good_frame one_detection; good_frame one_detection]
              eq_refl eq_refl eq_refl eq_refl)
    as (rw & dw & H1 & H2 & _ & _ & _ & _ & _ & H3).
  exists rw, dw. split; [exact H1|]. split; [exact H2|]. exact (H3 eq_refl).
Defined.

(** A recording session with detection switched off: the primary sink
    [<prefix>_rgb.avi] receives the raw colour frame of every fed pass and
    [<prefix>_depth.avi] the depth colormap, in order; the detection
    processor -- metadata accumulator and frame counter included -- is not
    touched by start, passes or stop, and no sidecar is written. *)
Theorem plain_recording_session (env : start_env) (output_path : string)
    (s s1 : CameraController) (es : list frame_env) (fs_ok : bool) :
  detection_enabled s = false ->
  start_recording env output_path s = (true, s1) ->
  is_streaming s = true ->
  pipeline s = true ->
  forallb feeds es = true ->
  forallb depth_written es = true ->
  let '(out, s3) := stop_recording fs_ok (fst (_stream_worker (map Frame es) s1)) in
  released out
  = [ {| vw_path := String.append output_path "_rgb.avi";
         vw_frames := map pass_color es |};
      {| vw_path := String.append output_path "_depth.avi";
         vw_frames := map fe_depth_colormap es |} ] /\
  sidecar out = None /\
  recording s3 = false /\
  detection_processor s3 = detection_processor s.
Proof.
  intros Hd Hstart Hs Hp Hf Hall.
  destruct (start_recording_success env output_path s s1 Hstart)
    as (_ & Hr1 & Hrw & Hdw & Hs1 & Hp1 & Hd1 & _ & _ & Hproc).
  rewrite Hd in Hrw, Hproc.
  destruct (session_sinks es s1 _ _ ltac:(congruence) ltac:(congruence) Hr1 Hrw Hdw Hf)
    as (frames & _ & R1 & R2 & R3 & R4 & _ & R6).
  destruct (R6 ltac:(congruence)) as [Rf Rp].
  rewrite (filter_all _ _ Hall) in R2.
  rewrite (filter_all _ _ (depth_written_rgb_written es Hall)) in Rf.
  cbn [vw_path vw_frames app] in R1, R2.
  unfold stop_recording. rewrite R3, R4, Hd1, Hd, R1, R2. cbn.
  rewrite Rf, Rp, Hproc. repeat split.
Qed.

Lemma plain_recording_session_witness :
  released (fst (stop_recording true
                   (fst (_stream_worker (map Frame [good_frame one_detection])
                           (snd (start_recording start_ok "out/rec"
                                   (streaming_controller false)))))))
  = [ {| vw_path := "out/rec_rgb.avi"; vw_frames := [[[(30, 20, 10)]]] |};
      {| vw_path := "out/rec_depth.avi"; vw_frames := [[[(0, 0, 128)]]] |} ].
Proof.
  pose proof (plain_recording_session start_ok "out/rec" (streaming_controller false)
                (snd (start_recording start_ok "out/rec" (streaming_controller false)))
                [good_frame one_detection] true
                eq_refl eq_refl eq_refl eq_refl eq_refl eq_refl) as H.
  destruct (stop_recording _ _) as [out s3]. exact (proj1 H).
Defined.

(** [stop_recording] ends an active session even when the sidecar cannot
    be written: both sinks are released and closed to further frames, the
    flag is cleared, and with a failing file system no sidecar exists.  It
    never clears the metadata accumulator, does nothing at all when no
    session is active, and is idempotent. *)
Theorem stop_recording_always_ends_session (fs_ok fs_ok' : bool) (s : CameraController) :
  let '(out, s1) := stop_recording fs_ok s in
  recording s1 = false /\
  detection_processor s1 = detection_processor s /\
  (recording s = true ->
   rgb_writer s1 = None /\ depth_writer s1 = None /\
   released out = opt_list (rgb_writer s) ++ opt_list (depth_writer s)) /\
  (recording s = false -> out = {| released := []; sidecar := None |} /\ s1 = s) /\
  (fs_ok = false -> sidecar out = None) /\
  (detection_enabled s = false -> sidecar out = None) /\
  stop_recording fs_ok' s1 = ({| released := []; sidecar := None |}, s1).
Proof.
  unfold stop_recording. destruct (recording s) eqn:Hr; cbn [negb].
  - cbn. repeat split; intros; try discriminate.
    + subst fs_ok. destruct (detection_enabled s), (recording_output_path s); reflexivity.
    + rewrite H. reflexivity.
  - cbn. rewrite Hr. cbn. repeat split; intros; try assumption; discriminate.
Qed.

(** A [start_recording] that fails -- because a session is active or
    because opening a sink raises -- never sets [recording], never clears
    the metadata accumulator or the frame counter and never changes the
    output prefix or the start time; at most it leaves the primary sink it
    had already opened in [rgb_writer], which [stop_recording] does not
    release since no session is active. *)
Theorem failed_start_keeps_session (env : start_env) (output_path : string)
    (s : CameraController) (fs_ok : bool) :
  fst (start_recording env output_path s) = false ->
  let s1 := snd (start_recording env output_path s) in
  recording s1 = recording s /\
  detection_processor s1 = detection_processor s /\
  recording_output_path s1 = recording_output_path s /\
  record_start_time s1 = record_start_time s /\
  depth_writer s1 = depth_writer s /\
  (rgb_writer s1 = rgb_writer s \/
   (recording s = false /\ se_outcome env = DepthWriterRaises /\
    rgb_writer s1
    = Some {| vw_path := String.append output_path
                           (if detection_enabled s then "_detection.avi" else "_rgb.avi");
              vw_frames := [] |} /\
    stop_recording fs_ok s1 = ({| released := []; sidecar := None |}, s1))).
Proof.
  unfold start_recording. destruct (recording s) eqn:Hr.
  - cbn. intros _. repeat split; try assumption. left. reflexivity.
  - destruct (se_outcome env) eqn:Ho; cbn; intros Hf; try discriminate.
    + repeat split; try assumption. left. reflexivity.
    + repeat split; try assumption. right.
      split; [reflexivity|]. split; [reflexivity|]. split; [reflexivity|].
      unfold stop_recording. cbn. rewrite Hr. reflexivity.
Qed.

Lemma failed_start_keeps_session_witness :
  rgb_writer (snd (start_recording {| se_outcome := DepthWriterRaises; se_time := 9 |}
                     "out/rec" (streaming_controller false)))
  = Some {| vw_path := "out/rec_rgb.avi"; vw_frames := [] |}.
Proof.
  destruct (failed_start_keeps_session {| se_outcome := DepthWriterRaises; se_time := 9 |}
              "out/rec" (streaming_controller false) true eq_refl)
    as (_ & _ & _ & _ & _ & [H | (_ & _ & H & _)]).
  - discriminate H.
  - exact H.
Defined.

(* ================================================================== *)
(** * Loading the model *)

(** [load_model] reports success exactly when every step went through, and
    only then marks the model as loaded.  It never touches the metadata
    accumulator, the frame counter, the statistics counters or the
    configuration, and never unloads a model.  When the dependencies are
    missing nothing changes at all; on every other outcome a non-empty path
    argument is stored as [model_path] first, so a failed reload leaves the
    path of a model that is not the one in use. *)
Theorem load_model_effects (o : load_outcome) (arg : option string)
    (self : ObjectDetectionProcessor) :
  let '((ok, _), p) := load_model o arg self in
  (ok = true <-> exists basename, o = LoadOk basename) /\
  (ok = true ->
   model p = true /\ model_loaded (detection_stats p) = true) /\
  (ok = false ->
   model_loaded (detection_stats p) = model_loaded (detection_stats self)) /\
  (model self = true -> model p = true) /\
  detection_metadata p = detection_metadata self /\
  frame_count p = frame_count self /\
  processing_times p = processing_times self /\
  cfg p = cfg self /\
  (o = DepsMissing -> p = self) /\
  (o <> DepsMissing ->
   model_path p = match str_truthy arg with
                  | Some path => path
                  | None => model_path self
                  end).
Proof.
  unfold load_model.
  destruct o; destruct (str_truthy arg); cbn;
    repeat split; intros; try reflexivity; try assumption; try discriminate;
    try congruence;
    try match goal with
        | H : exists _, _ = _ |- _ => destruct H; discriminate
        end;
    try (eexists; reflexivity).
Qed.

(** After a successful load, a reload with a new path that fails -- the
    file is missing, [YOLO(...)] raises, or a later statement of the [try]
    block raises -- reports failure and has stored the new path all the
    same.  [model_loaded] is never cleared, so detection can still be
    enabled, and the sidecar of the next recording names the path that
    failed to load. *)
Theorem failed_reload_renames_model (o : load_outcome) (new_path : string)
    (s : CameraController) :
  new_path <> EmptyString ->
  model_loaded (detection_stats (detection_processor s)) = true ->
  (o = FileMissing \/ (exists msg, o = YoloRaises msg) \/ (exists msg, o = SetupRaises msg)) ->
  let s1 := snd (setup_object_detection o new_path s) in
  fst (fst (setup_object_detection o new_path s)) = false /\
  model_loaded (detection_stats (detection_processor s1)) = true /\
  detection_enabled (enable_detection true s1) = true /\
  jget "model_path" (metadata_document (detection_processor s1)) = Some (JStr new_path).
Proof.
  intros Hne Hl Ho. unfold setup_object_detection, load_model.
  destruct new_path as [|a rest]; [congruence|].
  destruct Ho as [-> | [[msg ->] | [msg ->]]]; cbn; rewrite Hl; repeat split.
Qed.

Lemma failed_reload_renames_model_witness :
  jget "model_path"
       (metadata_document
          (detection_processor
             (snd (setup_object_detection (SetupRaises "warm-up failed") "other.pt"
                     (streaming_controller true)))))
  = Some (JStr "other.pt").
Proof.
  apply (failed_reload_renames_model (SetupRaises "warm-up failed") "other.pt"
           (streaming_controller true)).
  - discriminate.
  - reflexivity.
  - right. right. exists "warm-up failed"%string. reflexivity.
Defined.

(* ================================================================== *)
(** * Sidecar path: paths without a video extension *)

Lemma replace_from_absent (old new s : string) :
  occurs old s = false -> replace_from old new 0 s = s.
Proof.
  induction s as [|c s IH]; [reflexivity|].
  cbn [occurs]. intros H. apply orb_false_iff in H. destruct H as [Hp Ho].
  cbn [replace_from]. rewrite Hp, (IH Ho). reflexivity.
Qed.

(** [save_detection_metadata] derives its file name by substitution only:
    for an output path that contains neither [.avi] nor [.mp4] the name is
    the output path itself, so the JSON document is written over that very
    path. *)
Theorem metadata_file_without_extension (self : ObjectDetectionProcessor)
    (output_path : string) :
  occurs ".avi" output_path = false ->
  occurs ".mp4" output_path = false ->
  metadata_file output_path = output_path /\
  save_detection_metadata true self output_path
  = (true, Some (output_path, metadata_document self)).
Proof.
  intros Havi Hmp4.
  assert (H : metadata_file output_path = output_path).
  { unfold metadata_file, str_replace.
    rewrite (replace_from_absent _ _ _ Havi). apply replace_from_absent. exact Hmp4. }
  split; [exact H|]. unfold save_detection_metadata. rewrite H. reflexivity.
Qed.

Lemma metadata_file_without_extension_witness :
  metadata_file "out/rec_detection.mkv" = "out/rec_detection.mkv"%string.
Proof.
  apply (metadata_file_without_extension loaded_processor "out/rec_detection.mkv");
    reflexivity.
Defined.
